(** * Ticket lifecycle of the donation site: a shallow embedding

    The development follows the three Lambda handlers that touch the
    donation table:

    - [ProcessDonation.lambda_handler]      creates the pending record;
    - [HandleStripeWebhook.lambda_handler]  completes it on the payment event;
    - [ValidateTicket.lambda_handler]       validates and redeems a ticket.

    Storage, clock, random source and the payment provider are explicit
    inputs of every handler; a handler returns its response together with
    the table it leaves behind. *)

From Stdlib Require Import ZArith List String Ascii Bool Lia.
From Stdlib Require Import DecimalString.
Import ListNotations.

Open Scope string_scope.
Open Scope list_scope.
Open Scope Z_scope.

(* ================================================================= *)
(** ** Python's [float], restricted to what the handlers compute       *)
(* ================================================================= *)

(** A finite double is a dyadic rational, [significand * 2 ^ exponent].
    The handlers build floats in two ways, the true division of two
    integers ([int / int], also inside [timedelta.total_seconds]) and
    the product of two floats; both give the double nearest to the
    exact result, ties to even.  The values at hand are far from the
    overflow and subnormal ranges, which are left out. *)
Module PyFloat.

Record float := mkfloat { significand : Z; exponent : Z }.

(** The integer nearest to [n / d], ties to the even one ([0 < d]). *)
Definition round_half_even (n d : Z) : Z :=
  let q := n / d in
  let r := n mod d in
  if 2 * r <? d then q
  else if d <? 2 * r then q + 1
  else if Z.even q then q else q + 1.

(** [floor(log2(n / d))] for positive [n] and [d]. *)
Definition floor_log2 (n d : Z) : Z :=
  let e := Z.log2 n - Z.log2 d in
  if d * 2 ^ Z.max 0 e <=? n * 2 ^ Z.max 0 (- e) then e else e - 1.

(** The double nearest to [n / d] for [0 < d]: 53 significant bits. *)
Definition nearest (n d : Z) : float :=
  if n =? 0 then mkfloat 0 0
  else
    let e := floor_log2 (Z.abs n) d - 52 in
    mkfloat (Z.sgn n * round_half_even (Z.abs n * 2 ^ Z.max 0 (- e))
                                       (d * 2 ^ Z.max 0 e))
            e.

(** [int(x)]: truncation toward zero. *)
Definition int (x : float) : Z :=
  if 0 <=? exponent x then significand x * 2 ^ exponent x
  else Z.quot (significand x) (2 ^ (- exponent x)).

(** [math.floor(x)] *)
Definition floor (x : float) : Z :=
  if 0 <=? exponent x then significand x * 2 ^ exponent x
  else significand x / 2 ^ (- exponent x).

End PyFloat.

(* ================================================================= *)
(** ** Python's [datetime], restricted to what the handlers call       *)
(* ================================================================= *)

(** Every datetime the handlers build is aware and in UTC
    ([timezone.utc]), so the [tzinfo] field is left out: a [datetime] is
    its civil fields.  Calendar arithmetic goes through the proleptic
    Gregorian ordinal, as in CPython's [datetime] module. *)
Module PyDatetime.

Record date := mkdate { year : Z; month : Z; day : Z }.

Record time := mktime
  { t_hour : Z; t_minute : Z; t_second : Z; t_microsecond : Z }.

Record datetime := mkdatetime
  { dt_date : date;
    hour : Z; minute : Z; second : Z; microsecond : Z }.

Definition MAXORDINAL : Z := 3652059.  (* date(9999, 12, 31).toordinal() *)
Definition EPOCH_ORDINAL : Z := 719163. (* date(1970, 1, 1).toordinal()   *)

Definition DAYS_IN_MONTH : list Z :=
  [-1; 31; 28; 31; 30; 31; 30; 31; 31; 30; 31; 30; 31].

Definition DAYS_BEFORE_MONTH : list Z :=
  [-1; 0; 31; 59; 90; 120; 151; 181; 212; 243; 273; 304; 334].

Definition tbl (l : list Z) (i : Z) : Z := nth (Z.to_nat i) l 0.

Definition is_leap (y : Z) : bool :=
  (y mod 4 =? 0) && (negb (y mod 100 =? 0) || (y mod 400 =? 0)).

Definition days_before_year (y : Z) : Z :=
  let y := y - 1 in y * 365 + y / 4 - y / 100 + y / 400.

Definition days_in_month (y m : Z) : Z :=
  if (m =? 2) && is_leap y then 29 else tbl DAYS_IN_MONTH m.

Definition b2z (b : bool) : Z := if b then 1 else 0.

Definition days_before_month_leap (leap : bool) (m : Z) : Z :=
  tbl DAYS_BEFORE_MONTH m + b2z ((2 <? m) && leap).

Definition days_before_month (y m : Z) : Z :=
  days_before_month_leap (is_leap y) m.

Definition ymd2ord (y m d : Z) : Z :=
  days_before_year y + days_before_month y m + d.

Definition DI400Y : Z := 146097.
Definition DI100Y : Z := 36524.
Definition DI4Y : Z := 1461.

(** Month and day (1-based) of the [n]-th day (0-based) of a year. *)
Definition month_day (leapyear : bool) (n : Z) : Z * Z :=
  let month := Z.shiftr (n + 50) 5 in
  let preceding := tbl DAYS_BEFORE_MONTH month + b2z ((2 <? month) && leapyear) in
  if n <? preceding then
    let month := month - 1 in
    let preceding :=
      preceding - (tbl DAYS_IN_MONTH month + b2z ((month =? 2) && leapyear)) in
    (month, n - preceding + 1)
  else (month, n - preceding + 1).

Definition ord2ymd (n : Z) : date :=
  let n := n - 1 in
  let n400 := n / DI400Y in
  let n := n mod DI400Y in
  let year := n400 * 400 + 1 in
  let n100 := n / DI100Y in
  let n := n mod DI100Y in
  let n4 := n / DI4Y in
  let n := n mod DI4Y in
  let n1 := n / 365 in
  let n := n mod 365 in
  let year := year + (n100 * 100 + n4 * 4 + n1) in
  if (n1 =? 4) || (n100 =? 4) then mkdate (year - 1) 12 31
  else
    let leapyear := (n1 =? 3) && (negb (n4 =? 24) || (n100 =? 3)) in
    let '(month, d) := month_day leapyear n in
    mkdate year month d.

Definition toordinal (d : date) : Z := ymd2ord (year d) (month d) (day d).

(** [date.fromordinal]; callers stay within [1 .. MAXORDINAL]. *)
Definition fromordinal (n : Z) : date := ord2ymd n.

(** [datetime.combine(d, t, tzinfo=timezone.utc)] *)
Definition combine (d : date) (t : time) : datetime :=
  mkdatetime d (t_hour t) (t_minute t) (t_second t) (t_microsecond t).

(** [time(h, m)] *)
Definition time_hm (h m : Z) : time := mktime h m 0 0.

Definition seconds_of_day (dt : datetime) : Z :=
  hour dt * 3600 + minute dt * 60 + second dt.

(** Microseconds since 1970-01-01T00:00:00Z: what
    [(dt - _EPOCH)] holds for an aware UTC datetime. *)
Definition total_microseconds (dt : datetime) : Z :=
  ((toordinal (dt_date dt) - EPOCH_ORDINAL) * 86400 + seconds_of_day dt)
    * 1000000 + microsecond dt.

(** [int(dt.timestamp())].  For an aware datetime [timestamp()] is
    [(dt - _EPOCH).total_seconds()], the float
    [total_microseconds / 10**6], and [int] truncates it toward zero.
    The float is exact on whole seconds; with microseconds it can
    round up to the next second (from the year 2514 on). *)
Definition int_timestamp (dt : datetime) : Z :=
  PyFloat.int (PyFloat.nearest (total_microseconds dt) 1000000).

(** [dt + timedelta(days=k)]; [None] is Python's [OverflowError]
    ("date value out of range"). *)
Definition add_days (dt : datetime) (k : Z) : option datetime :=
  let o := toordinal (dt_date dt) + k in
  if (0 <? o) && (o <=? MAXORDINAL)
  then Some (mkdatetime (fromordinal o)
                        (hour dt) (minute dt) (second dt) (microsecond dt))
  else None.

(** [datetime.fromtimestamp(int(t), tz=timezone.utc)]; [None] stands
    for the exception Python raises when the year leaves [1 .. 9999]. *)
Definition fromtimestamp (t : Z) : option datetime :=
  let o := t / 86400 + EPOCH_ORDINAL in
  let s := t mod 86400 in
  if (1 <=? o) && (o <=? MAXORDINAL)
  then Some (mkdatetime (fromordinal o)
                        (s / 3600) ((s mod 3600) / 60) (s mod 60) 0)
  else None.

Definition decimal (n : Z) : string :=
  NilZero.string_of_uint (N.to_uint (Z.to_N n)).

Definition pad2 (n : Z) : string :=
  if n <? 10 then "0" ++ decimal n else decimal n.

(** [dt.strftime('%Y-%m-%d %H:%M:%S UTC')] *)
Definition strftime (dt : datetime) : string :=
  decimal (year (dt_date dt)) ++ "-" ++ pad2 (month (dt_date dt)) ++ "-"
    ++ pad2 (day (dt_date dt)) ++ " " ++ pad2 (hour dt) ++ ":"
    ++ pad2 (minute dt) ++ ":" ++ pad2 (second dt) ++ " UTC".

(** [int(datetime.now(timezone.utc).timestamp())]: the clock read as
    whole seconds.  The reading comes from a [datetime], so it lies
    between 0001-01-01T00:00:00Z and 9999-12-31T23:59:59Z (the last
    microseconds of the year 9999, whose float rounds up to the next
    second, are left out). *)
Definition MIN_TIMESTAMP : Z := -62135596800.
Definition MAX_TIMESTAMP : Z := 253402300799.

Record instant := mkinstant
  { epoch_seconds : Z;
    epoch_seconds_range :
      (MIN_TIMESTAMP <=? epoch_seconds) && (epoch_seconds <=? MAX_TIMESTAMP)
      = true }.

(** A datetime Python can construct. *)
Definition valid_date (d : date) : Prop :=
  1 <= year d <= 9999 /\ 1 <= month d <= 12
  /\ 1 <= day d <= days_in_month (year d) (month d).

Definition valid_datetime (dt : datetime) : Prop :=
  valid_date (dt_date dt)
  /\ 0 <= hour dt < 24 /\ 0 <= minute dt < 60 /\ 0 <= second dt < 60
  /\ 0 <= microsecond dt < 1000000.

End PyDatetime.

Import PyDatetime.

(* ================================================================= *)
(** ** Exceptions                                                      *)
(* ================================================================= *)

(** The handlers tell a botocore [ClientError] (with its error code)
    from every other [Exception]. *)
Inductive exn :=
| ClientError (code : string)
| ValueError (msg : string)
| OtherException.

Inductive raised (A : Type) :=
| Returns (a : A)
| Raises (e : exn).
Arguments Returns {A} a.
Arguments Raises {A} e.

Definition bind {A B} (m : raised A) (k : A -> raised B) : raised B :=
  match m with
  | Returns a => k a
  | Raises e => Raises e
  end.

Notation "x <- m ;; k" := (bind m (fun x => k))
  (at level 61, m at next level, right associativity).

(** What the environment does to one storage or service call: serve it,
    or fail it with an exception. *)
Definition fault := option exn.

(* ================================================================= *)
(** ** The donation table                                              *)
(* ================================================================= *)

(** An item of [DonationRecords] with the attributes the handlers read
    or write, typed as the handlers write them; an attribute that is
    absent (or null) is [None].  [donationId] is the primary key.  The
    table is kept in storage order: a query over a secondary index
    returns the matching items in that order and the handlers take the
    first. *)
Module Dynamo.

Record item := mkitem
  { donationId : string;
    checkoutSessionId : option string;
    amount : option Z;
    currency : option string;
    status : option string;
    payerEmail : option string;
    timestamp : option Z;
    eventName : option string;
    verificationId : option string;
    expirationTime : option Z;
    redeemed : option bool;
    creationTime : option Z;
    payerName : option string;
    redeemedTime : option Z;
    frontendDomain : option string }.

Definition table := list item.

(** The item that holds nothing but its key. *)
Definition key_only (k : string) : item :=
  mkitem k None None None None None None None None None None None None None None.

Definition has_key (k : string) (it : item) : bool :=
  String.eqb (donationId it) k.

Definition get_item (k : string) (t : table) : option item :=
  find (has_key k) t.

(** [put_item]: writes the whole item, replacing the one under its key. *)
Definition put_item (it : item) (t : table) : table :=
  if existsb (has_key (donationId it)) t
  then map (fun x => if has_key (donationId it) x then it else x) t
  else t ++ [it].

(** [update_item] with a SET expression [f]: upserts under key [k]. *)
Definition update_item (k : string) (f : item -> item) (t : table) : table :=
  if existsb (has_key k) t
  then map (fun x => if has_key k x then f x else x) t
  else t ++ [f (key_only k)].

(** [update_item] with a ConditionExpression: [None] is the
    ConditionalCheckFailedException.  The check and the write are one
    atomic step of the store. *)
Definition update_item_if (k : string) (cond : item -> bool)
           (f : item -> item) (t : table) : option table :=
  let current := match get_item k t with Some it => it | None => key_only k end in
  if cond current then Some (update_item k f t) else None.

Definition attr_is (v : string) (a : option string) : bool :=
  match a with
  | Some s => String.eqb s v
  | None => false
  end.

(** [query] on a secondary index whose key attribute is [attr]. *)
Definition query (attr : item -> option string) (v : string) (t : table)
  : list item :=
  filter (fun it => attr_is v (attr it)) t.

End Dynamo.

Import Dynamo.

(* ================================================================= *)
(** ** ProcessDonation: purchase intent, the pending record            *)
(* ================================================================= *)

Module ProcessDonation.

(** [json.loads(event.get('body', '{}'))] and the two fields read from
    it.  [amount] is [Some n] when the JSON value is an integer. *)
Inductive request_body :=
| Unparsable
| Json (email : option string) (amount : option Z).

Record event := mkevent
  { httpMethod : option string; body : request_body }.

Record price_item := mkprice
  { priceInCents : option Z; eventName : option string }.

Record checkout_session := mksession
  { id : string; url : string }.

Record environment := mkenv
  { price_get_item : raised (option price_item);
    uuid4 : string;
    session_create : raised checkout_session;
    time_time : Z;
    put_fault : fault }.

Inductive response_body :=
| EmptyBody
| SessionUrl (session_url : string)
| InternalServerError (e : exn).

Record response := mkresponse
  { statusCode : Z; response_body_of : response_body }.

Definition non_empty (s : option string) : bool :=
  match s with
  | Some s => negb (String.eqb s EmptyString)
  | None => false
  end.

Definition try_block (ev : event) (env : environment) (t : table)
  : raised (response * table) :=
  match body ev with
  | Unparsable => Raises OtherException
  | Json user_email amount =>
    let price_config :=
      match price_get_item env with
      | Returns c => c
      | Raises _ => None
      end in
    donation_amount_name <-
      match price_config with
      | Some c =>
        match priceInCents c with
        | Some p =>
          Returns (Some p,
                   match eventName c with Some n => n | None => "Event Ticket" end)
        | None => Raises OtherException
        end
      | None => Returns (amount, "One-time Donation")
      end ;;
    let '(donation_amount, product_name) := donation_amount_name in
    match donation_amount with
    | None => Raises (ValueError "Invalid amount. Must be at least 1 EUR.")
    | Some donation_amount =>
      if donation_amount <? 100
      then Raises (ValueError "Invalid amount. Must be at least 1 EUR.")
      else if negb (non_empty user_email)
      then Raises (ValueError "Email is required.")
      else
        let donation_id := uuid4 env in
        cs <- session_create env ;;
        let item_to_save :=
          mkitem donation_id (Some (id cs)) (Some donation_amount)
                 (Some "eur") (Some "pending") user_email
                 (Some (time_time env))
                 (match price_config with
                  | Some _ => Some product_name
                  | None => None
                  end)
                 None None None None None None None in
        match put_fault env with
        | Some e => Raises e
        | None =>
          Returns (mkresponse 200 (SessionUrl (url cs)), put_item item_to_save t)
        end
    end
  end.

Definition lambda_handler (ev : event) (env : environment) (t : table)
  : response * table :=
  if attr_is "OPTIONS" (httpMethod ev) then (mkresponse 200 EmptyBody, t)
  else
    match try_block ev env t with
    | Returns r => r
    | Raises e => (mkresponse 500 (InternalServerError e), t)
    end.

End ProcessDonation.

(* ================================================================= *)
(** ** handle_stripe_webhook: completion of a purchase                 *)
(* ================================================================= *)

Module HandleStripeWebhook.

(** One value of [random.random()]: the float [mantissa / 2**53]. *)
Record uniform01 := mkuniform
  { mantissa : Z;
    mantissa_range : (0 <=? mantissa) && (mantissa <? 2 ^ 53) = true }.

Definition ascii_uppercase : string := "ABCDEFGHIJKLMNOPQRSTUVWXYZ".

(** [random() * n] with [n = len(population) + 0.0]: the float
    product of [mantissa / 2**53] and [n]. *)
Definition random_times (u : uniform01) (n : Z) : PyFloat.float :=
  PyFloat.nearest (mantissa u * n) (2 ^ 53).

(** [population[floor(random() * n)]] *)
Definition choice (population : list ascii) (u : uniform01) : ascii :=
  nth (Z.to_nat
         (PyFloat.floor (random_times u (Z.of_nat (List.length population)))))
      population " "%char.

(** [random.choices(population, k=k)]: the [i]-th character uses the
    [i]-th value of the random source. *)
Definition choices (population : list ascii) (random : nat -> uniform01)
           (k : nat) : list ascii :=
  map (fun i => choice population (random i)) (seq 0 k).

Definition generate_short_id (random : nat -> uniform01) (length : nat)
  : string :=
  let characters := (ascii_uppercase ++ "23456789")%string in
  let short_id :=
    string_of_list_ascii
      (choices (list_ascii_of_string characters) random length) in
  short_id.

(** [event['headers']] of the Lambda event: the key may be missing, be
    null, or hold the headers with their [Stripe-Signature], if any. *)
Inductive headers_field :=
| NoHeaders
| NullHeaders
| Headers (stripe_signature : option string).

Record event := mkevent { headers : headers_field }.

(** [event.get('headers', {}).get('Stripe-Signature')]: the default
    only replaces a missing key, and [.get] on a null raises
    [AttributeError]. *)
Definition sig_header (ev : event) : raised (option string) :=
  match headers ev with
  | NoHeaders => Returns None
  | NullHeaders => Raises OtherException
  | Headers stripe_signature => Returns stripe_signature
  end.

(** A key of the session's [customer_details] as [dict.get] sees it. *)
Inductive json_field :=
| Missing
| Null
| Str (s : string).

(** [session['customer_details']]: missing, null, or the object with
    its [email] (absent or null is [None]) and its [name]. *)
Inductive details_field :=
| NoDetails
| NullDetails
| Details (email : option string) (name : json_field).

(** [session['amount_total']]: missing, null, or the amount in cents. *)
Inductive amount_field :=
| NoAmount
| NullAmount
| Amount (cents : Z).

(** The session object of the event, with the keys the handler reads. *)
Record session := mksession
  { id : option string;
    customer_details : details_field;
    amount_total : amount_field }.

Record stripe_event := mkstripe_event
  { event_type : string; data_object : session }.

(** [session.get('customer_details', {}).get('email')]; [.get] on a
    null [customer_details] raises [AttributeError]. *)
Definition customer_email (session : session) : raised (option string) :=
  match customer_details session with
  | NoDetails => Returns None
  | NullDetails => Raises OtherException
  | Details email _ => Returns email
  end.

(** [session.get('customer_details', {}).get('name', 'N/A')] *)
Definition customer_name (session : session) : raised (option string) :=
  match customer_details session with
  | NoDetails => Returns (Some "N/A")
  | NullDetails => Raises OtherException
  | Details _ Missing => Returns (Some "N/A")
  | Details _ Null => Returns None
  | Details _ (Str s) => Returns (Some s)
  end.

(** [session.get('amount_total', 0) / 100]; dividing a null raises
    [TypeError]. *)
Definition amount_in_euros (session : session) : raised PyFloat.float :=
  match amount_total session with
  | NoAmount => Returns (PyFloat.nearest 0 100)
  | NullAmount => Raises OtherException
  | Amount cents => Returns (PyFloat.nearest cents 100)
  end.

(** [construct_event] is what [stripe.Webhook.construct_event] makes
    of the payload and the signature of this delivery. *)
Record environment := mkenv
  { construct_event : raised stripe_event;
    now_utc : datetime;
    random : nat -> uniform01;
    query_fault : fault;
    update_fault : fault;
    send_email_fault : fault;
    FALLBACK_FRONTEND_DOMAIN : string }.

Record response := mkresponse
  { statusCode : Z; body : option (list (string * string)) }.

(** The body of an acknowledged but failed delivery. *)
Definition error_body (msg : string) : option (list (string * string)) :=
  Some [("status", "error"); ("message", msg)].

Record email := mkemail
  { to_email : string;
    email_verification_id : string;
    email_amount : PyFloat.float;
    frontend_domain : string }.

Definition creation_timestamp (now_utc : datetime) : Z :=
  int_timestamp now_utc.

Definition expiration_datetime (now_utc : datetime) : raised datetime :=
  tomorrow_utc <-
    match add_days now_utc 1 with
    | Some d => Returns d
    | None => Raises OtherException
    end ;;
  Returns (combine (dt_date tomorrow_utc) (time_hm 5 0)).

Definition expiration_timestamp (now_utc : datetime) : raised Z :=
  d <- expiration_datetime now_utc ;;
  Returns (int_timestamp d).

(** The SET expression of the completion write. *)
Definition completion_update (verification_id : string)
           (expiration_timestamp creation_timestamp : Z)
           (customer_email payer_name : option string) (it : item) : item :=
  mkitem (donationId it) (checkoutSessionId it) (amount it) (currency it)
         (Some "completed") customer_email (timestamp it) (eventName it)
         (Some verification_id) (Some expiration_timestamp) (Some false)
         (Some creation_timestamp) payer_name (redeemedTime it)
         (frontendDomain it).

(** [send_verification_email]: the mail that leaves, if any; a failure
    of the mail service is printed and swallowed. *)
Definition send_verification_email (env : environment)
           (to_email : option string) (verification_id : string)
           (amount : PyFloat.float) (frontend_domain : string) : list email :=
  match send_email_fault env, to_email with
  | None, Some to => [mkemail to verification_id amount frontend_domain]
  | _, _ => []
  end.

(** Lines 66-114, the body of the [try]; [customer_email] and
    [amount_total] were read before it. *)
Definition try_block (env : environment) (session : session)
           (customer_email : option string) (amount_total : PyFloat.float)
           (t : table)
  : raised (response * table * list email) :=
  let checkout_session_id := id session in
  let verification_id := generate_short_id (random env) 7 in
  let creation_timestamp := creation_timestamp (now_utc env) in
  expiration_timestamp <- expiration_timestamp (now_utc env) ;;
  items <-
    match query_fault env, checkout_session_id with
    | Some e, _ => Raises e
    | None, None => Raises (ClientError "ValidationException")
    | None, Some sid => Returns (query checkoutSessionId sid t)
    end ;;
  match items with
  | [] =>
    Returns (mkresponse 200 (error_body "Donation record not found"), t, [])
  | donation_item :: _ =>
    let donation_id := donationId donation_item in
    let dynamic_frontend_domain :=
      match frontendDomain donation_item with
      | Some d => d
      | None => FALLBACK_FRONTEND_DOMAIN env
      end in
    payer_name <- customer_name session ;;
    match update_fault env with
    | Some e => Raises e
    | None =>
      let t' :=
        update_item donation_id
          (completion_update verification_id expiration_timestamp
                             creation_timestamp customer_email payer_name) t in
      Returns (mkresponse 200 (Some [("status", "success")]), t',
               send_verification_email env customer_email verification_id
                                       amount_total dynamic_frontend_domain)
    end
  end.

(** The handler returns a response or raises; either way the table it
    leaves and the mails it has sent are part of the outcome.  The
    reads of the headers and of the session (lines 47-48 and 59-62)
    stand outside every [try]: what they raise leaves the handler. *)
Definition lambda_handler (ev : event) (env : environment) (t : table)
  : raised response * table * list email :=
  match sig_header ev with
  | Raises e => (Raises e, t, [])
  | Returns _ =>
    match construct_event env with
    | Raises _ => (Returns (mkresponse 400 None), t, [])
    | Returns stripe_event =>
      if String.eqb (event_type stripe_event) "checkout.session.completed"
      then
        let session := data_object stripe_event in
        match customer_email session with
        | Raises e => (Raises e, t, [])
        | Returns customer_email =>
          match amount_in_euros session with
          | Raises e => (Raises e, t, [])
          | Returns amount_total =>
            match try_block env session customer_email amount_total t with
            | Returns (r, t', mails) => (Returns r, t', mails)
            | Raises _ =>
              (Returns (mkresponse 200 (error_body "Internal server error")),
               t, [])
            end
          end
        end
      else (Returns (mkresponse 200 (Some [("status", "success")])), t, [])
    end
  end.

End HandleStripeWebhook.

(* ================================================================= *)
(** ** validate_ticket: validation and redemption at the gate          *)
(* ================================================================= *)

Module ValidateTicket.

(** [json.loads(event.get('body', '{}'))] and the field read from it. *)
Inductive request_body :=
| Unparsable
| Json (verification_id : option string).

Record event := mkevent
  { httpMethod : option string; body : request_body }.

Record environment := mkenv
  { current_time_utc : instant;
    redeem_timestamp : instant;
    query_fault : fault;
    update_fault : fault }.

Record response_data := mkdata
  { valid : bool;
    reason : string;
    r_donationId : string;
    r_verificationId : string;
    r_status : option string;
    r_payerEmail : option string;
    r_amount : option Z;
    r_currency : option string;
    r_creationTime : Z;
    r_expirationTime : Z;
    r_currentTime : Z;
    r_redeemed : bool;
    r_redeemedTime : option Z;
    actionTaken : string }.

Inductive response_body :=
| EmptyBody
| Message (message : string) (valid : bool) (reason : string)
| Ticket (d : response_data).

Record response := mkresponse
  { statusCode : Z;
    headers : list (string * string);
    response_body_of : response_body }.

Definition cors_headers : list (string * string) :=
  [("Access-Control-Allow-Origin", "*");
   ("Access-Control-Allow-Headers", "Content-Type,Authorization");
   ("Access-Control-Allow-Methods", "POST, OPTIONS")].

Definition create_response (status_code : Z) (body_content : response_body)
           (headers : list (string * string)) : response :=
  mkresponse status_code headers body_content.

(** The fields of a response body, where it has them. *)
Definition body_valid (b : response_body) : option bool :=
  match b with
  | EmptyBody => None
  | Message _ v _ => Some v
  | Ticket d => Some (valid d)
  end.

Definition body_reason (b : response_body) : option string :=
  match b with
  | EmptyBody => None
  | Message _ _ r => Some r
  | Ticket d => Some (reason d)
  end.

Definition body_action (b : response_body) : option string :=
  match b with
  | Ticket d => Some (actionTaken d)
  | _ => None
  end.

Definition default {A} (d : A) (o : option A) : A :=
  match o with
  | Some a => a
  | None => d
  end.

(** Rule 2's reason: the redemption time is printed when the record
    has a non-zero one. *)
Definition already_redeemed_reason (item : item) : raised string :=
  let redeemed_timestamp := redeemedTime item in
  match redeemed_timestamp with
  | Some ts =>
    if ts =? 0 then Returns "Ticket has already been redeemed."
    else
      match fromtimestamp ts with
      | Some redeemed_dt =>
        Returns ("Ticket has already been redeemed at "
                   ++ strftime redeemed_dt ++ ".")%string
      | None => Raises OtherException
      end
  | None => Returns "Ticket has already been redeemed."
  end.

(** The validation rules: [(is_valid, reason)]. *)
Definition validation_rules (item : item) (current_time_utc : Z)
  : raised (bool * string) :=
  let status := status item in
  let is_redeemed_db := default false (redeemed item) in
  let expiration_time_utc_db := default 0 (expirationTime item) in
  let creation_time_utc_db := default 0 (creationTime item) in
  let two_hour_window_end_time := creation_time_utc_db + 2 * 60 * 60 in
  if negb (attr_is "completed" status) then
    Returns (false,
      "Ticket status is not 'completed'. Payment might be pending or failed.")
  else if is_redeemed_db then
    reason <- already_redeemed_reason item ;;
    Returns (false, reason)
  else if expiration_time_utc_db <? current_time_utc then
    Returns (false, "Ticket has expired (past 5 AM UTC next day).")
  else if two_hour_window_end_time <? current_time_utc then
    Returns (false,
      "Ticket is no longer valid (exceeded 2-hour validation window from purchase).")
  else Returns (true, "Ticket is valid.").

(** What an invocation holds between the lookup and the write: the
    item as it was read and the time it was evaluated at. *)
Record snapshot := mksnapshot
  { snap_verification_id : string;
    snap_item : item;
    snap_current_time_utc : Z }.

Definition response_data_of (s : snapshot) (is_valid : bool)
           (reason : string) (is_redeemed_db : bool)
           (redeemed_time_db : option Z) (action_taken : string)
  : response_data :=
  let item := snap_item s in
  mkdata is_valid reason (donationId item) (snap_verification_id s)
         (status item) (payerEmail item) (amount item) (currency item)
         (default 0 (creationTime item)) (default 0 (expirationTime item))
         (snap_current_time_utc s) is_redeemed_db redeemed_time_db
         action_taken.

(** The answer of the outer [except], and the answer to a ticket the
    rules reject. *)
Definition internal_server_error : response :=
  create_response 500
    (Message "Internal server error." false "Internal server error")
    cors_headers.

Definition invalid_response (s : snapshot) (reason : string) : response :=
  create_response 200
    (Ticket (response_data_of s false reason
               (default false (redeemed (snap_item s)))
               (redeemedTime (snap_item s)) "none"))
    cors_headers.

(** From the request to the verdict of the rules.  No write happens
    here: the result is a finished response, or the snapshot of a
    ticket found valid. *)
Definition lookup_and_validate (ev : event) (env : environment) (t : table)
  : raised (response + snapshot) :=
  match body ev with
  | Unparsable => Raises OtherException
  | Json verification_id =>
    match verification_id with
    | None | Some EmptyString =>
      Returns (inl (create_response 400
        (Message "Verification ID is required." false "Missing ID")
        cors_headers))
    | Some verification_id =>
      items <-
        match query_fault env with
        | Some e => Raises e
        | None => Returns (query verificationId verification_id t)
        end ;;
      match items with
      | [] =>
        Returns (inl (create_response 404
          (Message "Ticket not found." false "Ticket not found")
          cors_headers))
      | item :: _ =>
        let current_time_utc := epoch_seconds (current_time_utc env) in
        let s := mksnapshot verification_id item current_time_utc in
        verdict <- validation_rules item current_time_utc ;;
        let '(is_valid, reason) := verdict in
        if is_valid then Returns (inr s)
        else Returns (inl (invalid_response s reason))
      end
    end
  end.

(** The SET expression and the ConditionExpression of the redeem write. *)
Definition redeem_update (redeem_timestamp : Z) (it : item) : item :=
  mkitem (donationId it) (checkoutSessionId it) (amount it) (currency it)
         (status it) (payerEmail it) (timestamp it) (eventName it)
         (verificationId it) (expirationTime it) (Some true)
         (creationTime it) (payerName it) (Some redeem_timestamp)
         (frontendDomain it).

Definition not_yet_redeemed (it : item) : bool :=
  match redeemed it with
  | None => true
  | Some r => Bool.eqb r false
  end.

(** The body of the inner [try]: the conditional write, then the log
    line that prints the redemption time. *)
Definition redeem_write (donation_id : string) (env : environment)
           (t : table) : raised unit * table :=
  let redeem_timestamp := epoch_seconds (redeem_timestamp env) in
  match update_fault env with
  | Some e => (Raises e, t)
  | None =>
    match update_item_if donation_id not_yet_redeemed
                         (redeem_update redeem_timestamp) t with
    | None => (Raises (ClientError "ConditionalCheckFailedException"), t)
    | Some t' =>
      match fromtimestamp redeem_timestamp with
      | Some _ => (Returns tt, t')
      | None => (Raises OtherException, t')
      end
    end
  end.

(** The redemption of a ticket found valid, with the handlers of the
    inner [try].  A [ClientError] that is not the failed condition is
    raised again and leaves this block. *)
Definition redemption_logic (s : snapshot) (env : environment) (t : table)
  : raised response * table :=
  let item := snap_item s in
  let donation_id := donationId item in
  let is_redeemed_db := default false (redeemed item) in
  let redeemed_time_db := redeemedTime item in
  let respond is_valid reason is_redeemed_db redeemed_time_db action_taken :=
    Returns (create_response 200
      (Ticket (response_data_of s is_valid reason is_redeemed_db
                                redeemed_time_db action_taken))
      cors_headers) in
  match redeem_write donation_id env t with
  | (Returns _, t') =>
    (respond true "Ticket is valid and has been redeemed." true
             (Some (epoch_seconds (redeem_timestamp env))) "redeemed", t')
  | (Raises (ClientError code), t') =>
    if String.eqb code "ConditionalCheckFailedException" then
      (respond false "Ticket has already been redeemed by another process."
               is_redeemed_db redeemed_time_db "failed_redeem_concurrent", t')
    else (Raises (ClientError code), t')
  | (Raises _, t') =>
    (respond false "Internal error during ticket redemption."
             is_redeemed_db redeemed_time_db "failed_redeem_general", t')
  end.

Definition try_block (ev : event) (env : environment) (t : table)
  : raised response * table :=
  match lookup_and_validate ev env t with
  | Raises e => (Raises e, t)
  | Returns (inl r) => (Returns r, t)
  | Returns (inr s) => redemption_logic s env t
  end.

Definition lambda_handler (ev : event) (env : environment) (t : table)
  : response * table :=
  if attr_is "OPTIONS" (httpMethod ev)
  then (mkresponse 200 cors_headers EmptyBody, t)
  else
    match try_block ev env t with
    | (Returns r, t') => (r, t')
    | (Raises _, t') => (internal_server_error, t')
    end.

End ValidateTicket.

(* ================================================================= *)
(** ** Concurrent invocations of validate_ticket                       *)
(* ================================================================= *)

(** Invocations share nothing but the table.  An invocation touches the
    table twice: the query (with the rules evaluated on what it read)
    and, for a ticket found valid, the conditional write.  Each of the
    two is one atomic step on the table as it stands; steps of
    different invocations interleave in any order. *)
Module Gate.

Import ValidateTicket.

Inductive invocation :=
| Invoked (ev : event) (env : environment)
| Evaluated (s : snapshot) (env : environment)
| Returned (r : response).

(** Up to and including the query. *)
Definition first_step (ev : event) (env : environment) (t : table)
  : invocation :=
  if attr_is "OPTIONS" (httpMethod ev)
  then Returned (mkresponse 200 cors_headers EmptyBody)
  else
    match lookup_and_validate ev env t with
    | Raises _ => Returned internal_server_error
    | Returns (inl r) => Returned r
    | Returns (inr s) => Evaluated s env
    end.

(** The conditional write and the response built after it. *)
Definition second_step (s : snapshot) (env : environment) (t : table)
  : invocation * table :=
  match redemption_logic s env t with
  | (Returns r, t') => (Returned r, t')
  | (Raises _, t') => (Returned internal_server_error, t')
  end.

(** One invocation with the table to itself: both steps back to back. *)
Definition run_alone (ev : event) (env : environment) (t : table)
  : response * table :=
  match first_step ev env t with
  | Returned r => (r, t)
  | Evaluated s env' =>
    match second_step s env' t with
    | (Returned r, t') => (r, t')
    | (_, t') => (internal_server_error, t')
    end
  | Invoked _ _ => (internal_server_error, t)
  end.

Definition advance (i : invocation) (t : table)
  : option (invocation * table) :=
  match i with
  | Invoked ev env => Some (first_step ev env t, t)
  | Evaluated s env => Some (second_step s env t)
  | Returned _ => None
  end.

Definition state : Type := table * list invocation.

Inductive step : state -> state -> Prop :=
| step_at (t t' : table) (before after : list invocation)
          (i i' : invocation) :
    advance i t = Some (i', t') ->
    step (t, before ++ i :: after) (t', before ++ i' :: after).

Inductive steps : state -> state -> Prop :=
| steps_refl (s : state) : steps s s
| steps_more (s s' s'' : state) : steps s s' -> step s' s'' -> steps s s''.

Definition is_returned (i : invocation) : bool :=
  match i with
  | Returned _ => true
  | _ => false
  end.

Definition responses (l : list invocation) : list response :=
  flat_map (fun i => match i with Returned r => [r] | _ => [] end) l.

Definition action_is (a : string) (r : response) : bool :=
  attr_is a (body_action (response_body_of r)).

(** A POST for verification code [vid]. *)
Definition attempt (vid : string) (env : environment) : invocation :=
  Invoked (mkevent (Some "POST") (Json (Some vid))) env.

(** The table after the attempt run in [env] has redeemed item [k]. *)
Definition redeemed_by (env : environment) (k : string) (t0 : table)
  : table :=
  update_item k (redeem_update (epoch_seconds (redeem_timestamp env))) t0.

(** The ticket is good at the time [env] evaluates it. *)
Definition in_time (it : item) (env : environment) : Prop :=
  epoch_seconds (current_time_utc env) <= default 0 (expirationTime it)
  /\ epoch_seconds (current_time_utc env)
     <= default 0 (creationTime it) + 2 * 60 * 60.

Definition storage_serves (env : environment) : Prop :=
  query_fault env = None /\ update_fault env = None.

(** The three responses an attempt on a good ticket can get. *)
Definition won (r : response) : Prop :=
  statusCode r = 200
  /\ body_valid (response_body_of r) = Some true
  /\ body_action (response_body_of r) = Some "redeemed".

Definition lost_the_write (r : response) : Prop :=
  statusCode r = 200
  /\ body_valid (response_body_of r) = Some false
  /\ body_action (response_body_of r) = Some "failed_redeem_concurrent"
  /\ body_reason (response_body_of r)
     = Some "Ticket has already been redeemed by another process.".

Definition read_too_late (r : response) : Prop :=
  statusCode r = 200
  /\ body_valid (response_body_of r) = Some false
  /\ body_action (response_body_of r) = Some "none"
  /\ exists reason,
       body_reason (response_body_of r) = Some reason
       /\ prefix "Ticket has already been redeemed" reason = true.

Definition wins (l : list invocation) : nat :=
  List.length (filter (action_is "redeemed") (responses l)).

(** What an invocation of the race for ticket [it0] can be: not yet at
    the table, holding the snapshot of the unredeemed ticket, or
    returned with one of the three responses. *)
Definition in_race (vid : string) (it0 : item) (envs : list environment)
           (i : invocation) : Prop :=
  (exists env,
      In env envs
      /\ (i = attempt vid env
          \/ i = Evaluated
                   (mksnapshot vid it0 (epoch_seconds (current_time_utc env)))
                   env))
  \/ (exists r, i = Returned r
                /\ (won r \/ lost_the_write r \/ read_too_late r)).

Definition is_evaluated (i : invocation) : bool :=
  match i with
  | Evaluated _ _ => true
  | _ => false
  end.

(** An invocation that read the ticket while it was unredeemed: it
    holds that snapshot, or it has returned from the write. *)
Definition read_in_time (vid : string) (it0 : item)
           (envs : list environment) (i : invocation) : Prop :=
  (exists env,
      In env envs
      /\ i = Evaluated
                (mksnapshot vid it0 (epoch_seconds (current_time_utc env))) env)
  \/ (exists r, i = Returned r /\ (won r \/ lost_the_write r)).

(** The invariant of the race: nobody has returned and the table is
    untouched, or the ticket is redeemed by one attempt and exactly
    one response says so. *)
Definition race_invariant (vid : string) (t0 : table) (it0 : item)
           (envs : list environment) (st : state) : Prop :=
  List.length (snd st) = List.length envs
  /\ Forall (in_race vid it0 envs) (snd st)
  /\ ((fst st = t0 /\ responses (snd st) = [])
      \/ (exists w, In w envs
                    /\ fst st = redeemed_by w (donationId it0) t0
                    /\ wins (snd st) = 1%nat)).

(** A schedule names, step by step, the invocation that moves. *)
Definition advance_nth (n : nat) (s : state) : state :=
  match nth_error (snd s) n with
  | Some i =>
    match advance i (fst s) with
    | Some (i', t') => (t', firstn n (snd s) ++ i' :: skipn (S n) (snd s))
    | None => s
    end
  | None => s
  end.

Definition schedule (picks : list nat) (s : state) : state :=
  fold_left (fun s n => advance_nth n s) picks s.

End Gate.

(* ================================================================= *)
(** ** Histories of a table                                            *)
(* ================================================================= *)

(** The three operations that write the donation table, each a whole
    handler invocation, applied one after the other. *)
Module Lifecycle.

Inductive operation :=
| createPending (ev : ProcessDonation.event)
                (env : ProcessDonation.environment)
| completePurchase (ev : HandleStripeWebhook.event)
                   (env : HandleStripeWebhook.environment)
| redeem (ev : ValidateTicket.event) (env : ValidateTicket.environment).

Definition apply (op : operation) (t : table) : table :=
  match op with
  | createPending ev env => snd (ProcessDonation.lambda_handler ev env t)
  | completePurchase ev env =>
    snd (fst (HandleStripeWebhook.lambda_handler ev env t))
  | redeem ev env => snd (ValidateTicket.lambda_handler ev env t)
  end.

Definition run (ops : list operation) (t : table) : table :=
  fold_left (fun t op => apply op t) ops t.

(** The record a completion event is about, if the table has one. *)
Definition completes (env : HandleStripeWebhook.environment) (t : table)
  : option item :=
  match HandleStripeWebhook.construct_event env with
  | Returns e =>
    if String.eqb (HandleStripeWebhook.event_type e)
                  "checkout.session.completed"
    then
      match HandleStripeWebhook.id (HandleStripeWebhook.data_object e) with
      | Some sid => head (query checkoutSessionId sid t)
      | None => None
      end
    else None
  | Raises _ => None
  end.

(** No completion event is delivered for a record that already holds
    a redemption time. *)
Fixpoint no_delivery_after_redemption (ops : list operation) (t : table)
  : bool :=
  match ops with
  | [] => true
  | op :: ops' =>
    match op with
    | completePurchase _ env =>
      match completes env t with
      | Some it =>
        match redeemedTime it with
        | Some _ => false
        | None => true
        end
      | None => true
      end
    | _ => true
    end && no_delivery_after_redemption ops' (apply op t)
  end.

(** The invariants of the data model, on one record. *)
Definition redeemed_implies_completed (it : item) : Prop :=
  redeemed it = Some true -> status it = Some "completed".

Definition redeemed_implies_time (it : item) : Prop :=
  redeemed it = Some true -> redeemedTime it <> None.

Definition time_implies_redeemed (it : item) : Prop :=
  redeemedTime it <> None -> redeemed it = Some true.

(** The redemption time, when there is one, is a time [datetime] can
    print. *)
Definition printable_time (it : item) : Prop :=
  match redeemedTime it with
  | Some ts => fromtimestamp ts <> None
  | None => True
  end.

Definition sound (it : item) : Prop :=
  redeemed_implies_completed it /\ redeemed_implies_time it.

(** [donationId] is a key, and every record is sound. *)
Definition well_formed (t : table) : Prop :=
  NoDup (map donationId t) /\ Forall sound t.

End Lifecycle.

(* ================================================================= *)
(** ** The specification's wording, for comparison                     *)
(* ================================================================= *)

Module Spec.

(** The rules of the state machine, in the order they are listed. *)
Inductive rule :=
| PaymentNotCompleted
| AlreadyRedeemed
| Expired
| ExceededShortWindow.

Definition fails (r : rule) (it : item) (now : Z) : bool :=
  match r with
  | PaymentNotCompleted => negb (attr_is "completed" (status it))
  | AlreadyRedeemed =>
    match redeemed it with Some true => true | _ => false end
  | Expired =>
    match expirationTime it with Some e => e <? now | None => 0 <? now end
  | ExceededShortWindow =>
    match creationTime it with
    | Some c => c + 7200 <? now
    | None => 7200 <? now
    end
  end.

(** First failing rule wins; [None] is the valid verdict. *)
Definition evaluate (it : item) (now : Z) : option rule :=
  find (fun r => fails r it now)
       [PaymentNotCompleted; AlreadyRedeemed; Expired; ExceededShortWindow].

(** "Add one calendar day": the date that follows [d] in the
    calendar. *)
Definition next_calendar_day (d : date) : date :=
  if day d <? days_in_month (year d) (month d)
  then mkdate (year d) (month d) (day d + 1)
  else if month d <? 12 then mkdate (year d) (month d + 1) 1
  else mkdate (year d + 1) 1 1.

(** The alphabet as the specification describes it: no lowercase
    letter and none of [0], [1], [O], [I]. *)
Definition lowercase (c : ascii) : bool :=
  let n := N_of_ascii c in ((97 <=? n) && (n <=? 122))%N.

Definition confusable (c : ascii) : bool :=
  existsb (Ascii.eqb c) ["0"; "1"; "O"; "I"]%char.

Definition unambiguous (c : ascii) : bool :=
  negb (lowercase c) && negb (confusable c).

(** The alphabet of the code: uppercase letters and the digits 2-9. *)
Definition uppercase_or_2_to_9 (c : ascii) : bool :=
  let n := N_of_ascii c in
  (((65 <=? n) && (n <=? 90)) || ((50 <=? n) && (n <=? 57)))%N.

End Spec.


(* ================================================================= *)
(** ** Concrete records, events and environments                       *)
(* ================================================================= *)

Module Examples.

Definition completion_2300 : datetime :=
  mkdatetime (mkdate 2024 1 10) 23 0 0 0.
Definition completion_0200 : datetime :=
  mkdatetime (mkdate 2024 1 10) 2 0 0 0.
Definition jan_11_0500 : datetime := mkdatetime (mkdate 2024 1 11) 5 0 0 0.
Definition jan_12_0500 : datetime := mkdatetime (mkdate 2024 1 12) 5 0 0 0.

(** A random source that always returns 0.25. *)
Definition quarter : HandleStripeWebhook.uniform01 :=
  HandleStripeWebhook.mkuniform (2 ^ 51) eq_refl.
Definition always_quarter : nat -> HandleStripeWebhook.uniform01 :=
  fun _ => quarter.

(** A purchase waiting for its payment. *)
Definition pending_record : item :=
  mkitem "donation-1" (Some "cs_test_1") (Some 500) (Some "eur")
         (Some "pending") (Some "buyer@example.org") (Some 1704927000)
         None None None None None None None None.

(** The Lambda event of a delivery signed by the provider. *)
Definition signed : HandleStripeWebhook.event :=
  HandleStripeWebhook.mkevent
    (HandleStripeWebhook.Headers (Some "t=1704927600,v1=5257a869")).

Definition paid (sid : string) : HandleStripeWebhook.stripe_event :=
  HandleStripeWebhook.mkstripe_event "checkout.session.completed"
    (HandleStripeWebhook.mksession
       (Some sid)
       (HandleStripeWebhook.Details (Some "buyer@example.org")
                                    (HandleStripeWebhook.Str "Buyer"))
       (HandleStripeWebhook.Amount 500)).

(** The completion of a checkout that took no payment (a session in
    setup mode): the provider sends [amount_total] as null. *)
Definition set_up (sid : string) : HandleStripeWebhook.stripe_event :=
  HandleStripeWebhook.mkstripe_event "checkout.session.completed"
    (HandleStripeWebhook.mksession
       (Some sid)
       (HandleStripeWebhook.Details (Some "buyer@example.org")
                                    (HandleStripeWebhook.Str "Buyer"))
       HandleStripeWebhook.NullAmount).

(** The webhook for session [sid], delivered at 2024-01-10T23:00:00Z. *)
Definition delivery (sid : string) (update_fault : fault)
  : HandleStripeWebhook.environment :=
  HandleStripeWebhook.mkenv
    (Returns (paid sid)) completion_2300 always_quarter None
    update_fault None "http://localhost:3000".

(** A ticket completed at 2024-01-10T23:00:00Z. *)
Definition ticket : item :=
  mkitem "donation-1" (Some "cs_test_1") (Some 500) (Some "eur")
         (Some "completed") (Some "buyer@example.org") (Some 1704927000)
         None (Some "ABCDEFG") (Some 1704949200) (Some false)
         (Some 1704927600) (Some "N/A") None None.

Definition gate_table : table := [ticket].

Definition scan (code : string) : ValidateTicket.event :=
  ValidateTicket.mkevent (Some "POST") (ValidateTicket.Json (Some code)).

(** Ten and twenty minutes after completion. *)
Definition after_10_min : instant := mkinstant 1704928200 eq_refl.
Definition after_20_min : instant := mkinstant 1704928800 eq_refl.

Definition calm (now : instant) : ValidateTicket.environment :=
  ValidateTicket.mkenv now now None None.

Definition throttled (now : instant) : ValidateTicket.environment :=
  ValidateTicket.mkenv now now None
    (Some (ClientError "ProvisionedThroughputExceededException")).

Definition purchase : ProcessDonation.event :=
  ProcessDonation.mkevent (Some "POST")
    (ProcessDonation.Json (Some "buyer@example.org") (Some 500)).

Definition checkout : ProcessDonation.environment :=
  ProcessDonation.mkenv
    (Returns None) "donation-1"
    (Returns (ProcessDonation.mksession "cs_test_1" "https://checkout.test/1"))
    1704927000 None.

(** The delivery for session [sid] of an event the provider sends
    with [amount_total] null. *)
Definition delivery_of_set_up (sid : string)
  : HandleStripeWebhook.environment :=
  HandleStripeWebhook.mkenv
    (Returns (set_up sid)) completion_2300 always_quarter None
    None None "http://localhost:3000".

(** Purchase, payment, redemption, and the payment event once more. *)
Definition duplicate_delivery : list Lifecycle.operation :=
  [Lifecycle.createPending purchase checkout;
   Lifecycle.completePurchase signed (delivery "cs_test_1" None);
   Lifecycle.redeem (scan "IIIIIII") (calm after_10_min);
   Lifecycle.completePurchase signed (delivery "cs_test_1" None)].

(** Purchase, payment and redemption, each once. *)
Definition normal_history : list Lifecycle.operation :=
  [Lifecycle.createPending purchase checkout;
   Lifecycle.completePurchase signed (delivery "cs_test_1" None);
   Lifecycle.redeem (scan "IIIIIII") (calm after_10_min)].

(** Purchase, the payment event twice, then the redemption. *)
Definition delivered_twice : list Lifecycle.operation :=
  [Lifecycle.createPending purchase checkout;
   Lifecycle.completePurchase signed (delivery "cs_test_1" None);
   Lifecycle.completePurchase signed (delivery "cs_test_1" None);
   Lifecycle.redeem (scan "IIIIIII") (calm after_10_min)].

(** Two scans of [ticket]; in [race_end] the first one has read and
    written before the second one reads. *)
Definition race_envs : list ValidateTicket.environment :=
  [calm after_10_min; calm after_20_min].

Definition race_start : Gate.state :=
  (gate_table, map (Gate.attempt "ABCDEFG") race_envs).

Definition race_end : Gate.state :=
  Gate.schedule [0; 0; 1]%nat race_start.

(** Both scans read before either writes. *)
Definition race_reads_first : Gate.state :=
  Gate.schedule [0; 1; 0; 1]%nat race_start.

End Examples.

(* ================================================================= *)
(** ** The price configuration table                                   *)
(* ================================================================= *)

(** [EventPriceConfig], keyed by [configId].  The handlers only ever
    use the key ['current_event_price']. *)
Module PriceConfig.

Record config_item := mkconfig
  { configId : string;
    priceInCents : option Z;
    eventName : option string;
    lastUpdated : option Z }.

Definition table := list config_item.

Definition PRICE_CONFIG_ID : string := "current_event_price".

Definition has_id (k : string) (c : config_item) : bool :=
  String.eqb (configId c) k.

Definition get_item (k : string) (t : table) : option config_item :=
  find (has_id k) t.

Definition put_item (c : config_item) (t : table) : table :=
  if existsb (has_id (configId c)) t
  then map (fun x => if has_id (configId c) x then c else x) t
  else t ++ [c].

(** [delete_item]: removing a key that is not there is not an error. *)
Definition delete_item (k : string) (t : table) : table :=
  filter (fun x => negb (has_id k x)) t.

(** The item as [ProcessDonation] reads it. *)
Definition as_price_item (c : config_item) : ProcessDonation.price_item :=
  ProcessDonation.mkprice (priceInCents c) (eventName c).

(** [price_table.get_item(Key={'configId': PRICE_CONFIG_ID}).get('Item')]
    of [ProcessDonation], against this table. *)
Definition price_get_item (f : fault) (t : table)
  : raised (option ProcessDonation.price_item) :=
  match f with
  | Some e => Raises e
  | None => Returns (option_map as_price_item (get_item PRICE_CONFIG_ID t))
  end.

End PriceConfig.

(* ================================================================= *)
(** ** set_event_price                                                 *)
(* ================================================================= *)

Module SetEventPrice.

Import PriceConfig.

(** [body.get('price')] as [int()] sees it: absent or null; a value
    [int] converts (an integer, a float truncated, a numeric string, a
    boolean); a value on which [int] raises [ValueError] or
    [TypeError]; a value on which it raises something else (an
    infinite float). *)
Inductive price_raw :=
| PriceNone
| PriceInt (n : Z)
| PriceNotNumber
| PriceOverflow.

(** [json.loads(event.get('body', '{}'))] with the two fields read;
    [event_name] is [Some s] when the JSON value is a string. *)
Inductive request_body :=
| Unparsable
| Json (price : price_raw) (event_name : option string).

Record event := mkevent
  { httpMethod : option string; body : request_body }.

Record environment := mkenv
  { remaining_time_in_millis : Z; put_fault : fault }.

Inductive response_body :=
| EmptyBody
| PriceSet (message : string) (price : Z) (eventName : string)
| InternalError (e : exn).

Record response := mkresponse
  { statusCode : Z; response_body_of : response_body }.

Definition try_block (ev : event) (env : environment) (t : table)
  : raised (response * table) :=
  match body ev with
  | Unparsable => Raises OtherException
  | Json price_raw event_name =>
    match event_name with
    | None | Some EmptyString =>
      Raises (ValueError "Event name is missing or invalid.")
    | Some event_name =>
      price_in_cents <-
        match price_raw with
        | PriceNone => Raises (ValueError "Price is missing from the request body.")
        | PriceInt n => Returns n
        | PriceNotNumber => Raises (ValueError "Price must be a valid number.")
        | PriceOverflow => Raises OtherException
        end ;;
      if price_in_cents <=? 0
      then Raises (ValueError "Price must be a positive number.")
      else
        match put_fault env with
        | Some e => Raises e
        | None =>
          Returns (mkresponse 200
                     (PriceSet "Price set successfully" price_in_cents event_name),
                   put_item (mkconfig PRICE_CONFIG_ID (Some price_in_cents)
                                      (Some event_name)
                                      (Some (remaining_time_in_millis env))) t)
        end
    end
  end.

Definition lambda_handler (ev : event) (env : environment) (t : table)
  : response * table :=
  if attr_is "OPTIONS" (httpMethod ev) then (mkresponse 200 EmptyBody, t)
  else
    match try_block ev env t with
    | Returns r => r
    | Raises e => (mkresponse 500 (InternalError e), t)
    end.

End SetEventPrice.

(* ================================================================= *)
(** ** get_event_price                                                 *)
(* ================================================================= *)

Module GetEventPrice.

Import PriceConfig.

Inductive response_body :=
| EmptyBody
| Message (message : string)
| Item (c : config_item).

Record response := mkresponse
  { statusCode : Z; response_body_of : response_body }.

Definition lambda_handler (httpMethod : option string) (get_fault : fault)
           (t : table) : response :=
  if attr_is "OPTIONS" httpMethod then mkresponse 200 EmptyBody
  else
    match get_fault with
    | Some _ => mkresponse 500 (Message "An internal error occurred.")
    | None =>
      match get_item PRICE_CONFIG_ID t with
      | None => mkresponse 404 (Message "No fixed price has been set.")
      | Some item => mkresponse 200 (Item item)
      end
    end.

End GetEventPrice.

(* ================================================================= *)
(** ** unset-price-event                                               *)
(* ================================================================= *)

Module UnsetPriceEvent.

Import PriceConfig.

Record response := mkresponse
  { statusCode : Z; message : option string }.

Definition lambda_handler (httpMethod : option string) (delete_fault : fault)
           (t : table) : response * table :=
  if attr_is "OPTIONS" httpMethod then (mkresponse 200 None, t)
  else
    match delete_fault with
    | Some _ =>
      (mkresponse 500
         (Some "An internal error occurred while removing the price."), t)
    | None =>
      (mkresponse 200 (Some "Fixed price successfully removed."),
       delete_item PRICE_CONFIG_ID t)
    end.

End UnsetPriceEvent.

(* ================================================================= *)
(** ** getDonationDetails                                              *)
(* ================================================================= *)

Module GetDonationDetails.

(** [event.get('queryStringParameters', {})]: the key may be missing,
    be null (no query string at all), or hold the parameters. *)
Inductive query_string :=
| NoKey
| NullParameters
| Parameters (sessionId : option string).

Record event := mkevent
  { httpMethod : option string; queryStringParameters : query_string }.

Record details := mkdetails
  { d_verificationId : option string;
    d_amount : option Z;
    d_currency : option string;
    d_payerEmail : option string;
    d_creationTime : option Z;
    d_expirationTime : option Z;
    d_redeemed : bool;
    d_redeemedTime : option Z;
    d_donationId : string;
    d_status : string }.

Inductive response_body :=
| EmptyBody
| Error (error : string)
| ErrorStatus (error : string) (status : option string)
| Details (d : details).

Record response := mkresponse
  { statusCode : Z; response_body_of : response_body }.

(** [str(status)] inside the f-string. *)
Definition str (status : option string) : string :=
  match status with
  | Some s => s
  | None => "None"
  end.

Definition base_response_data (item : item) (status : string) : details :=
  mkdetails (verificationId item) (amount item) (currency item)
            (payerEmail item) (creationTime item) (expirationTime item)
            (match redeemed item with Some b => b | None => false end)
            (redeemedTime item) (donationId item) status.

Definition try_block (ev : event) (query_fault : fault) (t : table)
  : raised response :=
  session_id <-
    match queryStringParameters ev with
    | NoKey => Returns None
    | NullParameters => Raises OtherException
    | Parameters sessionId => Returns sessionId
    end ;;
  match session_id with
  | None | Some EmptyString =>
    Returns (mkresponse 400 (Error "sessionId is required"))
  | Some session_id =>
    items <-
      match query_fault with
      | Some e => Raises e
      | None => Returns (query checkoutSessionId session_id t)
      end ;;
    match items with
    | item :: _ =>
      let status := status item in
      if attr_is "completed" status
      then Returns (mkresponse 200 (Details (base_response_data item "succeeded")))
      else if attr_is "pending" status
      then Returns (mkresponse 200 (Details (base_response_data item "succeeded")))
      else
        Returns (mkresponse 409
                   (ErrorStatus
                      ("Donation has an unexpected status: " ++ str status)
                      status))
    | [] =>
      Returns (mkresponse 404
                 (ErrorStatus "Donation record not yet found. Retrying..."
                              (Some "not_found")))
    end
  end.

Definition lambda_handler (ev : event) (query_fault : fault) (t : table)
  : response :=
  if attr_is "OPTIONS" (httpMethod ev) then mkresponse 200 EmptyBody
  else
    match try_block ev query_fault t with
    | Returns r => r
    | Raises _ => mkresponse 500 (Error "Internal server error")
    end.

End GetDonationDetails.

(* ================================================================= *)
(** ** The ticket mail                                                 *)
(* ================================================================= *)

(** The two links [send_verification_email] puts into the mail. *)
Module TicketMail.

Definition verification_url (m : HandleStripeWebhook.email) : string :=
  HandleStripeWebhook.frontend_domain m ++ "/verify?id="
    ++ HandleStripeWebhook.email_verification_id m.

Definition qr_code_url (m : HandleStripeWebhook.email) : string :=
  "https://api.qrserver.com/v1/create-qr-code/?size=250x250&data="
    ++ verification_url m.

End TicketMail.

(* ================================================================= *)
(** ** The shape of a stored record                                    *)
(* ================================================================= *)

Module Shape.

(** What the purchase wrote. *)
Definition purchase_fields (it : item) :=
  (donationId it, checkoutSessionId it, amount it, currency it,
   timestamp it, eventName it, frontendDomain it).

(** What the completion wrote. *)
Definition completion_fields (it : item) :=
  (status it, verificationId it, expirationTime it, creationTime it,
   payerEmail it, payerName it).

Definition pending_shape (it : item) : Prop :=
  status it = Some "pending"
  /\ verificationId it = None /\ expirationTime it = None
  /\ creationTime it = None /\ redeemed it = None /\ redeemedTime it = None
  /\ ProcessDonation.non_empty (payerEmail it) = true.

Definition completed_shape (it : item) : Prop :=
  status it = Some "completed"
  /\ (exists code, verificationId it = Some code /\ String.length code = 7%nat)
  /\ expirationTime it <> None /\ creationTime it <> None
  /\ redeemed it <> None.

Definition paid_for (it : item) : Prop :=
  (exists a, amount it = Some a /\ 100 <= a)
  /\ currency it = Some "eur"
  /\ checkoutSessionId it <> None /\ timestamp it <> None.

(** The value of [random.random()] with mantissa [m]; 0.0 when [m] is
    not a 53-bit mantissa. *)
Definition unit_float (m : Z) : HandleStripeWebhook.uniform01 :=
  match bool_dec ((0 <=? m) && (m <? 2 ^ 53)) true with
  | left H => HandleStripeWebhook.mkuniform m H
  | right _ => HandleStripeWebhook.mkuniform 0 eq_refl
  end.

(** A value of [random.random()] that selects index [i] of a
    population of [n]: the least one whose product with [n], taken
    exactly, reaches [i]. *)
Definition least_for (n i : Z) : HandleStripeWebhook.uniform01 :=
  unit_float ((i * 2 ^ 53 + n - 1) / n).

Definition alphabet : list ascii :=
  list_ascii_of_string (HandleStripeWebhook.ascii_uppercase ++ "23456789").

Fixpoint index_of (c : ascii) (l : list ascii) : nat :=
  match l with
  | [] => O
  | x :: l' => if Ascii.eqb x c then O else S (index_of c l')
  end.

(** A random source under which [random.choices] spells [code]. *)
Definition source_for (code : list ascii) (i : nat)
  : HandleStripeWebhook.uniform01 :=
  least_for (Z.of_nat (List.length alphabet))
            (Z.of_nat (index_of (nth i code " "%char) alphabet)).

End Shape.

(* ================================================================= *)
(** ** More concrete requests                                          *)
(* ================================================================= *)

Module MoreExamples.

Import Examples.

(** An administrator fixes the price of "Summer Night" at 50 cents. *)
Definition set_fifty : SetEventPrice.event :=
  SetEventPrice.mkevent (Some "POST")
    (SetEventPrice.Json (SetEventPrice.PriceInt 50) (Some "Summer Night")).

Definition admin : SetEventPrice.environment :=
  SetEventPrice.mkenv 2900 None.

(** A purchase made while the price table is [pt]. *)
Definition checkout_with (pt : PriceConfig.table)
  : ProcessDonation.environment :=
  ProcessDonation.mkenv
    (PriceConfig.price_get_item None pt) "donation-1"
    (Returns (ProcessDonation.mksession "cs_test_1" "https://checkout.test/1"))
    1704927000 None.

Definition poll (sid : string) : GetDonationDetails.event :=
  GetDonationDetails.mkevent (Some "GET")
    (GetDonationDetails.Parameters (Some sid)).

(** [gate_table] after the scan ten minutes after completion. *)
Definition used_table : table :=
  snd (ValidateTicket.lambda_handler (scan "ABCDEFG") (calm after_10_min)
                                     gate_table).

Definition used_ticket : item :=
  ValidateTicket.redeem_update 1704928200 ticket.

End MoreExamples.

(* ================================================================= *)
(** ** Rounding                                                        *)
(* ================================================================= *)

Module PyFloatFacts.

Import PyFloat.

Lemma round_half_even_bounds (n d : Z) :
  0 < d -> n / d <= round_half_even n d <= n / d + 1.
Proof.
  intros Hd. unfold round_half_even.
  destruct (2 * (n mod d) <? d); [lia|].
  destruct (d <? 2 * (n mod d)); [lia|].
  destruct (Z.even (n / d)); lia.
Qed.

Lemma round_half_even_exact (n d : Z) :
  0 < d -> n mod d = 0 -> round_half_even n d = n / d.
Proof.
  intros Hd Hr. unfold round_half_even. rewrite Hr.
  replace (2 * 0 <? d) with true; [reflexivity|].
  symmetry. apply Z.ltb_lt. lia.
Qed.

Lemma floor_log2_le (n d : Z) : floor_log2 n d <= Z.log2 n - Z.log2 d.
Proof. unfold floor_log2. destruct (_ <=? _); lia. Qed.

(** The nearest double of a positive quotient whose unit in the last
    place is [2 ^ (- k)], with [0 <= k]. *)
Lemma nearest_positive (n d : Z) :
  0 < n -> floor_log2 n d <= 52 ->
  exists k,
    0 <= k /\ k = 52 - floor_log2 n d
    /\ nearest n d = mkfloat (round_half_even (n * 2 ^ k) d) (- k).
Proof.
  intros Hn He. exists (52 - floor_log2 n d). split; [lia|].
  split; [reflexivity|].
  unfold nearest. replace (n =? 0) with false by (symmetry; apply Z.eqb_neq; lia).
  rewrite Z.abs_eq by lia. rewrite Z.sgn_pos by lia.
  rewrite Z.max_r by lia. rewrite Z.max_l by lia.
  rewrite Z.mul_1_l. cbn [Z.pow]. rewrite Z.mul_1_r.
  f_equal; [f_equal; f_equal; f_equal; lia|lia].
Qed.

(** Scaling by a power of two and rounding stays within one unit of
    the quotient, and is exact on exact quotients. *)
Lemma scaled_round_bounds (n d p : Z) :
  0 <= n -> 0 < d -> 0 < p ->
  n / d <= round_half_even (n * p) d / p <= n / d + 1
  /\ (n mod d = 0 -> round_half_even (n * p) d / p = n / d).
Proof.
  intros Hn Hd Hp.
  pose proof (round_half_even_bounds (n * p) d Hd) as [Hlo Hhi].
  assert (Hq : n / d * p <= n * p / d).
  { apply Z.div_le_lower_bound; [lia|].
    pose proof (Z.mul_div_le n d Hd). nia. }
  assert (Hq' : n * p / d < (n / d + 1) * p).
  { apply Z.div_lt_upper_bound; [lia|].
    pose proof (Z.mod_pos_bound n d Hd). pose proof (Z.div_mod n d).
    nia. }
  split.
  - split.
    + apply Z.div_le_lower_bound; lia.
    + apply Z.div_le_upper_bound; [lia|]. nia.
  - intros Hr.
    assert (Hn' : n = d * (n / d)).
    { pose proof (Z.div_mod n d). lia. }
    assert (Hm : (n * p) mod d = 0).
    { rewrite Hn' at 1.
      replace (d * (n / d) * p) with (n / d * p * d) by ring.
      apply Z.mod_mul. lia. }
    rewrite (round_half_even_exact _ _ Hd Hm).
    rewrite Hn' at 1.
    replace (d * (n / d) * p) with (n / d * p * d) by ring.
    rewrite Z.div_mul by lia. apply Z.div_mul. lia.
Qed.

(** [int(n / d)] of a non-negative quotient below [2 ** 53]: the
    float may round up to the next integer and never lies below the
    quotient's integer part. *)
Lemma int_nearest_bounds (n d : Z) :
  0 <= n -> 0 < d -> Z.log2 n <= 52 + Z.log2 d ->
  n / d <= int (nearest n d) <= n / d + 1
  /\ (n mod d = 0 -> int (nearest n d) = n / d).
Proof.
  intros Hn Hd Hlog.
  destruct (Z.eq_dec n 0) as [->|Hne].
  { change (int (nearest 0 d)) with 0. rewrite Zdiv_0_l.
    split; [lia|reflexivity]. }
  pose proof (floor_log2_le n d) as Hfl.
  destruct (nearest_positive n d) as (k & Hk & _ & ->); [lia|lia|].
  assert (Hp : 0 < 2 ^ k) by (apply Z.pow_pos_nonneg; lia).
  pose proof (scaled_round_bounds n d (2 ^ k) Hn Hd Hp) as Hb.
  pose proof (round_half_even_bounds (n * 2 ^ k) d Hd) as [Hlo _].
  assert (Hnn : 0 <= round_half_even (n * 2 ^ k) d).
  { assert (0 <= n * 2 ^ k / d) by (apply Z.div_pos; nia). lia. }
  unfold int. cbn [exponent significand].
  destruct (Z.eq_dec k 0) as [->|Hk0].
  - cbn [Z.opp Z.leb Z.compare Z.pow]. cbn [Z.pow] in Hb.
    rewrite Z.div_1_r in Hb. rewrite Z.mul_1_r. exact Hb.
  - replace (0 <=? - k) with false by (symmetry; apply Z.leb_gt; lia).
    rewrite Z.opp_involutive. rewrite Z.quot_div_nonneg by lia. exact Hb.
Qed.

(** [floor(u * n)] for [u] in [0, 1) and the 34 characters of the
    code alphabet: the product is rounded, and still selects a
    character. *)
Lemma floor_product_34 (m : Z) :
  0 <= m < 2 ^ 53 -> 0 <= floor (nearest (m * 34) (2 ^ 53)) <= 33.
Proof.
  intros [H0 H1].
  destruct (Z.eq_dec m 0) as [->|Hne]; [cbn; lia|].
  assert (Hlog : Z.log2 (m * 34) <= 58).
  { apply Z.lt_succ_r. apply Z.log2_lt_pow2; [lia|].
    change (2 ^ Z.succ 58) with (2 ^ 53 * 64). lia. }
  pose proof (floor_log2_le (m * 34) (2 ^ 53)) as Hfl.
  rewrite Z.log2_pow2 in Hfl by lia.
  destruct (nearest_positive (m * 34) (2 ^ 53)) as (k & Hk & Hke & ->);
    [lia|lia|].
  assert (Hk47 : 47 <= k) by lia.
  assert (Hp : 2 ^ 47 <= 2 ^ k) by (apply Z.pow_le_mono_r; lia).
  unfold floor. cbn [exponent significand].
  replace (0 <=? - k) with false by (symmetry; apply Z.leb_gt; lia).
  rewrite Z.opp_involutive.
  set (p := 2 ^ k) in *.
  assert (Hd : 0 < 2 ^ 53) by lia.
  pose proof (round_half_even_bounds (m * 34 * p) (2 ^ 53) Hd) as [Hlo Hhi].
  assert (Hx : m * 34 * p <= (34 * 2 ^ 53 - 34) * p) by nia.
  assert (Hnn : 0 <= m * 34 * p / 2 ^ 53) by (apply Z.div_pos; nia).
  split; [apply Z.div_pos; lia|].
  apply Z.lt_succ_r. apply Z.div_lt_upper_bound; [lia|].
  change (Z.succ 33) with 34.
  unfold round_half_even in *.
  pose proof (Z.div_mod (m * 34 * p) (2 ^ 53)) as Hdm.
  pose proof (Z.mod_pos_bound (m * 34 * p) (2 ^ 53) Hd) as Hr.
  change (2 ^ 47) with 140737488355328 in Hp.
  change (2 ^ 53) with 9007199254740992 in *.
  set (q := m * 34 * p / 9007199254740992) in *.
  set (r := (m * 34 * p) mod 9007199254740992) in *.
  destruct (Z.ltb_spec (2 * r) 9007199254740992); [lia|].
  destruct (Z.ltb_spec 9007199254740992 (2 * r));
    [|destruct (Z.even q)]; lia.
Qed.

End PyFloatFacts.

(* ================================================================= *)
(** ** Calendar arithmetic                                       *)
(* ================================================================= *)

Module PyDatetimeFacts.

Lemma forallb_range (f : Z -> bool) (k : nat) :
  forallb f (map Z.of_nat (seq 0 k)) = true ->
  forall r, 0 <= r < Z.of_nat k -> f r = true.
Proof.
  intros H r Hr.
  rewrite forallb_forall in H. apply H.
  apply in_map_iff. exists (Z.to_nat r). split.
  - apply Z2Nat.id. lia.
  - apply in_seq. lia.
Qed.

Lemma month_day_spec (leap : bool) (r : Z) :
  0 <= r < 365 ->
  days_before_month_leap leap (fst (month_day leap r)) + snd (month_day leap r)
  = r + 1.
Proof.
  intros Hr.
  pose (f := fun r => days_before_month_leap leap (fst (month_day leap r))
                      + snd (month_day leap r) =? r + 1).
  apply Z.eqb_eq. change (f r = true).
  apply (forallb_range f 365); [|lia].
  destruct leap; vm_compute; reflexivity.
Qed.

Lemma is_leap_split (q n100 n4 n1 : Z) :
  0 <= n100 <= 3 -> 0 <= n4 <= 24 -> 0 <= n1 <= 3 ->
  is_leap (q * 400 + 1 + (n100 * 100 + n4 * 4 + n1))
  = (n1 =? 3) && (negb (n4 =? 24) || (n100 =? 3)).
Proof.
  intros H100 H4 H1. unfold is_leap.
  repeat match goal with
         | |- context [?a =? ?b] => destruct (Z.eqb_spec a b)
         end; cbn; try reflexivity; exfalso;
    Z.div_mod_to_equations; lia.
Qed.

Lemma days_before_year_split (q n100 n4 n1 : Z) :
  0 <= n100 <= 3 -> 0 <= n4 <= 24 -> 0 <= n1 <= 3 ->
  days_before_year (q * 400 + 1 + (n100 * 100 + n4 * 4 + n1))
  = DI400Y * q + DI100Y * n100 + DI4Y * n4 + 365 * n1.
Proof.
  intros H100 H4 H1. unfold days_before_year, DI400Y, DI100Y, DI4Y.
  Z.div_mod_to_equations. lia.
Qed.

(** [toordinal] undoes [fromordinal]. *)
Lemma toordinal_fromordinal (n : Z) : toordinal (fromordinal n) = n.
Proof.
  unfold fromordinal, ord2ymd.
  pose proof (Z.div_mod (n - 1) DI400Y ltac:(discriminate)) as E400.
  pose proof (Z.mod_pos_bound (n - 1) DI400Y eq_refl) as B400.
  set (q := (n - 1) / DI400Y) in *.
  set (r := (n - 1) mod DI400Y) in *.
  pose proof (Z.div_mod r DI100Y ltac:(discriminate)) as E100.
  pose proof (Z.mod_pos_bound r DI100Y eq_refl) as B100.
  set (n100 := r / DI100Y) in *.
  set (r2 := r mod DI100Y) in *.
  pose proof (Z.div_mod r2 DI4Y ltac:(discriminate)) as E4.
  pose proof (Z.mod_pos_bound r2 DI4Y eq_refl) as B4.
  set (n4 := r2 / DI4Y) in *.
  set (r3 := r2 mod DI4Y) in *.
  pose proof (Z.div_mod r3 365 ltac:(discriminate)) as E1.
  pose proof (Z.mod_pos_bound r3 365 eq_refl) as B1.
  set (n1 := r3 / 365) in *.
  set (r4 := r3 mod 365) in *.
  unfold DI400Y, DI100Y, DI4Y in E400, B400, E100, B100, E4, B4.
  assert (0 <= n100 <= 4) by lia.
  assert (0 <= n4 <= 24) by lia.
  assert (0 <= n1 <= 4) by lia.
  destruct (Z.eqb_spec n1 4) as [En1|Nn1]; cbn [orb].
  - (* the last day of a four-year cycle *)
    assert (n100 <= 3 /\ n4 <= 23) as [? ?] by lia.
    replace (q * 400 + 1 + (n100 * 100 + n4 * 4 + n1) - 1)
      with (q * 400 + 1 + (n100 * 100 + n4 * 4 + 3)) by lia.
    unfold toordinal, ymd2ord, days_before_month. cbn [year month day].
    rewrite is_leap_split, days_before_year_split by lia.
    replace (n4 =? 24) with false by (symmetry; apply Z.eqb_neq; lia).
    change (days_before_month_leap _ 12) with 335.
    unfold DI400Y, DI100Y, DI4Y. lia.
  - destruct (Z.eqb_spec n100 4) as [En100|Nn100].
    + (* the last day of a 400-year cycle *)
      assert (n4 = 0 /\ n1 = 0) as [-> ->] by lia.
      replace (q * 400 + 1 + (n100 * 100 + 0 * 4 + 0) - 1)
        with (q * 400 + 1 + (3 * 100 + 24 * 4 + 3)) by lia.
      unfold toordinal, ymd2ord, days_before_month. cbn [year month day].
      rewrite is_leap_split, days_before_year_split by lia.
      change (days_before_month_leap _ 12) with 335.
      unfold DI400Y, DI100Y, DI4Y. lia.
    + pose proof (month_day_spec
                    ((n1 =? 3) && (negb (n4 =? 24) || (n100 =? 3))) r4 B1)
        as Hmd.
      destruct (month_day _ r4) as [mo d]. cbn [fst snd] in Hmd.
      unfold toordinal, ymd2ord, days_before_month. cbn [year month day].
      rewrite is_leap_split, days_before_year_split by lia.
      unfold DI400Y, DI100Y, DI4Y. lia.
Qed.

Lemma months_fit_year (y m : Z) :
  1 <= m <= 12 ->
  0 <= days_before_month y m
  /\ days_before_month y m + days_in_month y m <= 365 + b2z (is_leap y).
Proof.
  intros Hm. unfold days_before_month, days_in_month.
  pose (f := fun leap m' =>
               let m := m' + 1 in
               (0 <=? days_before_month_leap leap m)
               && (days_before_month_leap leap m
                   + (if (m =? 2) && leap then 29 else tbl DAYS_IN_MONTH m)
                   <=? 365 + b2z leap)).
  assert (Hf : f (is_leap y) (m - 1) = true).
  { apply (forallb_range (f (is_leap y)) 12); [|lia].
    destruct (is_leap y); vm_compute; reflexivity. }
  unfold f in Hf. cbv zeta in Hf.
  replace (m - 1 + 1) with m in Hf by lia.
  apply andb_true_iff in Hf. destruct Hf as [H0 H1].
  apply Z.leb_le in H0, H1. split; assumption.
Qed.

Lemma days_within_year (y m d : Z) :
  1 <= m <= 12 -> 1 <= d <= days_in_month y m ->
  1 <= days_before_month y m + d <= 365 + b2z (is_leap y).
Proof.
  intros Hm Hd. pose proof (months_fit_year y m Hm). lia.
Qed.

Lemma days_before_year_next (y : Z) :
  days_before_year (y + 1) = days_before_year y + 365 + b2z (is_leap y).
Proof.
  unfold days_before_year, is_leap, b2z.
  repeat match goal with
         | |- context [?a =? ?b] => destruct (Z.eqb_spec a b)
         end; cbn [andb orb negb];
    Z.div_mod_to_equations; lia.
Qed.

Lemma days_before_year_mono (y y' : Z) :
  y <= y' -> days_before_year y <= days_before_year y'.
Proof.
  intros H. unfold days_before_year. Z.div_mod_to_equations. lia.
Qed.

Lemma toordinal_bounds (d : date) :
  valid_date d ->
  days_before_year (year d) < toordinal d <= days_before_year (year d + 1).
Proof.
  intros (Hy & Hm & Hd). unfold toordinal, ymd2ord.
  pose proof (days_within_year _ _ _ Hm Hd).
  rewrite days_before_year_next. lia.
Qed.

Lemma month_day_valid (leap : bool) (r : Z) :
  0 <= r < 365 ->
  1 <= fst (month_day leap r) <= 12
  /\ 1 <= snd (month_day leap r)
     <= (if (fst (month_day leap r) =? 2) && leap then 29
         else tbl DAYS_IN_MONTH (fst (month_day leap r))).
Proof.
  intros Hr.
  pose (f := fun r =>
               let m := fst (month_day leap r) in
               let d := snd (month_day leap r) in
               (1 <=? m) && (m <=? 12) && (1 <=? d)
               && (d <=? (if (m =? 2) && leap then 29
                          else tbl DAYS_IN_MONTH m))).
  assert (Hf : f r = true).
  { apply (forallb_range f 365); [|lia].
    destruct leap; vm_compute; reflexivity. }
  unfold f in Hf. cbv zeta in Hf.
  repeat (apply andb_true_iff in Hf; destruct Hf as [Hf ?]).
  repeat match goal with
         | H : (_ <=? _) = true |- _ => apply Z.leb_le in H
         end.
  lia.
Qed.

(** Month and day of a date [fromordinal] returns are those of a
    calendar date. *)
Lemma fromordinal_in_year (n : Z) :
  1 <= month (fromordinal n) <= 12
  /\ 1 <= day (fromordinal n)
     <= days_in_month (year (fromordinal n)) (month (fromordinal n)).
Proof.
  unfold fromordinal, ord2ymd.
  pose proof (Z.div_mod (n - 1) DI400Y ltac:(discriminate)) as E400.
  pose proof (Z.mod_pos_bound (n - 1) DI400Y eq_refl) as B400.
  set (q := (n - 1) / DI400Y) in *.
  set (r := (n - 1) mod DI400Y) in *.
  pose proof (Z.div_mod r DI100Y ltac:(discriminate)) as E100.
  pose proof (Z.mod_pos_bound r DI100Y eq_refl) as B100.
  set (n100 := r / DI100Y) in *.
  set (r2 := r mod DI100Y) in *.
  pose proof (Z.div_mod r2 DI4Y ltac:(discriminate)) as E4.
  pose proof (Z.mod_pos_bound r2 DI4Y eq_refl) as B4.
  set (n4 := r2 / DI4Y) in *.
  set (r3 := r2 mod DI4Y) in *.
  pose proof (Z.div_mod r3 365 ltac:(discriminate)) as E1.
  pose proof (Z.mod_pos_bound r3 365 eq_refl) as B1.
  set (n1 := r3 / 365) in *.
  set (r4 := r3 mod 365) in *.
  unfold DI400Y, DI100Y, DI4Y in E400, B400, E100, B100, E4, B4.
  assert (0 <= n100 <= 4) by lia.
  assert (0 <= n4 <= 24) by lia.
  assert (0 <= n1 <= 4) by lia.
  destruct (Z.eqb_spec n1 4) as [En1|Nn1]; cbn [orb].
  - cbn [year month day]. unfold days_in_month.
    change (12 =? 2) with false. cbn [andb].
    change (tbl DAYS_IN_MONTH 12) with 31. lia.
  - destruct (Z.eqb_spec n100 4) as [En100|Nn100].
    + cbn [year month day]. unfold days_in_month.
      change (12 =? 2) with false. cbn [andb].
      change (tbl DAYS_IN_MONTH 12) with 31. lia.
    + pose proof (month_day_valid
                    ((n1 =? 3) && (negb (n4 =? 24) || (n100 =? 3))) r4 B1)
        as Hmd.
      destruct (month_day _ r4) as [mo d]. cbn [fst snd] in Hmd.
      cbn [year month day]. unfold days_in_month.
      rewrite is_leap_split by lia. exact Hmd.
Qed.

Lemma toordinal_in_year (d : date) :
  1 <= month d <= 12 -> 1 <= day d <= days_in_month (year d) (month d) ->
  days_before_year (year d) < toordinal d <= days_before_year (year d + 1).
Proof.
  intros Hm Hd. unfold toordinal, ymd2ord.
  pose proof (days_within_year _ _ _ Hm Hd).
  rewrite days_before_year_next. lia.
Qed.

(** [fromordinal] returns a date of the calendar. *)
Lemma fromordinal_valid (n : Z) :
  1 <= n <= MAXORDINAL -> valid_date (fromordinal n).
Proof.
  intros [Hlo Hhi].
  destruct (fromordinal_in_year n) as [Hm Hd].
  pose proof (toordinal_in_year _ Hm Hd) as Hb.
  rewrite toordinal_fromordinal in Hb.
  split; [|split; assumption].
  split.
  - destruct (Z_lt_le_dec (year (fromordinal n)) 1) as [Hlt|]; [|assumption].
    pose proof (days_before_year_mono (year (fromordinal n) + 1) 1
                  ltac:(lia)) as Hmono.
    change (days_before_year 1) with 0 in Hmono. lia.
  - destruct (Z_lt_le_dec 9999 (year (fromordinal n))) as [Hlt|]; [|assumption].
    pose proof (days_before_year_mono 10000 (year (fromordinal n))
                  ltac:(lia)) as Hmono.
    change (days_before_year 10000) with 3652059 in Hmono.
    unfold MAXORDINAL in Hhi. lia.
Qed.

(** The months of a year follow one another without gap or overlap. *)
Lemma months_in_order (leap : bool) (m : Z) :
  1 <= m <= 11 ->
  days_before_month_leap leap (m + 1)
  = days_before_month_leap leap m
    + (if (m =? 2) && leap then 29 else tbl DAYS_IN_MONTH m).
Proof.
  intros Hm.
  pose (f := fun m' =>
               let m := m' + 1 in
               days_before_month_leap leap (m + 1)
               =? days_before_month_leap leap m
                  + (if (m =? 2) && leap then 29 else tbl DAYS_IN_MONTH m)).
  assert (Hf : f (m - 1) = true).
  { apply (forallb_range f 11); [|lia].
    destruct leap; vm_compute; reflexivity. }
  unfold f in Hf. cbv zeta in Hf.
  replace (m - 1 + 1) with m in Hf by lia.
  now apply Z.eqb_eq in Hf.
Qed.

Lemma month_has_days (y m : Z) : 1 <= m <= 12 -> 28 <= days_in_month y m <= 31.
Proof.
  intros Hm. unfold days_in_month.
  pose (f := fun leap m' =>
               let m := m' + 1 in
               let n := if (m =? 2) && leap then 29 else tbl DAYS_IN_MONTH m in
               (28 <=? n) && (n <=? 31)).
  assert (Hf : f (is_leap y) (m - 1) = true).
  { apply (forallb_range (f (is_leap y)) 12); [|lia].
    destruct (is_leap y); vm_compute; reflexivity. }
  unfold f in Hf. cbv zeta in Hf.
  replace (m - 1 + 1) with m in Hf by lia.
  apply andb_true_iff in Hf. destruct Hf as [H0 H1].
  apply Z.leb_le in H0, H1. lia.
Qed.

Lemma days_before_month_mono (y m m' : Z) :
  1 <= m -> m < m' <= 12 ->
  days_before_month y m + days_in_month y m <= days_before_month y m'.
Proof.
  intros Hm Hm'. unfold days_before_month, days_in_month.
  pose (g := fun leap a b =>
               let m := a + 1 in
               let m' := b + 1 in
               negb (m <? m')
               || (days_before_month_leap leap m
                   + (if (m =? 2) && leap then 29 else tbl DAYS_IN_MONTH m)
                   <=? days_before_month_leap leap m')).
  assert (Hall : forallb (fun a => forallb (g (is_leap y) a)
                                           (map Z.of_nat (seq 0 12)))
                         (map Z.of_nat (seq 0 12)) = true).
  { destruct (is_leap y); vm_compute; reflexivity. }
  pose proof (forallb_range _ 12 Hall (m - 1) ltac:(lia)) as Ha.
  cbv beta in Ha.
  pose proof (forallb_range _ 12 Ha (m' - 1) ltac:(lia)) as Hb.
  unfold g in Hb. cbv zeta in Hb.
  replace (m - 1 + 1) with m in Hb by lia.
  replace (m' - 1 + 1) with m' in Hb by lia.
  replace (m <? m') with true in Hb by (symmetry; apply Z.ltb_lt; lia).
  cbn [negb orb] in Hb. now apply Z.leb_le in Hb.
Qed.

(** Two dates of the calendar with the same ordinal are the same date. *)
Lemma toordinal_inj (d d' : date) :
  valid_date d -> valid_date d' -> toordinal d = toordinal d' -> d = d'.
Proof.
  intros (Hy & Hm & Hd) (Hy' & Hm' & Hd') Heq.
  pose proof (toordinal_in_year _ Hm Hd) as Hb.
  pose proof (toordinal_in_year _ Hm' Hd') as Hb'.
  assert (Hyear : year d = year d').
  { destruct (Z.lt_trichotomy (year d) (year d')) as [Hlt|[E|Hgt]];
      [|exact E|].
    - pose proof (days_before_year_mono (year d + 1) (year d') ltac:(lia)).
      lia.
    - pose proof (days_before_year_mono (year d' + 1) (year d) ltac:(lia)).
      lia. }
  unfold toordinal, ymd2ord in Heq. rewrite <- Hyear in *.
  assert (Hmonth : month d = month d').
  { destruct (Z.lt_trichotomy (month d) (month d')) as [Hlt|[E|Hgt]];
      [|exact E|].
    - pose proof (days_before_month_mono (year d) (month d) (month d')
                    ltac:(lia) ltac:(lia)). lia.
    - pose proof (days_before_month_mono (year d) (month d') (month d)
                    ltac:(lia) ltac:(lia)). lia. }
  rewrite <- Hmonth in *.
  destruct d as [y m dd], d' as [y' m' dd']. cbn [year month day] in *.
  subst. f_equal. lia.
Qed.

(** The date after [d] is a date of the calendar, one ordinal later. *)
Lemma next_calendar_day_spec (d : date) :
  valid_date d -> year d <= 9998 ->
  valid_date (Spec.next_calendar_day d)
  /\ toordinal (Spec.next_calendar_day d) = toordinal d + 1.
Proof.
  intros (Hy & Hm & Hd) Hmax. unfold Spec.next_calendar_day.
  destruct (Z.ltb_spec (day d) (days_in_month (year d) (month d)))
    as [Hlt|Hge].
  - split.
    + repeat split; cbn [year month day]; lia.
    + unfold toordinal, ymd2ord. cbn [year month day]. lia.
  - assert (Hlast : day d = days_in_month (year d) (month d)) by lia.
    destruct (Z.ltb_spec (month d) 12) as [Hmo|Hdec].
    + split.
      * pose proof (month_has_days (year d) (month d + 1) ltac:(lia)).
        repeat split; cbn [year month day]; lia.
      * unfold toordinal, ymd2ord, days_before_month. cbn [year month day].
        rewrite months_in_order by lia.
        unfold days_in_month in Hlast. lia.
    + assert (Hm12 : month d = 12) by lia.
      split.
      * pose proof (month_has_days (year d + 1) 1 ltac:(lia)).
        repeat split; cbn [year month day]; lia.
      * unfold toordinal, ymd2ord. cbn [year month day].
        rewrite days_before_year_next, Hlast, Hm12.
        unfold days_before_month, days_in_month.
        change (12 =? 2) with false. cbn [andb].
        change (tbl DAYS_IN_MONTH 12) with 31.
        change (days_before_month_leap (is_leap (year d + 1)) 1) with 0.
        unfold days_before_month_leap.
        change (tbl DAYS_BEFORE_MONTH 12) with 334.
        change (2 <? 12) with true. cbn [andb]. lia.
Qed.

(** [fromordinal (toordinal d + 1)] is the date after [d]. *)
Lemma fromordinal_next (d : date) :
  valid_date d -> year d <= 9998 ->
  fromordinal (toordinal d + 1) = Spec.next_calendar_day d.
Proof.
  intros Hv Hmax.
  destruct (next_calendar_day_spec d Hv Hmax) as [Hnv Hno].
  pose proof Hv as (Hy & Hm & Hd).
  pose proof (toordinal_in_year _ Hm Hd) as Hb.
  apply toordinal_inj.
  - apply fromordinal_valid.
    pose proof (days_before_year_mono 1 (year d) ltac:(lia)) as H1.
    change (days_before_year 1) with 0 in H1.
    pose proof (days_before_year_mono (year d + 1) 9999 ltac:(lia)) as H2.
    change (days_before_year 9999) with 3651694 in H2.
    unfold MAXORDINAL. lia.
  - exact Hnv.
  - rewrite toordinal_fromordinal. now rewrite Hno.
Qed.


End PyDatetimeFacts.

(* ================================================================= *)
(** ** The expiry of a ticket                                    *)
(* ================================================================= *)

Module ExpiryFacts.

Import HandleStripeWebhook PyFloatFacts PyDatetimeFacts Examples.

(** [int(dt.timestamp())] is the whole second of [dt] or, when the
    float rounds up, the next one; it is exact on whole seconds. *)
Lemma int_timestamp_bounds (now : datetime) :
  valid_datetime now -> 1970 <= year (dt_date now) ->
  (toordinal (dt_date now) - EPOCH_ORDINAL) * 86400 + seconds_of_day now
  <= int_timestamp now
  <= (toordinal (dt_date now) - EPOCH_ORDINAL) * 86400 + seconds_of_day now + 1
  /\ (microsecond now = 0 ->
      int_timestamp now
      = (toordinal (dt_date now) - EPOCH_ORDINAL) * 86400 + seconds_of_day now)
  /\ 0 <= toordinal (dt_date now) - EPOCH_ORDINAL
  /\ 0 <= seconds_of_day now < 86400.
Proof.
  intros (Hd & Hh & Hm & Hs & Hus) Hy.
  pose proof (toordinal_bounds _ Hd) as [Hlo Hhi].
  pose proof (days_before_year_mono 1970 _ Hy) as Hmono.
  change (days_before_year 1970) with 719162 in Hmono.
  destruct Hd as ((_ & Hy') & _).
  pose proof (days_before_year_mono (year (dt_date now) + 1) 10000
                ltac:(lia)) as Hmax.
  change (days_before_year 10000) with 3652059 in Hmax.
  unfold int_timestamp, total_microseconds, seconds_of_day, EPOCH_ORDINAL in *.
  set (s := (toordinal (dt_date now) - 719163) * 86400
            + (hour now * 3600 + minute now * 60 + second now)) in *.
  assert (Hs0 : 0 <= s < 253402300800) by (unfold s; lia).
  assert (Hlog : Z.log2 (s * 1000000 + microsecond now)
                 <= 52 + Z.log2 1000000).
  { change (Z.log2 1000000) with 19.
    destruct (Z.eq_dec (s * 1000000 + microsecond now) 0) as [->|Hne];
      [cbn; lia|].
    assert (Z.log2 (s * 1000000 + microsecond now) < 58); [|lia].
    apply Z.log2_lt_pow2; [lia|].
    change (2 ^ 58) with 288230376151711744. lia. }
  destruct (int_nearest_bounds (s * 1000000 + microsecond now) 1000000)
    as [Hb Hex]; [lia|lia|exact Hlog|].
  assert (Hq : (s * 1000000 + microsecond now) / 1000000 = s).
  { Z.div_mod_to_equations. lia. }
  assert (Hr : (s * 1000000 + microsecond now) mod 1000000 = microsecond now).
  { Z.div_mod_to_equations. lia. }
  rewrite Hq in Hb, Hex. rewrite Hr in Hex.
  split; [exact Hb|]. split; [exact Hex|]. unfold s. lia.
Qed.

(** The last microsecond of 3000-01-01 reads as the first second of
    the next day, while its expiry is still 05:00 on 3000-01-02. *)
Example late_microsecond_rounds_up :
  total_microseconds (mkdatetime (mkdate 3000 1 1) 23 59 59 999999)
  = 32503766399999999
  /\ creation_timestamp (mkdatetime (mkdate 3000 1 1) 23 59 59 999999)
     = 32503766400
  /\ expiration_timestamp (mkdatetime (mkdate 3000 1 1) 23 59 59 999999)
     = Returns (32503766400 + 5 * 3600).
Proof. repeat split; vm_compute; reflexivity. Qed.

(** The expiry of a completion at [now_utc]: 05:00:00 on the next date
    of the calendar, a whole second that the float holds exactly. *)
Lemma expiration_of (now_utc : datetime) :
  valid_datetime now_utc ->
  1970 <= year (dt_date now_utc) <= 9998 ->
  valid_date (Spec.next_calendar_day (dt_date now_utc))
  /\ toordinal (Spec.next_calendar_day (dt_date now_utc))
     = toordinal (dt_date now_utc) + 1
  /\ expiration_datetime now_utc
     = Returns (mkdatetime (Spec.next_calendar_day (dt_date now_utc)) 5 0 0 0)
  /\ expiration_timestamp now_utc
     = Returns ((toordinal (dt_date now_utc) + 1 - EPOCH_ORDINAL) * 86400
                + 5 * 3600).
Proof.
  intros Hv [Hy Hy'].
  pose proof Hv as (Hd & _).
  destruct (next_calendar_day_spec _ Hd Hy') as [Hnv Hno].
  destruct (int_timestamp_bounds now_utc Hv Hy) as (_ & _ & Hord & _).
  pose proof (toordinal_bounds _ Hd) as [Hlo Hhi].
  assert (Hmax : toordinal (dt_date now_utc) + 1 <= MAXORDINAL).
  { pose proof (days_before_year_mono (year (dt_date now_utc) + 1) 9999
                  ltac:(lia)) as Hm.
    change (days_before_year 9999) with 3651694 in Hm.
    unfold MAXORDINAL. lia. }
  assert (Hpos : 0 < toordinal (dt_date now_utc) + 1).
  { unfold EPOCH_ORDINAL in Hord. lia. }
  assert (Hexp : expiration_datetime now_utc
                 = Returns (mkdatetime
                              (Spec.next_calendar_day (dt_date now_utc))
                              5 0 0 0)).
  { unfold expiration_datetime, add_days.
    apply Z.ltb_lt in Hpos. apply Z.leb_le in Hmax.
    rewrite Hpos, Hmax. cbn [andb bind dt_date].
    rewrite fromordinal_next by assumption. reflexivity. }
  split; [exact Hnv|]. split; [exact Hno|]. split; [exact Hexp|].
  unfold expiration_timestamp. rewrite Hexp. cbn [bind].
  set (five := mkdatetime (Spec.next_calendar_day (dt_date now_utc)) 5 0 0 0).
  assert (Hfive : valid_datetime five).
  { split; [exact Hnv|]. cbn. lia. }
  assert (Hyear : 1970 <= year (dt_date five)).
  { cbn [five dt_date]. unfold Spec.next_calendar_day.
    destruct (_ <? _); [cbn [year]; lia|].
    destruct (_ <? _); cbn [year]; lia. }
  destruct (int_timestamp_bounds five Hfive Hyear) as (_ & Hex & _).
  rewrite Hex by reflexivity. f_equal.
  unfold seconds_of_day. cbn [five dt_date hour minute second].
  rewrite Hno. lia.
Qed.

(** C5 as stated fails: a completion at 2024-01-10T23:00:00Z does not
    expire at 2024-01-12T05:00:00Z. *)
Lemma expiry_of_2300_is_not_jan_12 :
  ~ (expiration_timestamp completion_2300 = Returns (int_timestamp jan_12_0500)
     /\ expiration_timestamp completion_0200
        = Returns (int_timestamp jan_11_0500)).
Proof.
  intros [H _]. vm_compute in H. discriminate H.
Qed.

(** C5, amended.  Completions at 2024-01-10T23:00:00Z and at
    2024-01-10T02:00:00Z both expire at 2024-01-11T05:00:00Z. *)
Theorem expiry_of_jan_10_completions :
  expiration_datetime completion_2300 = Returns jan_11_0500
  /\ expiration_timestamp completion_2300 = Returns (int_timestamp jan_11_0500)
  /\ expiration_datetime completion_0200 = Returns jan_11_0500
  /\ expiration_timestamp completion_0200 = Returns (int_timestamp jan_11_0500)
  /\ int_timestamp jan_11_0500 = 1704949200.
Proof.
  repeat split; vm_compute; reflexivity.
Qed.

End ExpiryFacts.

(* ================================================================= *)
(** ** Verification codes                                        *)
(* ================================================================= *)

Module CodeFacts.

Import HandleStripeWebhook PyFloatFacts Examples.

Lemma length_string_of_list_ascii (l : list ascii) :
  String.length (string_of_list_ascii l) = List.length l.
Proof. induction l as [|c l IH]; cbn; congruence. Qed.

(** Over the 34 characters of the alphabet the rounded product
    [random() * 34.0] stays below 34: a character is always selected. *)
Lemma choice_in (population : list ascii) (u : uniform01) :
  List.length population = 34%nat -> In (choice population u) population.
Proof.
  intros Hlen. unfold choice, random_times. rewrite Hlen.
  apply nth_In. rewrite Hlen.
  destruct u as [m Hm]. cbn [mantissa].
  apply andb_true_iff in Hm. destruct Hm as [H0 H1].
  apply Z.leb_le in H0. apply Z.ltb_lt in H1.
  change (Z.of_nat 34) with 34.
  pose proof (floor_product_34 m ltac:(lia)). lia.
Qed.

Lemma choices_from (population : list ascii) (random : nat -> uniform01)
      (k : nat) :
  List.length population = 34%nat ->
  List.length (choices population random k) = k
  /\ Forall (fun c => In c population) (choices population random k).
Proof.
  intros Hlen. unfold choices. split.
  - now rewrite length_map, length_seq.
  - apply Forall_map, Forall_forall. intros i _. now apply choice_in.
Qed.

(** C9 as stated fails: the alphabet holds [I] and [O], and the
    random source that always returns 0.25 yields the code
    [IIIIIII]. *)
Lemma short_id_can_hold_I :
  generate_short_id always_quarter 7 = "IIIIIII"
  /\ Spec.unambiguous "I" = false
  /\ ~ (forall random,
          String.length (generate_short_id random 7) = 7%nat
          /\ Forall (fun c => Spec.unambiguous c = true)
                    (list_ascii_of_string (generate_short_id random 7))).
Proof.
  split; [vm_compute; reflexivity|]. split; [reflexivity|].
  intros H. destruct (H always_quarter) as [_ Hall].
  vm_compute in Hall. inversion Hall as [|c l Hc _]. discriminate Hc.
Qed.

(** C9, amended.  A generated code has exactly 7 characters, each an
    uppercase letter [A]-[Z] (with [O] and [I]) or a digit [2]-[9];
    none is a lowercase letter, [0] or [1]. *)
Theorem short_id_alphabet (random : nat -> uniform01) :
  String.length (generate_short_id random 7) = 7%nat
  /\ Forall (fun c => Spec.uppercase_or_2_to_9 c = true
                      /\ Spec.lowercase c = false
                      /\ c <> "0"%char /\ c <> "1"%char)
            (list_ascii_of_string (generate_short_id random 7)).
Proof.
  unfold generate_short_id. cbv zeta.
  set (population := list_ascii_of_string (ascii_uppercase ++ "23456789")).
  destruct (choices_from population random 7) as [Hlen Hin].
  { reflexivity. }
  rewrite length_string_of_list_ascii, list_ascii_of_string_of_list_ascii.
  split; [exact Hlen|].
  eapply Forall_impl; [|exact Hin].
  intros c Hc. cbv beta in Hc.
  assert (Hall : forallb (fun c => Spec.uppercase_or_2_to_9 c
                                   && negb (Spec.lowercase c)
                                   && negb (Ascii.eqb c "0")
                                   && negb (Ascii.eqb c "1")) population
                 = true) by (vm_compute; reflexivity).
  rewrite forallb_forall in Hall. specialize (Hall c Hc).
  repeat (apply andb_true_iff in Hall; destruct Hall as [Hall ?]).
  repeat split.
  - assumption.
  - now apply negb_true_iff.
  - intros ->. discriminate.
  - intros ->. discriminate.
Qed.

End CodeFacts.

(* ================================================================= *)
(** ** Validation and redemption, one call                       *)
(* ================================================================= *)

Module ValidateFacts.

Import ValidateTicket Examples.

Lemma fromtimestamp_instant (i : instant) :
  exists dt, fromtimestamp (epoch_seconds i) = Some dt.
Proof.
  destruct i as [s Hs]. cbn [epoch_seconds].
  apply andb_true_iff in Hs. destruct Hs as [Hlo Hhi].
  apply Z.leb_le in Hlo, Hhi.
  unfold MIN_TIMESTAMP, MAX_TIMESTAMP in *.
  unfold fromtimestamp, EPOCH_ORDINAL, MAXORDINAL.
  assert (H : 1 <= s / 86400 + 719163 <= 3652059)
    by (Z.div_mod_to_equations; lia).
  destruct H as [H1 H2]. apply Z.leb_le in H1, H2.
  rewrite H1, H2. eexists. reflexivity.
Qed.

Lemma already_redeemed_reason_prefix (it : item) (r : string) :
  already_redeemed_reason it = Returns r ->
  prefix "Ticket has already been redeemed" r = true.
Proof.
  unfold already_redeemed_reason. intros H.
  destruct (redeemedTime it) as [ts|].
  - destruct (ts =? 0).
    + injection H as <-. reflexivity.
    + destruct (fromtimestamp ts); [|discriminate H].
      injection H as <-. reflexivity.
  - injection H as <-. reflexivity.
Qed.

Lemma already_redeemed_reason_raises (it : item) (e : exn) :
  already_redeemed_reason it = Raises e ->
  exists ts, redeemedTime it = Some ts /\ ts <> 0 /\ fromtimestamp ts = None.
Proof.
  unfold already_redeemed_reason.
  destruct (redeemedTime it) as [ts|]; [|discriminate].
  destruct (Z.eqb_spec ts 0); [discriminate|].
  destruct (fromtimestamp ts) eqn:Hts; [discriminate|].
  intros _. exists ts. auto.
Qed.

Lemma valid_verdict_inv (it : item) (now : Z) (reason : string) :
  validation_rules it now = Returns (true, reason) ->
  attr_is "completed" (status it) = true
  /\ default false (redeemed it) = false
  /\ now <= default 0 (expirationTime it)
  /\ now <= default 0 (creationTime it) + 2 * 60 * 60.
Proof.
  unfold validation_rules.
  destruct (attr_is "completed" (status it)); cbn [negb]; [|discriminate].
  destruct (default false (redeemed it)).
  { destruct (already_redeemed_reason it); discriminate. }
  destruct (Z.ltb_spec (default 0 (expirationTime it)) now); [discriminate|].
  destruct (Z.ltb_spec (default 0 (creationTime it) + 2 * 60 * 60) now);
    [discriminate|].
  intros _. auto.
Qed.

Lemma query_map (attr : item -> option string) (v : string)
      (g : item -> item) (t : table) :
  (forall x, attr (g x) = attr x) ->
  query attr v (map g t) = map g (query attr v t).
Proof.
  intros Hg. unfold query. induction t as [|x t IH]; [reflexivity|].
  cbn [map filter]. rewrite Hg, IH. now destruct (attr_is v (attr x)).
Qed.

Lemma query_in (attr : item -> option string) (v : string) (t : table)
      (it : item) (rest : list item) :
  query attr v t = it :: rest -> In it t.
Proof.
  intros H. assert (Hin : In it (query attr v t)) by (rewrite H; now left).
  unfold query in Hin. now apply filter_In in Hin.
Qed.

Lemma has_own_key (it : item) : has_key (donationId it) it = true.
Proof. apply String.eqb_refl. Qed.

Lemma update_item_present (k : string) (f : item -> item) (t : table)
      (it : item) :
  In it t -> has_key k it = true ->
  update_item k f t = map (fun x => if has_key k x then f x else x) t.
Proof.
  intros Hin Hk. unfold update_item.
  replace (existsb (has_key k) t) with true; [reflexivity|].
  symmetry. apply existsb_exists. eauto.
Qed.

(** After the redeem write, the query by code finds the same records,
    the redeemed one updated in place. *)
Lemma query_after_redeem (vid : string) (t : table) (it : item)
      (rest : list item) (rt : Z) :
  query verificationId vid t = it :: rest ->
  exists rest',
    query verificationId vid
          (update_item (donationId it) (redeem_update rt) t)
    = redeem_update rt it :: rest'.
Proof.
  intros Hq.
  rewrite (update_item_present _ _ _ it (query_in _ _ _ _ _ Hq)
                               (has_own_key it)).
  rewrite query_map.
  - rewrite Hq. cbn [map]. rewrite has_own_key. eauto.
  - intros x. now destruct (has_key (donationId it) x).
Qed.

(** The lookup, once the code is known to the table. *)
Lemma lookup_found (ev : event) (env : environment) (t : table)
      (vid : string) (it : item) (rest : list item) :
  body ev = Json (Some vid) -> vid <> EmptyString -> query_fault env = None ->
  query verificationId vid t = it :: rest ->
  let s := mksnapshot vid it (epoch_seconds (current_time_utc env)) in
  lookup_and_validate ev env t
  = match validation_rules it (epoch_seconds (current_time_utc env)) with
    | Raises e => Raises e
    | Returns (true, _) => Returns (inr s)
    | Returns (false, reason) => Returns (inl (invalid_response s reason))
    end.
Proof.
  intros Hb Hv Hq Hitems. unfold lookup_and_validate.
  rewrite Hb, Hq. destruct vid as [|c vid]; [congruence|].
  cbn [bind]. rewrite Hitems.
  destruct (validation_rules it _) as [[[|] reason]|e]; reflexivity.
Qed.

Lemma lookup_unknown (ev : event) (env : environment) (t : table)
      (vid : string) :
  body ev = Json (Some vid) -> vid <> EmptyString -> query_fault env = None ->
  query verificationId vid t = [] ->
  lookup_and_validate ev env t
  = Returns (inl (create_response 404
                    (Message "Ticket not found." false "Ticket not found")
                    cors_headers)).
Proof.
  intros Hb Hv Hq Hitems. unfold lookup_and_validate.
  rewrite Hb, Hq. destruct vid as [|c vid]; [congruence|].
  cbn [bind]. rewrite Hitems. reflexivity.
Qed.

(** The write either goes through or fails without a trace: the log
    line after it cannot raise, the redemption time being a clock
    reading. *)
Lemma redeem_write_cases (k : string) (env : environment) (t : table) :
  redeem_write k env t
  = match update_fault env with
    | Some e => (Raises e, t)
    | None =>
      if not_yet_redeemed
           (match get_item k t with Some it => it | None => key_only k end)
      then (Returns tt,
            update_item k
              (redeem_update (epoch_seconds (redeem_timestamp env))) t)
      else (Raises (ClientError "ConditionalCheckFailedException"), t)
    end.
Proof.
  unfold redeem_write, update_item_if.
  destruct (update_fault env); [reflexivity|].
  destruct (not_yet_redeemed _); [|reflexivity].
  destruct (fromtimestamp_instant (redeem_timestamp env)) as [dt ->].
  reflexivity.
Qed.

Lemma redeem_write_raises (k : string) (env : environment) (t t' : table)
      (e : exn) :
  redeem_write k env t = (Raises e, t') -> t' = t.
Proof.
  rewrite redeem_write_cases.
  destruct (update_fault env); [congruence|].
  destruct (not_yet_redeemed _); congruence.
Qed.

(** C6 as stated fails: a storage failure that is a [ClientError]
    other than the failed condition is answered with the generic 500
    result, not with [failed_redeem_general]. *)
Lemma throttled_write_is_not_failed_redeem_general :
  let r := fst (lambda_handler (scan "ABCDEFG") (throttled after_10_min) gate_table) in
  redeem_write "donation-1" (throttled after_10_min) gate_table
  = (Raises (ClientError "ProvisionedThroughputExceededException"),
     gate_table)
  /\ r = internal_server_error
  /\ body_action (response_body_of r) <> Some "failed_redeem_general"
  /\ body_reason (response_body_of r)
     <> Some "Internal error during ticket redemption.".
Proof.
  vm_compute. repeat split; discriminate.
Qed.

(** C6, amended.  When the redeem write of a ticket found valid fails,
    the table is unchanged and the caller gets a structured result
    with valid=false: for the failed condition,
    [failed_redeem_concurrent]; for a [ClientError] with any other
    code, the generic 500 result (no action field); for every other
    exception, [failed_redeem_general]. *)
Theorem failed_write_is_reported
        (ev : event) (env : environment) (t : table) (vid : string)
        (it : item) (rest : list item) (reason : string)
        (e : exn) (t' : table) :
  attr_is "OPTIONS" (httpMethod ev) = false ->
  body ev = Json (Some vid) -> vid <> EmptyString -> query_fault env = None ->
  query verificationId vid t = it :: rest ->
  validation_rules it (epoch_seconds (current_time_utc env))
  = Returns (true, reason) ->
  redeem_write (donationId it) env t = (Raises e, t') ->
  t' = t
  /\ exists r,
      lambda_handler ev env t = (r, t)
      /\ body_valid (response_body_of r) = Some false
      /\ match e with
         | ClientError code =>
           if String.eqb code "ConditionalCheckFailedException"
           then statusCode r = 200
                /\ body_action (response_body_of r)
                   = Some "failed_redeem_concurrent"
                /\ body_reason (response_body_of r)
                   = Some "Ticket has already been redeemed by another process."
           else r = internal_server_error
         | _ =>
           statusCode r = 200
           /\ body_action (response_body_of r) = Some "failed_redeem_general"
           /\ body_reason (response_body_of r)
              = Some "Internal error during ticket redemption."
         end.
Proof.
  intros Hopt Hb Hv Hq Hitems Hvalid Hw.
  pose proof (redeem_write_raises _ _ _ _ _ Hw) as ->.
  split; [reflexivity|].
  unfold lambda_handler, try_block. rewrite Hopt.
  rewrite (lookup_found ev env t vid it rest Hb Hv Hq Hitems), Hvalid.
  unfold redemption_logic. cbn [snap_item]. rewrite Hw.
  destruct e as [code|msg|].
  - destruct (String.eqb code "ConditionalCheckFailedException");
      eexists; split; try reflexivity; cbn; auto.
  - eexists; split; try reflexivity; cbn; auto.
  - eexists; split; try reflexivity; cbn; auto.
Qed.

Lemma failed_write_is_reported_witness :
  gate_table = gate_table
  /\ exists r,
      lambda_handler (scan "ABCDEFG") (throttled after_10_min) gate_table = (r, gate_table)
      /\ body_valid (response_body_of r) = Some false
      /\ r = internal_server_error.
Proof.
  apply (failed_write_is_reported
           (scan "ABCDEFG") (throttled after_10_min) gate_table "ABCDEFG"
           ticket []
           "Ticket is valid."
           (ClientError "ProvisionedThroughputExceededException") gate_table).
  - reflexivity.
  - reflexivity.
  - discriminate.
  - reflexivity.
  - reflexivity.
  - reflexivity.
  - reflexivity.
Defined.

Lemma redeemed_verdict (it : item) (rt : instant) (now : Z) :
  attr_is "completed" (status it) = true ->
  exists reason,
    validation_rules (redeem_update (epoch_seconds rt) it) now
    = Returns (false, reason)
    /\ prefix "Ticket has already been redeemed" reason = true.
Proof.
  intros Hst. unfold validation_rules.
  cbn [redeem_update status redeemed default]. rewrite Hst. cbn [negb].
  destruct (already_redeemed_reason (redeem_update (epoch_seconds rt) it))
    as [reason|e] eqn:Hr.
  - exists reason. split; [reflexivity|].
    now apply already_redeemed_reason_prefix in Hr.
  - apply already_redeemed_reason_raises in Hr.
    destruct Hr as (ts & Hts & _ & Hnone). cbn in Hts.
    injection Hts as <-.
    destruct (fromtimestamp_instant rt) as [dt Hdt]. congruence.
Qed.

(** C7.  A redemption call leaves the table as it was when the code
    is unknown (the result is the terminal not-found result) and when
    the rules reject the record (the result carries action [none]); a
    second attempt on a ticket just redeemed is such a rejection,
    with an already-redeemed reason. *)
Theorem rejected_attempt_changes_nothing
        (ev : event) (env : environment) (t : table) (vid : string) :
  attr_is "OPTIONS" (httpMethod ev) = false ->
  body ev = Json (Some vid) -> vid <> EmptyString -> query_fault env = None ->
  (query verificationId vid t = [] ->
   lambda_handler ev env t
   = (create_response 404
        (Message "Ticket not found." false "Ticket not found")
        cors_headers, t))
  /\ (forall it rest why,
        query verificationId vid t = it :: rest ->
        validation_rules it (epoch_seconds (current_time_utc env))
        = Returns (false, why) ->
        exists d,
          lambda_handler ev env t
          = (create_response 200 (Ticket d) cors_headers, t)
          /\ valid d = false /\ actionTaken d = "none" /\ reason d = why)
  /\ (forall r1 t1 env2,
        lambda_handler ev env t = (r1, t1) ->
        body_action (response_body_of r1) = Some "redeemed" ->
        query_fault env2 = None ->
        exists d,
          lambda_handler ev env2 t1
          = (create_response 200 (Ticket d) cors_headers, t1)
          /\ valid d = false /\ actionTaken d = "none"
          /\ prefix "Ticket has already been redeemed" (reason d) = true
          /\ r_redeemed d = true
          /\ r_redeemedTime d = Some (epoch_seconds (redeem_timestamp env))).
Proof.
  intros Hopt Hb Hv Hq. split; [|split].
  - intros Hitems. unfold lambda_handler, try_block.
    now rewrite Hopt, (lookup_unknown ev env t vid Hb Hv Hq Hitems).
  - intros it rest why Hitems Hrules. unfold lambda_handler, try_block.
    rewrite Hopt, (lookup_found ev env t vid it rest Hb Hv Hq Hitems), Hrules.
    eexists. split; [reflexivity|]. cbn. auto.
  - intros r1 t1 env2 Hcall Hact Hq2.
    unfold lambda_handler, try_block in Hcall. rewrite Hopt in Hcall.
    destruct (query verificationId vid t) as [|it rest] eqn:Hitems.
    { rewrite (lookup_unknown ev env t vid Hb Hv Hq Hitems) in Hcall.
      injection Hcall as <- <-. discriminate Hact. }
    rewrite (lookup_found ev env t vid it rest Hb Hv Hq Hitems) in Hcall.
    destruct (validation_rules it _) as [[[|] why]|e] eqn:Hrules.
    2: { injection Hcall as <- <-. discriminate Hact. }
    2: { injection Hcall as <- <-. discriminate Hact. }
    apply valid_verdict_inv in Hrules. destruct Hrules as (Hst & _).
    unfold redemption_logic in Hcall. cbn [snap_item] in Hcall.
    rewrite redeem_write_cases in Hcall.
    destruct (update_fault env) as [[code|msg|]|].
    { destruct (String.eqb code _);
        injection Hcall as <- <-; discriminate Hact. }
    { injection Hcall as <- <-; discriminate Hact. }
    { injection Hcall as <- <-; discriminate Hact. }
    destruct (not_yet_redeemed _).
    2: { cbn in Hcall. injection Hcall as <- <-. discriminate Hact. }
    injection Hcall as <- <-.
    destruct (query_after_redeem vid t it rest
                (epoch_seconds (redeem_timestamp env)) Hitems)
      as [rest' Hitems'].
    destruct (redeemed_verdict it (redeem_timestamp env)
                (epoch_seconds (current_time_utc env2)) Hst)
      as (why2 & Hwhy & Hprefix).
    unfold lambda_handler, try_block.
    rewrite Hopt, (lookup_found ev env2 _ vid _ rest' Hb Hv Hq2 Hitems'), Hwhy.
    eexists. split; [reflexivity|]. cbn. auto.
Qed.

(** The example ticket, scanned ten minutes after its completion and
    again later. *)
Lemma rejected_attempt_changes_nothing_witness :
  (query verificationId "ABCDEFG" gate_table = [] ->
   lambda_handler (scan "ABCDEFG") (calm after_10_min) gate_table
   = (create_response 404
        (Message "Ticket not found." false "Ticket not found")
        cors_headers, gate_table))
  /\ (forall it rest why,
        query verificationId "ABCDEFG" gate_table = it :: rest ->
        validation_rules it
          (epoch_seconds (current_time_utc (calm after_10_min)))
        = Returns (false, why) ->
        exists d,
          lambda_handler (scan "ABCDEFG") (calm after_10_min) gate_table
          = (create_response 200 (Ticket d) cors_headers, gate_table)
          /\ valid d = false /\ actionTaken d = "none" /\ reason d = why)
  /\ (forall r1 t1 env2,
        lambda_handler (scan "ABCDEFG") (calm after_10_min) gate_table
        = (r1, t1) ->
        body_action (response_body_of r1) = Some "redeemed" ->
        query_fault env2 = None ->
        exists d,
          lambda_handler (scan "ABCDEFG") env2 t1
          = (create_response 200 (Ticket d) cors_headers, t1)
          /\ valid d = false /\ actionTaken d = "none"
          /\ prefix "Ticket has already been redeemed" (reason d) = true
          /\ r_redeemed d = true
          /\ r_redeemedTime d
             = Some (epoch_seconds (redeem_timestamp (calm after_10_min)))).
Proof.
  apply (rejected_attempt_changes_nothing
           (scan "ABCDEFG") (calm after_10_min) gate_table "ABCDEFG").
  - reflexivity.
  - reflexivity.
  - discriminate.
  - reflexivity.
Defined.

(** The scenario of the specification: redeemed at T+10min, scanned
    again at T+20min. *)
Example second_scan_is_rejected :
  let '(r1, t1) :=
    lambda_handler (scan "ABCDEFG") (calm after_10_min) gate_table in
  let '(r2, t2) := lambda_handler (scan "ABCDEFG") (calm after_20_min) t1 in
  body_action (response_body_of r1) = Some "redeemed"
  /\ body_valid (response_body_of r2) = Some false
  /\ body_action (response_body_of r2) = Some "none"
  /\ body_reason (response_body_of r2)
     = Some "Ticket has already been redeemed at 2024-01-10 23:10:00 UTC."
  /\ t2 = t1.
Proof. vm_compute. repeat split. Qed.

End ValidateFacts.

(* ================================================================= *)
(** ** The webhook                                               *)
(* ================================================================= *)

Module WebhookFacts.

Import HandleStripeWebhook Examples.

(** The reads outside the [try] and the read of the name inside it
    return unless [headers], [customer_details] or [amount_total] is
    null. *)
Lemma reads_pass (ev : event) (s : session) :
  headers ev <> NullHeaders ->
  customer_details s <> NullDetails ->
  amount_total s <> NullAmount ->
  exists sig email payer_name amount,
    sig_header ev = Returns sig
    /\ customer_email s = Returns email
    /\ customer_name s = Returns payer_name
    /\ amount_in_euros s = Returns amount.
Proof.
  unfold sig_header, customer_email, customer_name, amount_in_euros.
  intros Hh Hd Ha.
  destruct (headers ev); [|congruence|];
    (destruct (customer_details s) as [| |email [| |n]]; [|congruence| | |]);
    (destruct (amount_total s); [|congruence|]);
    do 4 eexists; repeat split; reflexivity.
Qed.

(** What the handler can do to the table: nothing, or the one write
    of a served completion, under the key of the record found, with
    the code, the expiry and the creation time of this delivery. *)
Lemma webhook_writes (ev : event) (env : environment) (t : table) :
  snd (fst (lambda_handler ev env t)) = t
  \/ exists it expiry email payer_name mails,
      Lifecycle.completes env t = Some it /\ In it t
      /\ expiration_timestamp (now_utc env) = Returns expiry
      /\ lambda_handler ev env t
         = (Returns (mkresponse 200 (Some [("status", "success")])),
            update_item (donationId it)
              (completion_update (generate_short_id (random env) 7) expiry
                 (creation_timestamp (now_utc env)) email payer_name) t,
            mails).
Proof.
  unfold Lifecycle.completes, lambda_handler.
  destruct (sig_header ev); [|now left].
  destruct (construct_event env) as [e|]; [|now left].
  destruct (String.eqb _ _); [|now left].
  destruct (customer_email (data_object e)) as [email|]; [|now left].
  destruct (amount_in_euros (data_object e)) as [amount|]; [|now left].
  unfold try_block.
  destruct (expiration_timestamp (now_utc env)) as [expiry|]; [|now left].
  cbn [bind].
  destruct (query_fault env); [now left|].
  destruct (id (data_object e)) as [sid|]; [|now left].
  cbn [bind].
  destruct (query checkoutSessionId sid t) as [|it rest] eqn:Hq; [now left|].
  destruct (customer_name (data_object e)) as [payer_name|]; [|now left].
  cbn [bind].
  destruct (update_fault env); [now left|].
  right. exists it, expiry, email, payer_name. eexists.
  split; [reflexivity|]. split; [eapply ValidateFacts.query_in; eassumption|].
  split; reflexivity.
Qed.

(** Every way through the handler. *)
Lemma webhook_outcome (ev : event) (env : environment) (t : table) :
  (headers ev = NullHeaders
   /\ lambda_handler ev env t = (Raises OtherException, t, []))
  \/ (headers ev <> NullHeaders
      /\ exists x,
          construct_event env = Raises x
          /\ lambda_handler ev env t = (Returns (mkresponse 400 None), t, []))
  \/ (headers ev <> NullHeaders
      /\ exists e,
          construct_event env = Returns e
          /\ ((event_type e <> "checkout.session.completed"
               /\ lambda_handler ev env t
                  = (Returns (mkresponse 200 (Some [("status", "success")])),
                     t, []))
              \/ (event_type e = "checkout.session.completed"
                  /\ (customer_details (data_object e) = NullDetails
                      \/ amount_total (data_object e) = NullAmount)
                  /\ lambda_handler ev env t = (Raises OtherException, t, []))
              \/ (event_type e = "checkout.session.completed"
                  /\ customer_details (data_object e) <> NullDetails
                  /\ amount_total (data_object e) <> NullAmount
                  /\ ((exists msg,
                          lambda_handler ev env t
                          = (Returns (mkresponse 200 (error_body msg)), t, []))
                      \/ (exists t' mails,
                             lambda_handler ev env t
                             = (Returns (mkresponse 200
                                           (Some [("status", "success")])),
                                t', mails)))))).
Proof.
  destruct (headers ev) eqn:Hh.
  2: { left. split; [reflexivity|].
       unfold lambda_handler, sig_header. now rewrite Hh. }
  all: right;
    assert (Hsig : exists sig, sig_header ev = Returns sig)
      by (unfold sig_header; rewrite Hh; eauto);
    destruct Hsig as [sig Hsig];
    unfold lambda_handler; rewrite Hsig;
    (destruct (construct_event env) as [e|x];
     [right|left; split; [congruence|eauto]]);
    (split; [congruence|]); exists e; (split; [reflexivity|]);
    (destruct (String.eqb_spec (event_type e) "checkout.session.completed")
      as [Hty|Hty]; [|left; now split]); right;
    unfold customer_email, amount_in_euros;
    (destruct (customer_details (data_object e)) as [| |email name] eqn:Hd;
     [|left; split; [exact Hty|]; split; [now left|reflexivity]|]);
    (destruct (amount_total (data_object e)) as [| |cents] eqn:Ha;
     [|left; split; [exact Hty|]; split; [now right|reflexivity]|]);
    right; (split; [exact Hty|]); (split; [congruence|]);
    (split; [congruence|]);
    match goal with
    | |- context [try_block ?a ?b ?c ?d ?e] =>
      destruct (try_block a b c d e) as [[[r t'] mails]|x] eqn:Htry
    end;
    try (left; eexists; reflexivity);
    unfold try_block in Htry;
    (destruct (expiration_timestamp (now_utc env)); [|discriminate Htry]);
    cbn [bind] in Htry;
    (destruct (match query_fault env with Some _ => _ | None => _ end)
       as [items|]; [|discriminate Htry]);
    cbn [bind] in Htry;
    (destruct items as [|it rest];
     [injection Htry as <- <- <-; left; eexists; reflexivity|]);
    (destruct (customer_name _); [|discriminate Htry]);
    cbn [bind] in Htry;
    (destruct (update_fault env); [discriminate Htry|]);
    injection Htry as <- <- <-; right; do 2 eexists; reflexivity.
Qed.

(** What a served completion does: one write under the key of the
    record found, with the code, the expiry and the creation time of
    this delivery, then the mail. *)
Lemma completion_writes
      (ev : event) (env : environment) (t : table) (e : stripe_event)
      (sid : string) (it : item) (rest : list item) (expiry : Z) :
  headers ev <> NullHeaders ->
  construct_event env = Returns e ->
  event_type e = "checkout.session.completed" ->
  id (data_object e) = Some sid ->
  customer_details (data_object e) <> NullDetails ->
  amount_total (data_object e) <> NullAmount ->
  query_fault env = None -> update_fault env = None ->
  query checkoutSessionId sid t = it :: rest ->
  expiration_timestamp (now_utc env) = Returns expiry ->
  exists email payer_name amount,
    customer_email (data_object e) = Returns email
    /\ amount_in_euros (data_object e) = Returns amount
    /\ lambda_handler ev env t
       = (Returns (mkresponse 200 (Some [("status", "success")])),
          update_item (donationId it)
            (completion_update (generate_short_id (random env) 7) expiry
               (creation_timestamp (now_utc env)) email payer_name) t,
          send_verification_email env email
            (generate_short_id (random env) 7) amount
            (match frontendDomain it with
             | Some d => d
             | None => FALLBACK_FRONTEND_DOMAIN env
             end)).
Proof.
  intros Hh He Hty Hid Hd Ha Hqf Huf Hq Hexp.
  destruct (reads_pass ev (data_object e) Hh Hd Ha)
    as (sig & email & payer_name & amount & Hsig & Hem & Hpn & Ham).
  exists email, payer_name, amount.
  split; [exact Hem|]. split; [exact Ham|].
  unfold lambda_handler, try_block.
  rewrite Hsig, He, Hty, Hem, Ham, Hid, Hqf, Huf, Hexp, Hpn.
  change ("checkout.session.completed" =? "checkout.session.completed")%string
    with true. cbv iota. cbn [bind]. rewrite Hq. reflexivity.
Qed.

(** A completion event whose session id matches no record, and whose
    fields can be read, is acknowledged with status 200; the table is
    left as it was and no mail is sent. *)
Theorem unmatched_completion_is_acknowledged
        (ev : event) (env : environment) (t : table) (e : stripe_event)
        (sid : string) :
  headers ev <> NullHeaders ->
  construct_event env = Returns e ->
  event_type e = "checkout.session.completed" ->
  id (data_object e) = Some sid ->
  customer_details (data_object e) <> NullDetails ->
  amount_total (data_object e) <> NullAmount ->
  query checkoutSessionId sid t = [] ->
  exists msg,
    lambda_handler ev env t
    = (Returns (mkresponse 200 (error_body msg)), t, [])
    /\ (msg = "Donation record not found" \/ msg = "Internal server error")
    /\ (query_fault env = None -> add_days (now_utc env) 1 <> None ->
        msg = "Donation record not found").
Proof.
  intros Hh He Hty Hid Hd Ha Hq.
  destruct (reads_pass ev (data_object e) Hh Hd Ha)
    as (sig & email & payer_name & amount & Hsig & Hem & Hpn & Ham).
  unfold lambda_handler, try_block.
  rewrite Hsig, He, Hty, Hem, Ham, Hid, Hq.
  change ("checkout.session.completed" =? "checkout.session.completed")%string
    with true. cbv iota.
  unfold expiration_timestamp, expiration_datetime.
  destruct (add_days (now_utc env) 1) as [tomorrow|]; cbn [bind].
  - destruct (query_fault env) as [ex|]; cbn [bind].
    + exists "Internal server error". split; [reflexivity|]. split; [now right|].
      discriminate.
    + exists "Donation record not found". split; [reflexivity|]. auto.
  - exists "Internal server error". split; [reflexivity|]. split; [now right|].
    intros _ H. congruence.
Qed.

Lemma unmatched_completion_is_acknowledged_witness :
  exists msg,
    lambda_handler signed (delivery "cs_unknown" None) [pending_record]
    = (Returns (mkresponse 200 (error_body msg)), [pending_record], [])
    /\ (msg = "Donation record not found" \/ msg = "Internal server error")
    /\ (query_fault (delivery "cs_unknown" None) = None ->
        add_days (now_utc (delivery "cs_unknown" None)) 1 <> None ->
        msg = "Donation record not found").
Proof.
  apply (unmatched_completion_is_acknowledged
           signed (delivery "cs_unknown" None) [pending_record]
           (paid "cs_unknown") "cs_unknown");
    (reflexivity || discriminate).
Defined.

(** C8.  The claim fails on a completion event the provider sends with
    [amount_total] null: the session matches no record, and the
    division at line 62, which stands before the [try], raises out of
    the handler instead of being acknowledged.  Nothing is written. *)
Theorem unmatched_completion_with_null_amount_raises :
  construct_event (delivery_of_set_up "cs_unknown")
  = Returns (set_up "cs_unknown")
  /\ query checkoutSessionId "cs_unknown" [pending_record] = []
  /\ lambda_handler signed (delivery_of_set_up "cs_unknown") [pending_record]
     = (Raises OtherException, [pending_record], [])
  /\ ~ (exists r,
         fst (fst (lambda_handler signed (delivery_of_set_up "cs_unknown")
                                  [pending_record]))
         = Returns r).
Proof.
  split; [reflexivity|]. split; [reflexivity|].
  assert (H : lambda_handler signed (delivery_of_set_up "cs_unknown")
                             [pending_record]
              = (Raises OtherException, [pending_record], []))
    by reflexivity.
  split; [exact H|]. rewrite H. intros [r Hr]. discriminate Hr.
Qed.

(** C10.  When the completion write raises, the webhook still answers
    200, with the error only in the body; nothing is written and no
    mail is sent, so the record found for the session stays as it
    was: a pending record stays pending and without a verification
    code. *)
Theorem failed_completion_is_acknowledged
        (ev : event) (env : environment) (t : table) (e : stripe_event)
        (sid : string) (it : item) (rest : list item) (ex : exn) :
  headers ev <> NullHeaders ->
  construct_event env = Returns e ->
  event_type e = "checkout.session.completed" ->
  id (data_object e) = Some sid ->
  customer_details (data_object e) <> NullDetails ->
  amount_total (data_object e) <> NullAmount ->
  query_fault env = None ->
  query checkoutSessionId sid t = it :: rest ->
  update_fault env = Some ex ->
  lambda_handler ev env t
  = (Returns (mkresponse 200 (error_body "Internal server error")), t, [])
  /\ head (query checkoutSessionId sid (snd (fst (lambda_handler ev env t))))
     = Some it.
Proof.
  intros Hh He Hty Hid Hd Ha Hqf Hq Hu.
  destruct (reads_pass ev (data_object e) Hh Hd Ha)
    as (sig & email & payer_name & amount & Hsig & Hem & Hpn & Ham).
  assert (Hres : lambda_handler ev env t
                 = (Returns (mkresponse 200
                               (error_body "Internal server error")), t, [])).
  { unfold lambda_handler, try_block.
    rewrite Hsig, He, Hty, Hem, Ham, Hid, Hqf, Hq, Hu, Hpn.
    change ("checkout.session.completed" =? "checkout.session.completed")%string
      with true. cbv iota.
    destruct (expiration_timestamp (now_utc env)); reflexivity. }
  split; [exact Hres|].
  rewrite Hres. cbn [fst snd]. now rewrite Hq.
Qed.

(** The completion of [pending_record] with a failing write. *)
Lemma failed_completion_is_acknowledged_witness :
  lambda_handler signed (delivery "cs_test_1" (Some OtherException))
                 [pending_record]
  = (Returns (mkresponse 200 (error_body "Internal server error")),
     [pending_record], [])
  /\ head (query checkoutSessionId "cs_test_1"
             (snd (fst (lambda_handler
                          signed (delivery "cs_test_1" (Some OtherException))
                          [pending_record]))))
     = Some pending_record.
Proof.
  apply (failed_completion_is_acknowledged
           signed (delivery "cs_test_1" (Some OtherException))
           [pending_record]
           (paid "cs_test_1") "cs_test_1" pending_record [] OtherException);
    (reflexivity || discriminate).
Defined.

End WebhookFacts.

(* ================================================================= *)
(** ** Invariants of the records                                 *)
(* ================================================================= *)

Module LifecycleFacts.

Import Lifecycle Examples ValidateFacts.

Lemma duplicate_delivery_result :
  run duplicate_delivery []
  = [mkitem "donation-1" (Some "cs_test_1") (Some 500) (Some "eur")
            (Some "completed") (Some "buyer@example.org") (Some 1704927000)
            None (Some "IIIIIII") (Some 1704949200) (Some false)
            (Some 1704927600) (Some "Buyer") (Some 1704928200) None].
Proof. vm_compute. reflexivity. Qed.

(** *** Keys *)

Lemma keys_map (k : string) (g : item -> item) (t : table) :
  (forall x, has_key k x = true -> donationId (g x) = donationId x) ->
  map donationId (map (fun x => if has_key k x then g x else x) t)
  = map donationId t.
Proof.
  intros Hg. rewrite map_map. apply map_ext_in. intros x _.
  destruct (has_key k x) eqn:Hk; [now apply Hg|reflexivity].
Qed.

Lemma no_key_not_in (k : string) (t : table) :
  existsb (has_key k) t = false -> ~ In k (map donationId t).
Proof.
  intros Hex Hin. apply in_map_iff in Hin. destruct Hin as (x & <- & Hx).
  assert (existsb (has_key (donationId x)) t = true).
  { apply existsb_exists. exists x. split; [exact Hx|apply has_own_key]. }
  congruence.
Qed.

Lemma NoDup_snoc (k : string) (l : list string) :
  NoDup l -> ~ In k l -> NoDup (l ++ [k]).
Proof.
  intros Hl Hk. apply NoDup_app; [exact Hl|repeat constructor; intros []|].
  intros a Ha [<-|[]]. contradiction.
Qed.

Lemma put_item_keys (it : item) (t : table) :
  NoDup (map donationId t) -> NoDup (map donationId (put_item it t)).
Proof.
  intros Hnd. unfold put_item.
  destruct (existsb (has_key (donationId it)) t) eqn:Hex.
  - rewrite (keys_map (donationId it) (fun _ => it)); [exact Hnd|].
    intros x Hx. symmetry. now apply String.eqb_eq.
  - rewrite map_app. cbn [map]. apply NoDup_snoc; [exact Hnd|].
    now apply no_key_not_in.
Qed.

Lemma update_item_keys (k : string) (f : item -> item) (t : table) :
  (forall x, donationId (f x) = donationId x) ->
  NoDup (map donationId t) -> NoDup (map donationId (update_item k f t)).
Proof.
  intros Hf Hnd. unfold update_item.
  destruct (existsb (has_key k) t) eqn:Hex.
  - rewrite keys_map; auto.
  - rewrite map_app. cbn [map]. rewrite Hf. cbn [key_only donationId].
    apply NoDup_snoc; [exact Hnd|]. now apply no_key_not_in.
Qed.

(** With unique keys, the item under a key is the only one. *)
Lemma key_unique (t : table) (it x : item) :
  NoDup (map donationId t) -> In it t -> In x t ->
  has_key (donationId it) x = true -> x = it.
Proof.
  intros Hnd Hit Hx Hk. apply String.eqb_eq in Hk.
  induction t as [|y t IH]; [destruct Hit|].
  cbn [map] in Hnd. inversion Hnd as [|? ? Hy Hnd']; subst.
  destruct Hit as [->|Hit], Hx as [->|Hx]; auto.
  - exfalso. apply Hy. rewrite <- Hk. now apply in_map.
  - exfalso. apply Hy. rewrite Hk. now apply in_map.
Qed.

Lemma put_item_Forall (P : item -> Prop) (it : item) (t : table) :
  P it -> Forall P t -> Forall P (put_item it t).
Proof.
  intros Hit Ht. unfold put_item.
  destruct (existsb _ t).
  - apply Forall_map. eapply Forall_impl; [|exact Ht].
    intros x Hx. now destruct (has_key _ x).
  - apply Forall_app. split; [exact Ht|]. now constructor.
Qed.

(** An update under the key of a stored item touches that item only. *)
Lemma update_item_Forall (P : item -> Prop) (f : item -> item)
      (t : table) (it : item) :
  NoDup (map donationId t) -> In it t ->
  P (f it) -> Forall P t -> Forall P (update_item (donationId it) f t).
Proof.
  intros Hnd Hin Hf Ht.
  rewrite (update_item_present _ _ _ it Hin (has_own_key it)).
  apply Forall_map, Forall_forall. intros x Hx.
  destruct (has_key (donationId it) x) eqn:Hk.
  - now rewrite (key_unique t it x Hnd Hin Hx Hk).
  - rewrite Forall_forall in Ht. now apply Ht.
Qed.

(** *** What each operation writes *)

Lemma create_writes (ev : ProcessDonation.event)
      (env : ProcessDonation.environment) (t : table) :
  apply (createPending ev env) t = t
  \/ exists it,
      redeemed it = None /\ redeemedTime it = None
      /\ apply (createPending ev env) t = put_item it t.
Proof.
  cbn [apply]. unfold ProcessDonation.lambda_handler.
  destruct (attr_is "OPTIONS" _); [now left|].
  unfold ProcessDonation.try_block.
  destruct (ProcessDonation.body ev) as [|user_email amount];
    [now left|].
  destruct (match ProcessDonation.price_get_item env with
            | Returns c => c
            | Raises _ => None
            end) as [c|].
  - destruct (ProcessDonation.priceInCents c) as [p|]; [|now left].
    cbn [bind]. destruct (p <? 100); [now left|].
    destruct (negb _); [now left|].
    destruct (ProcessDonation.session_create env); [|now left].
    cbn [bind]. destruct (ProcessDonation.put_fault env); [now left|].
    right. eexists. split; [|split]; [| |reflexivity]; reflexivity.
  - cbn [bind]. destruct amount as [a|]; [|now left].
    destruct (a <? 100); [now left|].
    destruct (negb _); [now left|].
    destruct (ProcessDonation.session_create env); [|now left].
    cbn [bind]. destruct (ProcessDonation.put_fault env); [now left|].
    right. eexists. split; [|split]; [| |reflexivity]; reflexivity.
Qed.

Lemma complete_writes (ev : HandleStripeWebhook.event)
      (env : HandleStripeWebhook.environment) (t : table) :
  apply (completePurchase ev env) t = t
  \/ exists it vid e c pe pn,
      completes env t = Some it /\ In it t
      /\ apply (completePurchase ev env) t
         = update_item (donationId it)
             (HandleStripeWebhook.completion_update vid e c pe pn) t.
Proof.
  cbn [apply].
  destruct (WebhookFacts.webhook_writes ev env t)
    as [H|(it & expiry & email & pn & mails & Hc & Hin & _ & H)];
    [now left|].
  right. rewrite H. cbn [fst snd]. do 6 eexists.
  split; [exact Hc|]. split; [exact Hin|reflexivity].
Qed.

Lemma redeem_writes (ev : ValidateTicket.event)
      (env : ValidateTicket.environment) (t : table) :
  apply (redeem ev env) t = t
  \/ exists it,
      In it t /\ attr_is "completed" (status it) = true
      /\ apply (redeem ev env) t
         = update_item (donationId it)
             (ValidateTicket.redeem_update
                (epoch_seconds (ValidateTicket.redeem_timestamp env))) t.
Proof.
  cbn [apply]. unfold ValidateTicket.lambda_handler.
  destruct (attr_is "OPTIONS" _); [now left|].
  unfold ValidateTicket.try_block, ValidateTicket.lookup_and_validate.
  destruct (ValidateTicket.body ev) as [|[vid|]]; try now left.
  destruct vid as [|ch vid]; [now left|].
  destruct (ValidateTicket.query_fault env); [now left|].
  cbn [bind].
  destruct (query verificationId _ t) as [|it rest] eqn:Hq; [now left|].
  destruct (ValidateTicket.validation_rules it _) as [[[|] why]|] eqn:Hv;
    cbn [bind]; try now left.
  apply valid_verdict_inv in Hv. destruct Hv as (Hst & _).
  unfold ValidateTicket.redemption_logic. cbn [ValidateTicket.snap_item].
  rewrite redeem_write_cases.
  destruct (ValidateTicket.update_fault env) as [[code|msg|]|].
  - destruct (String.eqb code _); now left.
  - now left.
  - now left.
  - destruct (ValidateTicket.not_yet_redeemed _); [|now left].
    right. eexists. split; [eapply query_in; eassumption|].
    split; [exact Hst|reflexivity].
Qed.

(** *** The invariants along a history *)

Lemma completed_status (it : item) :
  attr_is "completed" (status it) = true -> status it = Some "completed".
Proof.
  unfold attr_is. destruct (status it) as [s|]; [|discriminate].
  intros H. apply String.eqb_eq in H. now subst.
Qed.

Lemma apply_well_formed (op : operation) (t : table) :
  well_formed t -> well_formed (apply op t).
Proof.
  intros [Hnd Hall]. destruct op as [ev env|wev env|ev env].
  - destruct (create_writes ev env t) as [->|(it & Hr & Hrt & ->)];
      [now split|].
    split; [now apply put_item_keys|].
    apply put_item_Forall; [|exact Hall].
    split; intros H; congruence.
  - destruct (complete_writes wev env t)
      as [->|(it & vid & e & c & pe & pn & _ & Hin & ->)]; [now split|].
    split; [now apply update_item_keys|].
    apply update_item_Forall; auto.
    split; intros H; discriminate H.
  - destruct (redeem_writes ev env t) as [->|(it & Hin & Hst & ->)];
      [now split|].
    split; [now apply update_item_keys|].
    apply update_item_Forall; auto.
    split; intros _; cbn; [now apply completed_status|discriminate].
Qed.

Lemma run_well_formed (ops : list operation) (t : table) :
  well_formed t -> well_formed (run ops t).
Proof.
  revert t. induction ops as [|op ops IH]; intros t Ht; [exact Ht|].
  cbn [run fold_left]. apply IH. now apply apply_well_formed.
Qed.

(** Every redemption time in a reachable table is a clock reading. *)
Lemma apply_printable (op : operation) (t : table) :
  well_formed t -> Forall printable_time t ->
  Forall printable_time (apply op t).
Proof.
  intros [Hnd _] Hall.
  assert (Hin : forall it, In it t -> printable_time it)
    by (now apply Forall_forall).
  destruct op as [ev env|wev env|ev env].
  - destruct (create_writes ev env t) as [->|(it & Hr & Hrt & ->)];
      [exact Hall|].
    apply put_item_Forall; [|exact Hall].
    unfold printable_time. now rewrite Hrt.
  - destruct (complete_writes wev env t)
      as [->|(it & vid & e & c & pe & pn & _ & Hit & ->)]; [exact Hall|].
    apply update_item_Forall; auto. exact (Hin it Hit).
  - destruct (redeem_writes ev env t) as [->|(it & Hit & Hst & ->)];
      [exact Hall|].
    apply update_item_Forall; auto.
    unfold printable_time. cbn [ValidateTicket.redeem_update redeemedTime].
    destruct (fromtimestamp_instant (ValidateTicket.redeem_timestamp env))
      as [dt ->]. discriminate.
Qed.

Lemma run_printable (ops : list operation) (t : table) :
  well_formed t -> Forall printable_time t ->
  Forall printable_time (run ops t).
Proof.
  revert t. induction ops as [|op ops IH]; intros t Ht Hall; [exact Hall|].
  cbn [run fold_left]. apply IH.
  - now apply apply_well_formed.
  - now apply apply_printable.
Qed.

Lemma printable_reason (it : item) :
  printable_time it ->
  exists reason,
    ValidateTicket.already_redeemed_reason it = Returns reason
    /\ prefix "Ticket has already been redeemed" reason = true.
Proof.
  intros Hp.
  destruct (ValidateTicket.already_redeemed_reason it) as [reason|e] eqn:Hr.
  - exists reason. split; [reflexivity|].
    now apply already_redeemed_reason_prefix in Hr.
  - apply already_redeemed_reason_raises in Hr.
    destruct Hr as (ts & Hts & _ & Hnone).
    unfold printable_time in Hp. rewrite Hts in Hp. contradiction.
Qed.

Lemma apply_time_implies_redeemed (op : operation) (ops : list operation)
      (t : table) :
  well_formed t -> Forall time_implies_redeemed t ->
  no_delivery_after_redemption (op :: ops) t = true ->
  Forall time_implies_redeemed (apply op t).
Proof.
  intros [Hnd Hall] Htime Hfresh.
  cbn [no_delivery_after_redemption] in Hfresh.
  apply andb_true_iff in Hfresh. destruct Hfresh as [Hfresh _].
  destruct op as [ev env|wev env|ev env].
  - destruct (create_writes ev env t) as [->|(it & Hr & Hrt & ->)];
      [exact Htime|].
    apply put_item_Forall; [|exact Htime]. intros H. congruence.
  - destruct (complete_writes wev env t)
      as [->|(it & vid & e & c & pe & pn & Hc & Hin & ->)]; [exact Htime|].
    rewrite Hc in Hfresh.
    apply update_item_Forall; auto.
    intros H. cbn in H. exfalso.
    destruct (redeemedTime it); [discriminate Hfresh|now apply H].
  - destruct (redeem_writes ev env t) as [->|(it & Hin & Hst & ->)];
      [exact Htime|].
    apply update_item_Forall; auto. intros _. reflexivity.
Qed.

Lemma run_time_implies_redeemed (ops : list operation) (t : table) :
  well_formed t -> Forall time_implies_redeemed t ->
  no_delivery_after_redemption ops t = true ->
  Forall time_implies_redeemed (run ops t).
Proof.
  revert t. induction ops as [|op ops IH]; intros t Ht Htime Hfresh;
    [exact Htime|].
  cbn [run fold_left]. apply IH.
  - now apply apply_well_formed.
  - now apply (apply_time_implies_redeemed op ops).
  - cbn [no_delivery_after_redemption] in Hfresh.
    apply andb_true_iff in Hfresh. now destruct Hfresh.
Qed.

Example normal_history_result :
  no_delivery_after_redemption normal_history [] = true
  /\ run normal_history []
     = [mkitem "donation-1" (Some "cs_test_1") (Some 500) (Some "eur")
               (Some "completed") (Some "buyer@example.org") (Some 1704927000)
               None (Some "IIIIIII") (Some 1704949200) (Some true)
               (Some 1704927600) (Some "Buyer") (Some 1704928200) None].
Proof. split; vm_compute; reflexivity. Qed.

(** The payment event delivered twice before the redemption: the
    second delivery finds a completed record without a redemption
    time, and the record ends redeemed, with its redemption time. *)
Example delivered_twice_result :
  no_delivery_after_redemption delivered_twice [] = true
  /\ run delivered_twice []
     = [mkitem "donation-1" (Some "cs_test_1") (Some 500) (Some "eur")
               (Some "completed") (Some "buyer@example.org") (Some 1704927000)
               None (Some "IIIIIII") (Some 1704949200) (Some true)
               (Some 1704927600) (Some "Buyer") (Some 1704928200) None].
Proof. split; vm_compute; reflexivity. Qed.

(** A completion written over a record that holds a redemption time
    leaves the time and resets the flag. *)
Lemma completion_after_redemption (env : HandleStripeWebhook.environment)
      (wev : HandleStripeWebhook.event) (t : table) (it : item) :
  well_formed t ->
  completes env t = Some it -> redeemedTime it <> None ->
  apply (completePurchase wev env) t <> t ->
  exists it',
    In it' (apply (completePurchase wev env) t)
    /\ donationId it' = donationId it
    /\ redeemedTime it' = redeemedTime it /\ redeemed it' = Some false.
Proof.
  intros [Hnd _] Hc Htime Hchg.
  destruct (complete_writes wev env t)
    as [H|(it0 & vid & e & c & pe & pn & Hc0 & Hin & H)]; [contradiction|].
  rewrite Hc in Hc0. injection Hc0 as <-.
  rewrite H. rewrite (update_item_present _ _ _ it Hin (has_own_key it)).
  eexists. split.
  - apply in_map_iff. exists it. split; [|exact Hin].
    rewrite has_own_key. reflexivity.
  - cbn. auto.
Qed.

(** C3 as stated fails: after a completion event delivered again for
    a redeemed ticket, the record has a redemption time and
    [redeemed = false]. *)
Lemma duplicate_delivery_breaks_iff :
  ~ Forall (fun it =>
              redeemed_implies_completed it
              /\ (redeemedTime it <> None <-> redeemed it = Some true))
           (run duplicate_delivery []).
Proof.
  rewrite duplicate_delivery_result. intros H.
  inversion H as [|it l [_ [Hto _]] _]; subst.
  cbn in Hto. assert (Hne : Some 1704928200 <> None) by discriminate.
  specialize (Hto Hne). discriminate Hto.
Qed.

(** C3, amended.  In every table reached from the empty one by
    createPending, completePurchase and redeem, duplicate deliveries
    of the completion event included, a redeemed record is completed
    and has its redemption time.  A record with a redemption time is
    redeemed as long as no completion event is delivered for a record
    that already holds a redemption time; a completion written over
    such a record is what breaks it. *)
Theorem reachable_records_are_sound (ops : list operation) :
  Forall (fun it => redeemed_implies_completed it
                    /\ redeemed_implies_time it)
         (run ops [])
  /\ (no_delivery_after_redemption ops [] = true ->
      Forall time_implies_redeemed (run ops []))
  /\ (forall wev env it,
        completes env (run ops []) = Some it ->
        redeemedTime it <> None ->
        apply (completePurchase wev env) (run ops []) <> run ops [] ->
        ~ Forall time_implies_redeemed
            (run (ops ++ [completePurchase wev env]) [])).
Proof.
  assert (Hwf : well_formed []) by (split; constructor).
  split; [|split].
  - exact (proj2 (run_well_formed ops [] Hwf)).
  - intros Hfresh. apply run_time_implies_redeemed; auto.
  - intros wev env it Hc Htime Hchg Hall.
    destruct (completion_after_redemption env wev (run ops []) it
                (run_well_formed ops [] Hwf) Hc Htime Hchg)
      as (it' & Hin & _ & Hrt & Hred).
    unfold run in Hall. rewrite fold_left_app in Hall. cbn [fold_left] in Hall.
    rewrite Forall_forall in Hall. specialize (Hall it' Hin).
    unfold time_implies_redeemed in Hall.
    rewrite Hrt, Hred in Hall. specialize (Hall Htime). discriminate Hall.
Qed.

End LifecycleFacts.

(* ================================================================= *)
(** ** The expiry rule                                                 *)
(* ================================================================= *)

Module ExpiryRuleFacts.

Import HandleStripeWebhook PyDatetimeFacts ExpiryFacts ValidateFacts
       LifecycleFacts Examples.



End ExpiryRuleFacts.

(* ================================================================= *)
(** ** The order of the rules                                          *)
(* ================================================================= *)

Module RuleFacts.

Import ValidateTicket ValidateFacts LifecycleFacts.

(** C2.  The rules are applied in the listed order and the first one
    that fails decides: for every record and time the handler's verdict
    is the one of the first failing rule of the specification's list,
    and the valid verdict when none fails.  A pending record is invalid
    at every time; a record past its expiry is rejected as expired even
    while the 2-hour window is still open; and on every record the
    operations can produce, rule 2 answers with an already-redeemed
    reason. *)
Theorem validation_rules_in_order :
  (forall it now,
      validation_rules it now
      = match Spec.evaluate it now with
        | Some Spec.PaymentNotCompleted =>
          Returns (false,
            "Ticket status is not 'completed'. Payment might be pending or failed.")
        | Some Spec.AlreadyRedeemed =>
          reason <- already_redeemed_reason it ;; Returns (false, reason)
        | Some Spec.Expired =>
          Returns (false, "Ticket has expired (past 5 AM UTC next day).")
        | Some Spec.ExceededShortWindow =>
          Returns (false,
            "Ticket is no longer valid (exceeded 2-hour validation window from purchase).")
        | None => Returns (true, "Ticket is valid.")
        end)
  /\ (forall it now reason,
        validation_rules it now = Returns (true, reason) ->
        Spec.evaluate it now = None)
  /\ (forall it now,
        status it = Some "pending" ->
        validation_rules it now
        = Returns (false,
            "Ticket status is not 'completed'. Payment might be pending or failed."))
  /\ (forall it now e c,
        status it = Some "completed" -> default false (redeemed it) = false ->
        expirationTime it = Some e -> creationTime it = Some c ->
        e < now <= c + 2 * 60 * 60 ->
        validation_rules it now
        = Returns (false, "Ticket has expired (past 5 AM UTC next day)."))
  /\ (forall ops it now,
        In it (Lifecycle.run ops []) ->
        Spec.evaluate it now = Some Spec.AlreadyRedeemed ->
        exists reason,
          validation_rules it now = Returns (false, reason)
          /\ prefix "Ticket has already been redeemed" reason = true).
Proof.
  assert (Hmain : forall it now,
    validation_rules it now
    = match Spec.evaluate it now with
      | Some Spec.PaymentNotCompleted =>
        Returns (false,
          "Ticket status is not 'completed'. Payment might be pending or failed.")
      | Some Spec.AlreadyRedeemed =>
        reason <- already_redeemed_reason it ;; Returns (false, reason)
      | Some Spec.Expired =>
        Returns (false, "Ticket has expired (past 5 AM UTC next day).")
      | Some Spec.ExceededShortWindow =>
        Returns (false,
          "Ticket is no longer valid (exceeded 2-hour validation window from purchase).")
      | None => Returns (true, "Ticket is valid.")
      end).
  { intros it now.
    unfold validation_rules, Spec.evaluate. cbn [find Spec.fails].
    destruct (attr_is "completed" (status it)); cbn [negb]; [|reflexivity].
    destruct (redeemed it) as [[|]|]; cbn [default]; try reflexivity;
      destruct (expirationTime it) as [e|]; cbn [default];
      destruct (creationTime it) as [c|]; cbn [default];
      change (2 * 60 * 60) with 7200;
      repeat match goal with
             | |- context [?a <? ?b] => destruct (Z.ltb_spec a b)
             end; try reflexivity; lia. }
  split; [exact Hmain|]. split; [|split; [|split]].
  - intros it now reason. rewrite Hmain.
    destruct (Spec.evaluate it now) as [[| | |]|]; try discriminate.
    + destruct (already_redeemed_reason it); discriminate.
    + reflexivity.
  - intros it now Hst. unfold validation_rules. rewrite Hst. reflexivity.
  - intros it now e c Hst Hred He Hc [Hlt Hle].
    unfold validation_rules. rewrite Hst, Hred, He, Hc. cbn.
    apply Z.ltb_lt in Hlt. rewrite Hlt. reflexivity.
  - intros ops it now Hin Hrule. rewrite Hmain, Hrule.
    assert (Hwf : Lifecycle.well_formed []) by (split; constructor).
    pose proof (run_printable ops [] Hwf (Forall_nil _)) as Hall.
    rewrite Forall_forall in Hall.
    destruct (printable_reason it (Hall it Hin)) as (reason & -> & Hprefix).
    exists reason. split; [reflexivity|exact Hprefix].
Qed.

End RuleFacts.

(* ================================================================= *)
(** ** The race for one ticket                                   *)
(* ================================================================= *)

Module GateFacts.

Import ValidateTicket Gate Examples ValidateFacts LifecycleFacts.

Lemma get_item_unique (t : table) (it : item) :
  NoDup (map donationId t) -> In it t ->
  get_item (donationId it) t = Some it.
Proof.
  intros Hnd Hin. unfold get_item.
  destruct (find (has_key (donationId it)) t) as [x|] eqn:Hf.
  - apply find_some in Hf. destruct Hf as [Hx Hk].
    now rewrite (key_unique t it x Hnd Hin Hx Hk).
  - exfalso. apply (find_none _ _ Hf) in Hin.
    rewrite has_own_key in Hin. discriminate Hin.
Qed.

Lemma get_item_map (k : string) (f : item -> item) (t : table) :
  (forall x, donationId (f x) = donationId x) ->
  get_item k (map (fun x => if has_key k x then f x else x) t)
  = option_map f (get_item k t).
Proof.
  intros Hf. unfold get_item. induction t as [|x t IH]; [reflexivity|].
  cbn [map find]. destruct (has_key k x) eqn:Hk.
  - unfold has_key in *. rewrite Hf, Hk. reflexivity.
  - rewrite Hk. exact IH.
Qed.

(** The two steps of the race are the handler cut at the write. *)
Lemma handler_is_both_steps (ev : event) (env : environment) (t : table) :
  lambda_handler ev env t = run_alone ev env t.
Proof.
  unfold lambda_handler, run_alone, first_step, second_step, try_block.
  destruct (attr_is "OPTIONS" (httpMethod ev)); [reflexivity|].
  destruct (lookup_and_validate ev env t) as [[r|s]|e]; try reflexivity.
  destruct (redemption_logic s env t) as [[r|e] t']; reflexivity.
Qed.

Lemma responses_attempts (vid : string) (l : list environment) :
  responses (map (attempt vid) l) = [].
Proof. induction l as [|env l IH]; [reflexivity|exact IH]. Qed.

Section Race.

Variables (vid : string) (t0 : table) (it0 : item) (rest0 : list item).
Variable envs : list environment.

Hypothesis vid_given : vid <> EmptyString.
Hypothesis keys_unique : NoDup (map donationId t0).
Hypothesis found : query verificationId vid t0 = it0 :: rest0.
Hypothesis completed : attr_is "completed" (status it0) = true.
Hypothesis fresh : default false (redeemed it0) = false.
Hypothesis good :
  Forall (fun env => storage_serves env /\ in_time it0 env) envs.

Lemma env_good (env : environment) :
  In env envs -> storage_serves env /\ in_time it0 env.
Proof. intros Hin. rewrite Forall_forall in good. now apply good. Qed.

Lemma it0_stored : In it0 t0.
Proof. eapply query_in. exact found. Qed.

Lemma it0_valid (env : environment) :
  In env envs ->
  validation_rules it0 (epoch_seconds (current_time_utc env))
  = Returns (true, "Ticket is valid.").
Proof.
  intros Hin. destruct (env_good env Hin) as [_ [He Hc]].
  unfold validation_rules. rewrite completed, fresh. cbn [negb].
  apply Z.ltb_ge in He. apply Z.ltb_ge in Hc. now rewrite He, Hc.
Qed.

(** Reading the ticket before anyone has redeemed it. *)
Lemma read_before (env : environment) :
  In env envs ->
  advance (attempt vid env) t0
  = Some (Evaluated
            (mksnapshot vid it0 (epoch_seconds (current_time_utc env))) env,
          t0).
Proof.
  intros Hin. destruct (env_good env Hin) as [[Hq _] _].
  cbn [advance attempt]. unfold first_step. cbn [httpMethod attr_is].
  change ("POST" =? "OPTIONS")%string with false. cbv iota.
  rewrite (lookup_found (mkevent (Some "POST") (Json (Some vid))) env t0 vid
                        it0 rest0 eq_refl vid_given Hq found).
  now rewrite (it0_valid env Hin).
Qed.

(** Reading it after the attempt of [w] has redeemed it. *)
Lemma read_after (env w : environment) :
  In env envs ->
  exists r,
    advance (attempt vid env) (redeemed_by w (donationId it0) t0)
    = Some (Returned r, redeemed_by w (donationId it0) t0)
    /\ read_too_late r.
Proof.
  intros Hin. destruct (env_good env Hin) as [[Hq _] _].
  destruct (query_after_redeem vid t0 it0 rest0
              (epoch_seconds (redeem_timestamp w)) found) as [rest' Hitems].
  destruct (redeemed_verdict it0 (redeem_timestamp w)
              (epoch_seconds (current_time_utc env)) completed)
    as (why & Hwhy & Hprefix).
  eexists. split.
  - cbn [advance attempt]. unfold first_step. cbn [httpMethod attr_is].
    change ("POST" =? "OPTIONS")%string with false. cbv iota.
    unfold redeemed_by.
    rewrite (lookup_found (mkevent (Some "POST") (Json (Some vid))) env _ vid
                          _ rest' eq_refl vid_given Hq Hitems).
    rewrite Hwhy. reflexivity.
  - unfold read_too_late. cbn. repeat split. eauto.
Qed.

Lemma late_is_no_win (r : response) :
  read_too_late r -> action_is "redeemed" r = false.
Proof.
  intros (_ & _ & Ha & _). unfold action_is. now rewrite Ha.
Qed.

(** The first write wins. *)
Lemma write_first (env : environment) :
  In env envs ->
  exists r,
    advance (Evaluated
               (mksnapshot vid it0 (epoch_seconds (current_time_utc env)))
               env) t0
    = Some (Returned r, redeemed_by env (donationId it0) t0)
    /\ won r /\ action_is "redeemed" r = true.
Proof.
  intros Hin. destruct (env_good env Hin) as [[_ Hu] _].
  eexists. split.
  - cbn [advance]. unfold second_step, redemption_logic.
    cbn [snap_item]. rewrite redeem_write_cases, Hu.
    rewrite (get_item_unique t0 it0 keys_unique it0_stored).
    replace (not_yet_redeemed it0) with true.
    + reflexivity.
    + unfold not_yet_redeemed. revert fresh.
      destruct (redeemed it0) as [[|]|]; cbn; congruence.
  - cbn. unfold won. cbn. auto.
Qed.

(** Every later write fails its condition. *)
Lemma write_later (env w : environment) :
  In env envs ->
  exists r,
    advance (Evaluated
               (mksnapshot vid it0 (epoch_seconds (current_time_utc env)))
               env) (redeemed_by w (donationId it0) t0)
    = Some (Returned r, redeemed_by w (donationId it0) t0)
    /\ lost_the_write r /\ action_is "redeemed" r = false.
Proof.
  intros Hin. destruct (env_good env Hin) as [[_ Hu] _].
  eexists. split.
  - cbn [advance]. unfold second_step, redemption_logic.
    cbn [snap_item]. rewrite redeem_write_cases, Hu.
    unfold redeemed_by.
    rewrite (update_item_present _ _ _ it0 it0_stored (has_own_key it0)).
    rewrite get_item_map by reflexivity.
    rewrite (get_item_unique t0 it0 keys_unique it0_stored).
    cbn [option_map not_yet_redeemed redeem_update redeemed Bool.eqb].
    cbn [String.eqb Ascii.eqb Bool.eqb]. reflexivity.
  - cbn. unfold lost_the_write. cbn. auto.
Qed.

Lemma responses_app (a b : list invocation) :
  responses (a ++ b) = responses a ++ responses b.
Proof. apply flat_map_app. Qed.

Lemma wins_app (a b : list invocation) :
  wins (a ++ b) = (wins a + wins b)%nat.
Proof.
  unfold wins. now rewrite responses_app, filter_app, length_app.
Qed.

Lemma wins_cons (i : invocation) (l : list invocation) :
  wins (i :: l) = (wins [i] + wins l)%nat.
Proof. apply (wins_app [i] l). Qed.

Lemma wins_none (l : list invocation) : responses l = [] -> wins l = 0%nat.
Proof. unfold wins. now intros ->. Qed.

(** One step of one invocation, before and after the winning write. *)
Lemma advance_before (i i' : invocation) (t' : table) :
  in_race vid it0 envs i -> advance i t0 = Some (i', t') ->
  in_race vid it0 envs i' /\ responses [i] = []
  /\ ((t' = t0 /\ responses [i'] = [])
      \/ (exists w, In w envs
                    /\ t' = redeemed_by w (donationId it0) t0
                    /\ wins [i'] = 1%nat)).
Proof.
  intros [(env & Hin & [-> | ->]) | (r & -> & _)] Hadv.
  - rewrite (read_before env Hin) in Hadv. injection Hadv as <- <-.
    split; [left; eauto|]. split; [reflexivity|]. left. now split.
  - destruct (write_first env Hin) as (r & Hr & Hwon & Hact).
    rewrite Hr in Hadv. injection Hadv as <- <-.
    split; [right; eauto|]. split; [reflexivity|]. right.
    exists env. repeat split; auto.
    unfold wins. cbn. now rewrite Hact.
  - discriminate Hadv.
Qed.

Lemma advance_after (w : environment) (i i' : invocation) (t' : table) :
  in_race vid it0 envs i ->
  advance i (redeemed_by w (donationId it0) t0) = Some (i', t') ->
  in_race vid it0 envs i' /\ responses [i] = []
  /\ t' = redeemed_by w (donationId it0) t0 /\ wins [i'] = 0%nat.
Proof.
  intros [(env & Hin & [-> | ->]) | (r & -> & _)] Hadv.
  - destruct (read_after env w Hin) as (r & Hr & Hlate).
    rewrite Hr in Hadv. injection Hadv as <- <-.
    split; [right; eauto|]. repeat split.
    unfold wins. cbn. now rewrite (late_is_no_win r Hlate).
  - destruct (write_later env w Hin) as (r & Hr & Hlost & Hact).
    rewrite Hr in Hadv. injection Hadv as <- <-.
    split; [right; eauto|]. repeat split.
    unfold wins. cbn. now rewrite Hact.
  - discriminate Hadv.
Qed.

Lemma invariant_init : race_invariant vid t0 it0 envs (t0, map (attempt vid) envs).
Proof.
  unfold race_invariant. cbn [fst snd]. split; [apply length_map|].
  split.
  - apply Forall_map, Forall_forall. intros env Hin. left. eauto.
  - left. split; [reflexivity|]. apply responses_attempts.
Qed.

Lemma invariant_step (s s' : state) :
  race_invariant vid t0 it0 envs s -> step s s' -> race_invariant vid t0 it0 envs s'.
Proof.
  intros (Hlen & Hall & Hphase) Hstep.
  destruct Hstep as [t t' before after i i' Hadv].
  unfold race_invariant. cbn [fst snd] in *.
  apply Forall_app in Hall. destruct Hall as [Hb Hia].
  inversion Hia as [|? ? Hi Ha]; subst.
  rewrite length_app in Hlen. cbn [List.length] in Hlen.
  destruct Hphase as [[-> Hnone] | (w & Hw & -> & Hwins)].
  - destruct (advance_before i i' t' Hi Hadv)
      as (Hi' & _ & [[-> Hr'] | (w & Hw & -> & Hone)]).
    + split; [now rewrite length_app|].
      split; [apply Forall_app; split; auto|].
      left. split; [reflexivity|].
      rewrite responses_app in Hnone |- *.
      apply app_eq_nil in Hnone. destruct Hnone as [-> Hnone].
      change (i :: after) with ([i] ++ after) in Hnone.
      change (i' :: after) with ([i'] ++ after).
      rewrite responses_app in Hnone |- *.
      apply app_eq_nil in Hnone. destruct Hnone as [_ ->].
      now rewrite Hr'.
    + split; [now rewrite length_app|].
      split; [apply Forall_app; split; auto|].
      right. exists w. repeat split; auto.
      rewrite responses_app in Hnone.
      apply app_eq_nil in Hnone. destruct Hnone as [Hbn Hnone].
      change (i :: after) with ([i] ++ after) in Hnone.
      rewrite responses_app in Hnone.
      apply app_eq_nil in Hnone. destruct Hnone as [_ Han].
      rewrite wins_app, wins_cons, Hone.
      now rewrite (wins_none before Hbn), (wins_none after Han).
  - destruct (advance_after w i i' t' Hi Hadv) as (Hi' & Hr & -> & Hzero).
    split; [now rewrite length_app|].
    split; [apply Forall_app; split; auto|].
    right. exists w. repeat split; auto.
    rewrite wins_app, wins_cons in Hwins |- *.
    rewrite Hzero. rewrite (wins_none [i] Hr) in Hwins. exact Hwins.
Qed.

Lemma invariant_steps (s s' : state) :
  race_invariant vid t0 it0 envs s -> steps s s' -> race_invariant vid t0 it0 envs s'.
Proof.
  intros Hs Hsteps.
  induction Hsteps as [s|s s' s'' Hsteps IH Hstep]; [exact Hs|].
  exact (invariant_step s' s'' (IH Hs) Hstep).
Qed.

Lemma redeemed_table_differs (w : environment) :
  redeemed_by w (donationId it0) t0 <> t0.
Proof.
  unfold redeemed_by.
  rewrite (update_item_present _ _ _ it0 it0_stored (has_own_key it0)).
  intros Heq.
  assert (Hq : query verificationId vid
                 (map (fun x => if has_key (donationId it0) x
                                then redeem_update
                                       (epoch_seconds (redeem_timestamp w)) x
                                else x) t0)
               = it0 :: rest0) by (rewrite Heq; exact found).
  rewrite query_map in Hq
    by (intros x; now destruct (has_key (donationId it0) x)).
  rewrite found in Hq. cbn [map] in Hq. rewrite has_own_key in Hq.
  injection Hq as Hq _.
  assert (Hr : redeemed it0 = Some true) by (rewrite <- Hq; reflexivity).
  revert fresh. rewrite Hr. discriminate.
Qed.

(** Once the ticket is redeemed the table never changes again. *)
Lemma redeemed_is_final (s s' : state) :
  race_invariant vid t0 it0 envs s -> fst s <> t0 -> steps s s' -> fst s' = fst s.
Proof.
  intros Hs Hne Hsteps.
  induction Hsteps as [|s s' s'' Hsteps IH Hstep]; [reflexivity|].
  specialize (IH Hs Hne).
  pose proof (invariant_steps s s' Hs Hsteps) as (_ & Hall & Hphase).
  rewrite <- IH. rewrite <- IH in Hne.
  destruct Hstep as [t t' before after i i' Hadv]. cbn [fst snd] in *.
  destruct Hphase as [[-> _] | (w & _ & -> & _)]; [congruence|].
  apply Forall_app in Hall. destruct Hall as [_ Hia].
  inversion Hia as [|? ? Hi _]; subst.
  now destruct (advance_after w i i' t' Hi Hadv) as (_ & _ & -> & _).
Qed.

(** An attempt that read in time returns from the write as the winner
    or with the conflict. *)
Lemma advance_read_in_time (t t' : table) (i i' : invocation) :
  read_in_time vid it0 envs i ->
  (t = t0 \/ exists w, In w envs /\ t = redeemed_by w (donationId it0) t0) ->
  advance i t = Some (i', t') ->
  read_in_time vid it0 envs i'.
Proof.
  intros [(env & Hin & ->) | (r & -> & _)] Ht Hadv; [|discriminate Hadv].
  destruct Ht as [-> | (w & _ & ->)].
  - destruct (write_first env Hin) as (r & Hr & Hwon & _).
    rewrite Hr in Hadv. injection Hadv as <- _. right. eauto.
  - destruct (write_later env w Hin) as (r & Hr & Hlost & _).
    rewrite Hr in Hadv. injection Hadv as <- _. right. eauto.
Qed.

Lemma read_in_time_steps (s s' : state) :
  race_invariant vid t0 it0 envs s ->
  Forall (read_in_time vid it0 envs) (snd s) ->
  steps s s' ->
  Forall (read_in_time vid it0 envs) (snd s').
Proof.
  intros Hs Hall Hsteps.
  induction Hsteps as [s|s s' s'' Hsteps IH Hstep]; [exact Hall|].
  specialize (IH Hs Hall).
  pose proof (invariant_steps s s' Hs Hsteps) as (_ & _ & Hphase).
  destruct Hstep as [t t' before after i i' Hadv]. cbn [fst snd] in *.
  apply Forall_app in IH. destruct IH as [Hb Hia].
  inversion Hia as [|? ? Hi Ha]; subst.
  apply Forall_app. split; [exact Hb|]. constructor; [|exact Ha].
  apply (advance_read_in_time t t' i i' Hi); [|exact Hadv].
  destruct Hphase as [[-> _] | (w & Hw & -> & _)]; [now left|right; eauto].
Qed.

End Race.

Lemma split_at {A} (l1 : list A) (i : A) (l2 : list A) :
  firstn (List.length l1) (l1 ++ i :: l2) = l1
  /\ skipn (S (List.length l1)) (l1 ++ i :: l2) = l2.
Proof.
  induction l1 as [|a l1 [IH1 IH2]]; [now split|].
  cbn [List.length app firstn skipn]. now rewrite IH1.
Qed.

Lemma advance_nth_steps (n : nat) (s : state) : steps s (advance_nth n s).
Proof.
  unfold advance_nth. destruct s as [t l]. cbn [fst snd].
  destruct (nth_error l n) as [i|] eqn:Hn; [|apply steps_refl].
  destruct (advance i t) as [[i' t']|] eqn:Hadv; [|apply steps_refl].
  apply nth_error_split in Hn. destruct Hn as (l1 & l2 & -> & <-).
  destruct (split_at l1 i l2) as [-> ->].
  eapply steps_more; [apply steps_refl|]. now constructor.
Qed.

Lemma steps_trans (s s' s'' : state) :
  steps s s' -> steps s' s'' -> steps s s''.
Proof.
  intros H1 H2. induction H2 as [|a b c _ IH Hstep]; [exact H1|].
  eapply steps_more; [exact (IH H1)|exact Hstep].
Qed.

Lemma schedule_steps (picks : list nat) (s : state) :
  steps s (schedule picks s).
Proof.
  revert s. induction picks as [|n picks IH]; intros s; [apply steps_refl|].
  cbn [schedule fold_left]. eapply steps_trans; [apply advance_nth_steps|].
  apply IH.
Qed.

Lemma responses_all_returned (l : list invocation) :
  forallb is_returned l = true ->
  List.length (responses l) = List.length l.
Proof.
  induction l as [|i l IH]; [reflexivity|].
  cbn [forallb]. intros H. apply andb_true_iff in H. destruct H as [Hi Hl].
  destruct i; try discriminate Hi. cbn. now rewrite <- (IH Hl).
Qed.

Lemma in_race_responses (vid : string) (it0 : item)
      (envs : list environment) (l : list invocation) :
  Forall (in_race vid it0 envs) l ->
  Forall (fun r => won r \/ lost_the_write r \/ read_too_late r)
         (responses l).
Proof.
  induction 1 as [|i l Hi _ IH]; [constructor|].
  change (i :: l) with ([i] ++ l). unfold responses in *.
  rewrite flat_map_app. apply Forall_app. split; [|exact IH].
  destruct Hi as [(env & _ & [-> | ->]) | (r & -> & Hr)]; cbn.
  - constructor.
  - constructor.
  - constructor; [exact Hr|constructor].
Qed.

Lemma evaluated_read_in_time (vid : string) (it0 : item)
      (envs : list environment) (l : list invocation) :
  Forall (in_race vid it0 envs) l -> forallb is_evaluated l = true ->
  Forall (read_in_time vid it0 envs) l.
Proof.
  induction 1 as [|i l Hi _ IH]; [constructor|].
  cbn [forallb]. intros H. apply andb_true_iff in H. destruct H as [Hev Hl].
  constructor; [|exact (IH Hl)].
  destruct Hi as [(env & Hin & [-> | ->]) | (r & -> & _)];
    try discriminate Hev.
  left. eauto.
Qed.

Lemma read_in_time_responses (vid : string) (it0 : item)
      (envs : list environment) (l : list invocation) :
  Forall (read_in_time vid it0 envs) l ->
  Forall (fun r => won r \/ lost_the_write r) (responses l).
Proof.
  induction 1 as [|i l Hi _ IH]; [constructor|].
  change (i :: l) with ([i] ++ l). unfold responses in *.
  rewrite flat_map_app. apply Forall_app. split; [|exact IH].
  destruct Hi as [(env & _ & ->) | (r & -> & Hr)]; cbn.
  - constructor.
  - constructor; [exact Hr|constructor].
Qed.

(** When both scans read first, the second write meets the conflict. *)
Example reads_first_outcome :
  map (fun r => body_action (response_body_of r))
      (responses (snd race_reads_first))
  = [Some "redeemed"; Some "failed_redeem_concurrent"]
  /\ steps race_start race_reads_first.
Proof.
  split; [vm_compute; reflexivity|apply schedule_steps].
Qed.

(** C1 as stated fails: an attempt that reads the ticket after the
    winning write is answered with action [none], not with
    [failed_redeem_concurrent]. *)
Lemma late_attempt_gets_action_none :
  exists t r0 r1,
    steps race_start (t, [Returned r0; Returned r1])
    /\ body_action (response_body_of r0) = Some "redeemed"
    /\ body_action (response_body_of r1) = Some "none"
    /\ body_action (response_body_of r1) <> Some "failed_redeem_concurrent".
Proof.
  pose proof (schedule_steps [0; 0; 1]%nat race_start) as H.
  vm_compute in H. do 3 eexists. split; [exact H|].
  repeat split. discriminate.
Qed.

(** C1, amended.  On a completed, unredeemed ticket that is in time
    for every attempt, with the storage serving every call: whatever
    the interleaving, the table is the initial one or the initial one
    with the ticket redeemed by one attempt, and once redeemed it
    never changes again; at most one attempt has returned [redeemed];
    every response is the winner's, or invalid with
    [failed_redeem_concurrent], or invalid with action [none] and an
    already-redeemed reason; when all of N >= 1 attempts have
    returned, exactly one of them returned [redeemed]; and when every
    attempt had read the ticket before the first write, every other
    response is [failed_redeem_concurrent]. *)
Theorem exactly_one_attempt_redeems
        (vid : string) (t0 : table) (it0 : item) (rest0 : list item)
        (envs : list environment) (t : table) (invs : list invocation) :
  vid <> EmptyString ->
  NoDup (map donationId t0) ->
  query verificationId vid t0 = it0 :: rest0 ->
  attr_is "completed" (status it0) = true ->
  default false (redeemed it0) = false ->
  Forall (fun env => storage_serves env /\ in_time it0 env) envs ->
  steps (t0, map (attempt vid) envs) (t, invs) ->
  (t = t0 \/ exists w, In w envs /\ t = redeemed_by w (donationId it0) t0)
  /\ (wins invs <= 1)%nat
  /\ Forall (fun r => won r \/ lost_the_write r \/ read_too_late r)
            (responses invs)
  /\ (forall t' invs', t <> t0 -> steps (t, invs) (t', invs') -> t' = t)
  /\ (envs <> [] -> forallb is_returned invs = true ->
      wins invs = 1%nat
      /\ List.length (responses invs) = List.length envs
      /\ exists w, In w envs /\ t = redeemed_by w (donationId it0) t0)
  /\ (forall t1 invs1,
        steps (t0, map (attempt vid) envs) (t1, invs1) ->
        forallb is_evaluated invs1 = true ->
        steps (t1, invs1) (t, invs) ->
        Forall (fun r => won r \/ lost_the_write r) (responses invs)).
Proof.
  intros Hvid Hnd Hfound Hst Hfresh Hgood Hsteps.
  pose proof (invariant_init vid t0 it0 envs) as Hinit.
  pose proof (invariant_steps vid t0 it0 rest0 envs Hvid Hnd Hfound Hst
                Hfresh Hgood _ _ Hinit Hsteps) as Hinv.
  pose proof Hinv as (Hlen & Hall & Hphase). cbn [fst snd] in *.
  split; [|split; [|split; [|split; [|split]]]].
  - destruct Hphase as [[-> _] | (w & Hw & -> & _)]; [now left|right; eauto].
  - destruct Hphase as [[_ Hnone] | (w & _ & _ & ->)]; [|lia].
    unfold wins. rewrite Hnone. cbn. lia.
  - now apply (in_race_responses vid it0 envs).
  - intros t' invs' Hne Hmore.
    exact (redeemed_is_final vid t0 it0 rest0 envs Hvid Hnd Hfound Hst
             Hfresh Hgood (t, invs) (t', invs') Hinv Hne Hmore).
  - intros Hne Hret. apply responses_all_returned in Hret.
    destruct Hphase as [[_ Hnone] | (w & Hw & -> & Hone)].
    + exfalso. rewrite Hnone in Hret. cbn in Hret.
      destruct envs; [congruence|cbn in Hlen; lia].
    + split; [exact Hone|]. split; [lia|eauto].
  - intros t1 invs1 Hreach Hev Hrest.
    pose proof (invariant_steps vid t0 it0 rest0 envs Hvid Hnd Hfound Hst
                  Hfresh Hgood _ _ Hinit Hreach) as Hinv1.
    pose proof Hinv1 as (_ & Hall1 & _). cbn [snd] in Hall1.
    apply read_in_time_responses with (vid := vid) (it0 := it0) (envs := envs).
    exact (read_in_time_steps vid t0 it0 rest0 envs Hvid Hnd Hfound Hst
             Hfresh Hgood (t1, invs1) (t, invs) Hinv1
             (evaluated_read_in_time vid it0 envs invs1 Hall1 Hev) Hrest).
Qed.

(** Two scans of the example ticket, the second reading after the
    first has written. *)
Lemma exactly_one_attempt_redeems_witness :
  (fst race_end = gate_table
   \/ exists w, In w race_envs
                /\ fst race_end = redeemed_by w (donationId ticket) gate_table)
  /\ (wins (snd race_end) <= 1)%nat
  /\ Forall (fun r => won r \/ lost_the_write r \/ read_too_late r)
            (responses (snd race_end))
  /\ (forall t' invs',
        fst race_end <> gate_table ->
        steps (fst race_end, snd race_end) (t', invs') -> t' = fst race_end)
  /\ (race_envs <> [] -> forallb is_returned (snd race_end) = true ->
      wins (snd race_end) = 1%nat
      /\ List.length (responses (snd race_end)) = List.length race_envs
      /\ exists w, In w race_envs
                   /\ fst race_end
                      = redeemed_by w (donationId ticket) gate_table)
  /\ (forall t1 invs1,
        steps (gate_table, map (attempt "ABCDEFG") race_envs) (t1, invs1) ->
        forallb is_evaluated invs1 = true ->
        steps (t1, invs1) (fst race_end, snd race_end) ->
        Forall (fun r => won r \/ lost_the_write r)
               (responses (snd race_end))).
Proof.
  apply (exactly_one_attempt_redeems
           "ABCDEFG" gate_table ticket [] race_envs
           (fst race_end) (snd race_end)).
  - discriminate.
  - repeat constructor. intros [].
  - reflexivity.
  - reflexivity.
  - reflexivity.
  - repeat constructor; vm_compute; discriminate.
  - exact (schedule_steps [0; 0; 1]%nat race_start).
Defined.

End GateFacts.

(* ================================================================= *)
(** ** The fixed price: set, get, unset, and its use at purchase       *)
(* ================================================================= *)

Module PriceFacts.

Import PriceConfig Examples MoreExamples.

Lemma get_put (c : config_item) (t : table) :
  get_item (configId c) (put_item c t) = Some c.
Proof.
  unfold get_item, put_item.
  destruct (existsb (has_id (configId c)) t) eqn:Hex.
  - apply existsb_exists in Hex. destruct Hex as (x & Hx & Hk).
    induction t as [|y t IH]; [destruct Hx|].
    cbn [map find]. destruct (has_id (configId c) y) eqn:Hy.
    + unfold has_id at 1. now rewrite String.eqb_refl.
    + rewrite Hy. apply IH. destruct Hx as [->|Hx]; [congruence|exact Hx].
  - induction t as [|y t IH].
    + cbn. unfold has_id. now rewrite String.eqb_refl.
    + cbn [existsb] in Hex. apply orb_false_iff in Hex.
      destruct Hex as [Hy Hex]. cbn [app find]. rewrite Hy. now apply IH.
Qed.

Lemma get_put_other (k : string) (c : config_item) (t : table) :
  k <> configId c -> get_item k (put_item c t) = get_item k t.
Proof.
  intros Hne. unfold get_item, put_item.
  assert (Hc : has_id k c = false).
  { unfold has_id. apply String.eqb_neq. congruence. }
  destruct (existsb (has_id (configId c)) t).
  - induction t as [|y t IH]; [reflexivity|].
    cbn [map find]. destruct (has_id (configId c) y) eqn:Hy.
    + rewrite Hc.
      assert (Hky : has_id k y = false).
      { unfold has_id in *. apply String.eqb_eq in Hy.
        apply String.eqb_neq. congruence. }
      now rewrite Hky.
    + destruct (has_id k y); [reflexivity|exact IH].
  - induction t as [|y t IH]; cbn; [now rewrite Hc|].
    destruct (has_id k y); [reflexivity|exact IH].
Qed.

Lemma get_delete (k : string) (t : table) :
  get_item k (delete_item k t) = None.
Proof.
  unfold get_item, delete_item. induction t as [|y t IH]; [reflexivity|].
  cbn [filter]. destruct (has_id k y) eqn:Hy; cbn [negb]; [exact IH|].
  cbn [find]. now rewrite Hy.
Qed.

Lemma get_delete_other (k k' : string) (t : table) :
  k' <> k -> get_item k' (delete_item k t) = get_item k' t.
Proof.
  intros Hne. unfold get_item, delete_item.
  induction t as [|y t IH]; [reflexivity|].
  cbn [filter find]. destruct (has_id k y) eqn:Hy; cbn [negb].
  - assert (Hky : has_id k' y = false).
    { unfold has_id in *. apply String.eqb_eq in Hy.
      apply String.eqb_neq. congruence. }
    now rewrite Hky.
  - cbn [find]. destruct (has_id k' y); [reflexivity|exact IH].
Qed.

(** What a purchase request does, in one statement: it is refused with
    500 and writes nothing, or it writes one pending record whose
    amount is the fixed price when one is configured and the amount of
    the request otherwise. *)
Lemma purchase_cases (ev : ProcessDonation.event)
      (env : ProcessDonation.environment) (t : Dynamo.table) :
  attr_is "OPTIONS" (ProcessDonation.httpMethod ev) = false ->
  (ProcessDonation.statusCode (fst (ProcessDonation.lambda_handler ev env t))
   = 500
   /\ snd (ProcessDonation.lambda_handler ev env t) = t)
  \/ exists email requested a event_name cs,
      ProcessDonation.body ev = ProcessDonation.Json email requested
      /\ 100 <= a
      /\ ProcessDonation.non_empty email = true
      /\ ProcessDonation.session_create env = Returns cs
      /\ match ProcessDonation.price_get_item env with
         | Returns (Some c) =>
           ProcessDonation.priceInCents c = Some a
           /\ event_name
              = Some (match ProcessDonation.eventName c with
                      | Some n => n
                      | None => "Event Ticket"
                      end)
         | _ => requested = Some a /\ event_name = None
         end
      /\ ProcessDonation.lambda_handler ev env t
         = (ProcessDonation.mkresponse 200
              (ProcessDonation.SessionUrl (ProcessDonation.url cs)),
            Dynamo.put_item
              (mkitem (ProcessDonation.uuid4 env)
                      (Some (ProcessDonation.id cs)) (Some a) (Some "eur")
                      (Some "pending") email
                      (Some (ProcessDonation.time_time env)) event_name
                      None None None None None None None) t).
Proof.
  intros Hopt. unfold ProcessDonation.lambda_handler. rewrite Hopt.
  unfold ProcessDonation.try_block.
  destruct (ProcessDonation.body ev) as [|email requested];
    [left; now split|].
  destruct (ProcessDonation.price_get_item env) as [[c|]|e].
  - destruct (ProcessDonation.priceInCents c) as [p|]; [|left; now split].
    cbn [bind]. destruct (Z.ltb_spec p 100); [left; now split|].
    destruct (ProcessDonation.non_empty email) eqn:Hem; cbn [negb];
      [|left; now split].
    destruct (ProcessDonation.session_create env) as [cs|e];
      [|left; now split].
    cbn [bind]. destruct (ProcessDonation.put_fault env); [left; now split|].
    right. do 5 eexists. repeat split; eauto.
  - cbn [bind]. destruct requested as [a|]; [|left; now split].
    destruct (Z.ltb_spec a 100); [left; now split|].
    destruct (ProcessDonation.non_empty email) eqn:Hem; cbn [negb];
      [|left; now split].
    destruct (ProcessDonation.session_create env) as [cs|e];
      [|left; now split].
    cbn [bind]. destruct (ProcessDonation.put_fault env); [left; now split|].
    right. exists email, (Some a), a, None, cs. repeat split; auto.
  - cbn [bind]. destruct requested as [a|]; [|left; now split].
    destruct (Z.ltb_spec a 100); [left; now split|].
    destruct (ProcessDonation.non_empty email) eqn:Hem; cbn [negb];
      [|left; now split].
    destruct (ProcessDonation.session_create env) as [cs|e'];
      [|left; now split].
    cbn [bind]. destruct (ProcessDonation.put_fault env); [left; now split|].
    right. exists email, (Some a), a, None, cs. repeat split; auto.
Qed.

(** [process_donation] is all or nothing: it answers 200 or 500, never
    anything else; with 500 the table is as it was; with 200 exactly
    one record was written, under the fresh id, pending, in euros, of
    at least 100 cents, with the payer and the id of the checkout
    session whose URL is returned. *)
Theorem purchase_answer_and_frame
        (ev : ProcessDonation.event) (env : ProcessDonation.environment)
        (t : Dynamo.table) :
  attr_is "OPTIONS" (ProcessDonation.httpMethod ev) = false ->
  (ProcessDonation.statusCode (fst (ProcessDonation.lambda_handler ev env t))
   = 500
   /\ snd (ProcessDonation.lambda_handler ev env t) = t)
  \/ (exists it cs,
        ProcessDonation.session_create env = Returns cs
        /\ fst (ProcessDonation.lambda_handler ev env t)
           = ProcessDonation.mkresponse 200
               (ProcessDonation.SessionUrl (ProcessDonation.url cs))
        /\ snd (ProcessDonation.lambda_handler ev env t) = Dynamo.put_item it t
        /\ donationId it = ProcessDonation.uuid4 env
        /\ checkoutSessionId it = Some (ProcessDonation.id cs)
        /\ status it = Some "pending"
        /\ currency it = Some "eur"
        /\ (exists a, amount it = Some a /\ 100 <= a)
        /\ ProcessDonation.non_empty (payerEmail it) = true
        /\ verificationId it = None /\ redeemed it = None).
Proof.
  intros Hopt.
  destruct (purchase_cases ev env t Hopt)
    as [H500 | (email & requested & a & en & cs & _ & Ha & Hem & Hcs
                & _ & Hres)].
  - left. exact H500.
  - right. rewrite Hres. cbn [fst snd]. eexists. exists cs.
    split; [exact Hcs|]. split; [reflexivity|]. split; [reflexivity|].
    cbn. repeat split; auto. exists a. auto.
Qed.

Lemma purchase_answer_and_frame_witness :
  (ProcessDonation.statusCode
     (fst (ProcessDonation.lambda_handler purchase checkout [])) = 500
   /\ snd (ProcessDonation.lambda_handler purchase checkout []) = [])
  \/ (exists it cs,
        ProcessDonation.session_create checkout = Returns cs
        /\ fst (ProcessDonation.lambda_handler purchase checkout [])
           = ProcessDonation.mkresponse 200
               (ProcessDonation.SessionUrl (ProcessDonation.url cs))
        /\ snd (ProcessDonation.lambda_handler purchase checkout [])
           = Dynamo.put_item it []
        /\ donationId it = ProcessDonation.uuid4 checkout
        /\ checkoutSessionId it = Some (ProcessDonation.id cs)
        /\ status it = Some "pending"
        /\ currency it = Some "eur"
        /\ (exists a, amount it = Some a /\ 100 <= a)
        /\ ProcessDonation.non_empty (payerEmail it) = true
        /\ verificationId it = None /\ redeemed it = None).
Proof.
  apply (purchase_answer_and_frame purchase checkout []). reflexivity.
Defined.

(** [set_event_price] accepts a request exactly when it names the
    event and gives a positive price (and the write is served);
    otherwise it answers 500 and the stored price is untouched.  There
    is no lower bound other than zero. *)
Theorem set_price_accepts_iff
        (ev : SetEventPrice.event) (env : SetEventPrice.environment)
        (t : table) :
  attr_is "OPTIONS" (SetEventPrice.httpMethod ev) = false ->
  (SetEventPrice.statusCode (fst (SetEventPrice.lambda_handler ev env t)) = 200
   <-> exists p name,
       SetEventPrice.body ev
       = SetEventPrice.Json (SetEventPrice.PriceInt p) (Some name)
       /\ name <> EmptyString /\ 0 < p
       /\ SetEventPrice.put_fault env = None)
  /\ (SetEventPrice.statusCode (fst (SetEventPrice.lambda_handler ev env t))
      <> 200 ->
      SetEventPrice.statusCode (fst (SetEventPrice.lambda_handler ev env t))
      = 500
      /\ snd (SetEventPrice.lambda_handler ev env t) = t).
Proof.
  intros Hopt. unfold SetEventPrice.lambda_handler. rewrite Hopt.
  unfold SetEventPrice.try_block.
  destruct (SetEventPrice.body ev) as [|price name].
  { split; [split|]; cbn.
    - discriminate.
    - intros (p & n & H & _). discriminate H.
    - auto. }
  destruct name as [[|ch name]|].
  1, 3: split; [split|]; cbn;
    [ discriminate
    | intros (p & n & H & Hn & _); congruence
    | auto ].
  destruct price as [|n| |]; cbn [bind].
  1, 3, 4: split; [split|]; cbn;
    [ discriminate
    | intros (p & n & H & _); discriminate H
    | auto ].
  destruct (Z.leb_spec n 0) as [Hle|Hgt].
  { split; [split|]; cbn.
    - discriminate.
    - intros (p & m & H & _ & Hp & _). injection H as <- _. lia.
    - auto. }
  destruct (SetEventPrice.put_fault env) as [e|] eqn:Hput.
  { split; [split|]; cbn.
    - discriminate.
    - intros (p & m & _ & _ & _ & H). discriminate H.
    - auto. }
  split; [split|]; cbn.
  - intros _. exists n, (String ch name). repeat split; auto. discriminate.
  - reflexivity.
  - congruence.
Qed.

Lemma set_price_accepts_iff_witness :
  (SetEventPrice.statusCode
     (fst (SetEventPrice.lambda_handler set_fifty admin [])) = 200
   <-> exists p name,
       SetEventPrice.body set_fifty
       = SetEventPrice.Json (SetEventPrice.PriceInt p) (Some name)
       /\ name <> EmptyString /\ 0 < p
       /\ SetEventPrice.put_fault admin = None)
  /\ (SetEventPrice.statusCode
        (fst (SetEventPrice.lambda_handler set_fifty admin [])) <> 200 ->
      SetEventPrice.statusCode
        (fst (SetEventPrice.lambda_handler set_fifty admin [])) = 500
      /\ snd (SetEventPrice.lambda_handler set_fifty admin []) = []).
Proof.
  apply (set_price_accepts_iff set_fifty admin []). reflexivity.
Defined.

Lemma set_writes (ev : SetEventPrice.event) (env : SetEventPrice.environment)
      (t : table) (p : Z) (name : string) :
  attr_is "OPTIONS" (SetEventPrice.httpMethod ev) = false ->
  SetEventPrice.body ev
  = SetEventPrice.Json (SetEventPrice.PriceInt p) (Some name) ->
  name <> EmptyString -> 0 < p -> SetEventPrice.put_fault env = None ->
  snd (SetEventPrice.lambda_handler ev env t)
  = put_item (mkconfig PRICE_CONFIG_ID (Some p) (Some name)
                (Some (SetEventPrice.remaining_time_in_millis env))) t.
Proof.
  intros Hopt Hbody Hname Hp Hput.
  unfold SetEventPrice.lambda_handler, SetEventPrice.try_block.
  rewrite Hopt, Hbody. destruct name as [|ch name]; [congruence|].
  cbn [bind]. apply Z.leb_gt in Hp. rewrite Hp, Hput. reflexivity.
Qed.

Lemma get_current_put (c : config_item) (t : table) :
  configId c = PRICE_CONFIG_ID ->
  get_item PRICE_CONFIG_ID (put_item c t) = Some c.
Proof. intros <-. apply get_put. Qed.

(** After an accepted [set_event_price], [get_event_price] returns the
    price and the event name just set, whatever was stored before, and
    the items under other keys are as they were. *)
Theorem get_returns_what_set_stored
        (ev : SetEventPrice.event) (env : SetEventPrice.environment)
        (t : table) (p : Z) (name : string) (method : option string) :
  attr_is "OPTIONS" (SetEventPrice.httpMethod ev) = false ->
  SetEventPrice.body ev
  = SetEventPrice.Json (SetEventPrice.PriceInt p) (Some name) ->
  name <> EmptyString -> 0 < p -> SetEventPrice.put_fault env = None ->
  attr_is "OPTIONS" method = false ->
  GetEventPrice.lambda_handler method None
    (snd (SetEventPrice.lambda_handler ev env t))
  = GetEventPrice.mkresponse 200
      (GetEventPrice.Item
         (mkconfig PRICE_CONFIG_ID (Some p) (Some name)
                   (Some (SetEventPrice.remaining_time_in_millis env))))
  /\ forall k, k <> PRICE_CONFIG_ID ->
       get_item k (snd (SetEventPrice.lambda_handler ev env t)) = get_item k t.
Proof.
  intros Hopt Hbody Hname Hp Hput Hget.
  rewrite (set_writes ev env t p name Hopt Hbody Hname Hp Hput). split.
  - unfold GetEventPrice.lambda_handler. rewrite Hget.
    now rewrite get_current_put.
  - intros k Hk. now apply get_put_other.
Qed.

Lemma get_returns_what_set_stored_witness :
  GetEventPrice.lambda_handler (Some "GET") None
    (snd (SetEventPrice.lambda_handler set_fifty admin []))
  = GetEventPrice.mkresponse 200
      (GetEventPrice.Item
         (mkconfig PRICE_CONFIG_ID (Some 50) (Some "Summer Night")
                   (Some (SetEventPrice.remaining_time_in_millis admin))))
  /\ forall k, k <> PRICE_CONFIG_ID ->
       get_item k (snd (SetEventPrice.lambda_handler set_fifty admin []))
       = get_item k [].
Proof.
  apply (get_returns_what_set_stored set_fifty admin [] 50 "Summer Night"
           (Some "GET")).
  - reflexivity.
  - reflexivity.
  - discriminate.
  - reflexivity.
  - reflexivity.
  - reflexivity.
Defined.

(** A fixed price replaces the amount of the request: a purchase made
    after an accepted [set_event_price] is stored with that price and
    event name.  A price below 100 cents, which [set_event_price]
    accepts, makes every purchase fail with 500. *)
Theorem fixed_price_governs_purchase
        (sev : SetEventPrice.event) (senv : SetEventPrice.environment)
        (pt : table) (p : Z) (name : string)
        (pev : ProcessDonation.event) (penv : ProcessDonation.environment)
        (t : Dynamo.table) :
  attr_is "OPTIONS" (SetEventPrice.httpMethod sev) = false ->
  SetEventPrice.body sev
  = SetEventPrice.Json (SetEventPrice.PriceInt p) (Some name) ->
  name <> EmptyString -> 0 < p -> SetEventPrice.put_fault senv = None ->
  ProcessDonation.price_get_item penv
  = price_get_item None (snd (SetEventPrice.lambda_handler sev senv pt)) ->
  attr_is "OPTIONS" (ProcessDonation.httpMethod pev) = false ->
  (p < 100 ->
   ProcessDonation.statusCode (fst (ProcessDonation.lambda_handler pev penv t))
   = 500
   /\ snd (ProcessDonation.lambda_handler pev penv t) = t)
  /\ (ProcessDonation.statusCode
        (fst (ProcessDonation.lambda_handler pev penv t)) = 200 ->
      100 <= p
      /\ exists it,
          snd (ProcessDonation.lambda_handler pev penv t)
          = Dynamo.put_item it t
          /\ amount it = Some p /\ Dynamo.eventName it = Some name
          /\ status it = Some "pending").
Proof.
  intros Hsopt Hbody Hname Hp Hput Hlookup Hpopt.
  rewrite (set_writes sev senv pt p name Hsopt Hbody Hname Hp Hput) in Hlookup.
  unfold price_get_item in Hlookup.
  rewrite get_current_put in Hlookup by reflexivity.
  cbn [option_map as_price_item priceInCents eventName] in Hlookup.
  destruct (purchase_cases pev penv t Hpopt)
    as [[H500 Hsame] | (email & requested & a & en & cs & _ & Ha & _ & _
                        & Hprice & Hres)].
  - split; [now intros _|]. intros H200. rewrite H500 in H200. discriminate.
  - rewrite Hlookup in Hprice. cbn in Hprice. destruct Hprice as [[= <-] ->].
    rewrite Hres. cbn [fst snd ProcessDonation.statusCode]. split.
    + intros Hlt. lia.
    + intros _. split; [exact Ha|]. eexists. split; [reflexivity|].
      cbn. auto.
Qed.

Lemma fixed_price_governs_purchase_witness :
  (50 < 100 ->
   ProcessDonation.statusCode
     (fst (ProcessDonation.lambda_handler
             purchase
             (checkout_with (snd (SetEventPrice.lambda_handler set_fifty admin [])))
             [])) = 500
   /\ snd (ProcessDonation.lambda_handler
             purchase
             (checkout_with (snd (SetEventPrice.lambda_handler set_fifty admin [])))
             []) = [])
  /\ (ProcessDonation.statusCode
        (fst (ProcessDonation.lambda_handler
                purchase
                (checkout_with
                   (snd (SetEventPrice.lambda_handler set_fifty admin [])))
                [])) = 200 ->
      100 <= 50
      /\ exists it,
          snd (ProcessDonation.lambda_handler
                 purchase
                 (checkout_with
                    (snd (SetEventPrice.lambda_handler set_fifty admin [])))
                 [])
          = Dynamo.put_item it []
          /\ amount it = Some 50 /\ Dynamo.eventName it = Some "Summer Night"
          /\ status it = Some "pending").
Proof.
  apply (fixed_price_governs_purchase
           set_fifty admin [] 50 "Summer Night" purchase
           (checkout_with (snd (SetEventPrice.lambda_handler set_fifty admin [])))
           []).
  - reflexivity.
  - reflexivity.
  - discriminate.
  - reflexivity.
  - reflexivity.
  - reflexivity.
  - reflexivity.
Defined.

Lemma delete_twice (k : string) (t : table) :
  delete_item k (delete_item k t) = delete_item k t.
Proof.
  unfold delete_item. induction t as [|y t IH]; [reflexivity|].
  cbn [filter]. destruct (negb (has_id k y)) eqn:Hy; [|exact IH].
  cbn [filter]. now rewrite Hy, IH.
Qed.

(** [unset-price-event] succeeds whether or not a price is set, and
    doing it twice is doing it once.  Afterwards [get_event_price]
    answers 404, the items under other keys are as they were, and a
    purchase is stored with the amount of the request and no event
    name. *)
Theorem unset_restores_free_amount
        (method : option string) (t : table) :
  attr_is "OPTIONS" method = false ->
  UnsetPriceEvent.statusCode (fst (UnsetPriceEvent.lambda_handler method None t))
  = 200
  /\ GetEventPrice.lambda_handler (Some "GET") None
       (snd (UnsetPriceEvent.lambda_handler method None t))
     = GetEventPrice.mkresponse 404
         (GetEventPrice.Message "No fixed price has been set.")
  /\ UnsetPriceEvent.lambda_handler method None
       (snd (UnsetPriceEvent.lambda_handler method None t))
     = UnsetPriceEvent.lambda_handler method None t
  /\ (forall k, k <> PRICE_CONFIG_ID ->
       get_item k (snd (UnsetPriceEvent.lambda_handler method None t))
       = get_item k t)
  /\ (forall pev penv dt,
        ProcessDonation.price_get_item penv
        = price_get_item None
            (snd (UnsetPriceEvent.lambda_handler method None t)) ->
        attr_is "OPTIONS" (ProcessDonation.httpMethod pev) = false ->
        ProcessDonation.statusCode
          (fst (ProcessDonation.lambda_handler pev penv dt)) = 200 ->
        exists email a it,
          ProcessDonation.body pev = ProcessDonation.Json email (Some a)
          /\ snd (ProcessDonation.lambda_handler pev penv dt)
             = Dynamo.put_item it dt
          /\ amount it = Some a /\ Dynamo.eventName it = None).
Proof.
  intros Hopt. unfold UnsetPriceEvent.lambda_handler. rewrite Hopt.
  cbn [fst snd UnsetPriceEvent.statusCode].
  split; [reflexivity|]. split; [|split; [|split]].
  - unfold GetEventPrice.lambda_handler. cbn [attr_is].
    change ("GET" =? "OPTIONS")%string with false. cbv iota.
    now rewrite get_delete.
  - now rewrite delete_twice.
  - intros k Hk. now apply get_delete_other.
  - intros pev penv dt Hlookup Hpopt H200.
    unfold price_get_item in Hlookup. rewrite get_delete in Hlookup.
    cbn [option_map] in Hlookup.
    destruct (purchase_cases pev penv dt Hpopt)
      as [[H500 _] | (email & requested & a & en & cs & Hbody & _ & _ & _
                      & Hprice & Hres)].
    + rewrite H500 in H200. discriminate.
    + rewrite Hlookup in Hprice. destruct Hprice as [-> ->].
      exists email, a. eexists. split; [exact Hbody|].
      rewrite Hres. cbn [snd]. split; [reflexivity|]. cbn. auto.
Qed.

Lemma unset_restores_free_amount_witness :
  UnsetPriceEvent.statusCode
    (fst (UnsetPriceEvent.lambda_handler (Some "POST") None [])) = 200
  /\ GetEventPrice.lambda_handler (Some "GET") None
       (snd (UnsetPriceEvent.lambda_handler (Some "POST") None []))
     = GetEventPrice.mkresponse 404
         (GetEventPrice.Message "No fixed price has been set.")
  /\ UnsetPriceEvent.lambda_handler (Some "POST") None
       (snd (UnsetPriceEvent.lambda_handler (Some "POST") None []))
     = UnsetPriceEvent.lambda_handler (Some "POST") None []
  /\ (forall k, k <> PRICE_CONFIG_ID ->
       get_item k (snd (UnsetPriceEvent.lambda_handler (Some "POST") None []))
       = get_item k [])
  /\ (forall pev penv dt,
        ProcessDonation.price_get_item penv
        = price_get_item None
            (snd (UnsetPriceEvent.lambda_handler (Some "POST") None [])) ->
        attr_is "OPTIONS" (ProcessDonation.httpMethod pev) = false ->
        ProcessDonation.statusCode
          (fst (ProcessDonation.lambda_handler pev penv dt)) = 200 ->
        exists email a it,
          ProcessDonation.body pev = ProcessDonation.Json email (Some a)
          /\ snd (ProcessDonation.lambda_handler pev penv dt)
             = Dynamo.put_item it dt
          /\ amount it = Some a /\ Dynamo.eventName it = None).
Proof.
  apply (unset_restores_free_amount (Some "POST") []). reflexivity.
Defined.

End PriceFacts.

(* ================================================================= *)
(** ** From payment to redemption                                      *)
(* ================================================================= *)

Module TicketFacts.

Import Shape Examples MoreExamples PyDatetimeFacts ExpiryFacts ValidateFacts
       LifecycleFacts GateFacts.

(** The expiry lies between 5 and 29 hours after the creation time. *)
Lemma expiry_after_creation (now_utc : datetime) :
  valid_datetime now_utc ->
  1970 <= year (dt_date now_utc) <= 9998 ->
  exists expiry,
    HandleStripeWebhook.expiration_timestamp now_utc = Returns expiry
    /\ HandleStripeWebhook.creation_timestamp now_utc + 5 * 3600 <= expiry
    /\ expiry <= HandleStripeWebhook.creation_timestamp now_utc + 29 * 3600.
Proof.
  intros Hv Hy.
  destruct (int_timestamp_bounds now_utc Hv (proj1 Hy))
    as (Hts & _ & Hord & Hsod).
  destruct (expiration_of now_utc Hv Hy) as (_ & _ & _ & Hexp).
  eexists. split; [exact Hexp|].
  unfold HandleStripeWebhook.creation_timestamp. lia.
Qed.

(** A ticket written by the webhook is valid up to two hours after its
    creation time and never longer: the 05:00 expiry always comes
    later than the end of the 2-hour window, so between the two the
    ticket is refused for the window and after the expiry as expired. *)
Theorem completed_ticket_window
        (now_utc : datetime) (vid : string) (payer_email payer_name : option string)
        (it : item) :
  valid_datetime now_utc ->
  1970 <= year (dt_date now_utc) <= 9998 ->
  exists expiry,
    HandleStripeWebhook.expiration_timestamp now_utc = Returns expiry
    /\ HandleStripeWebhook.creation_timestamp now_utc + 2 * 60 * 60 < expiry
    /\ forall now,
        let ticket :=
          HandleStripeWebhook.completion_update
            vid expiry (HandleStripeWebhook.creation_timestamp now_utc)
            payer_email payer_name it in
        (now <= HandleStripeWebhook.creation_timestamp now_utc + 2 * 60 * 60 ->
         ValidateTicket.validation_rules ticket now
         = Returns (true, "Ticket is valid."))
        /\ (HandleStripeWebhook.creation_timestamp now_utc + 2 * 60 * 60 < now
            <= expiry ->
            ValidateTicket.validation_rules ticket now
            = Returns (false,
                "Ticket is no longer valid (exceeded 2-hour validation window from purchase)."))
        /\ (expiry < now ->
            ValidateTicket.validation_rules ticket now
            = Returns (false, "Ticket has expired (past 5 AM UTC next day).")).
Proof.
  intros Hv Hy.
  destruct (expiry_after_creation now_utc Hv Hy) as (expiry & Hexp & Hlo & _).
  exists expiry. split; [exact Hexp|]. split; [lia|].
  intros now. cbv zeta. unfold ValidateTicket.validation_rules.
  cbn [HandleStripeWebhook.completion_update status redeemed expirationTime
       creationTime ValidateTicket.default attr_is].
  change ("completed" =? "completed")%string with true. cbn [negb].
  repeat split; intros H.
  - replace (expiry <? now) with false by (symmetry; apply Z.ltb_ge; lia).
    replace (HandleStripeWebhook.creation_timestamp now_utc + 2 * 60 * 60 <? now)
      with false by (symmetry; apply Z.ltb_ge; lia).
    reflexivity.
  - replace (expiry <? now) with false by (symmetry; apply Z.ltb_ge; lia).
    replace (HandleStripeWebhook.creation_timestamp now_utc + 2 * 60 * 60 <? now)
      with true by (symmetry; apply Z.ltb_lt; lia).
    reflexivity.
  - replace (expiry <? now) with true by (symmetry; apply Z.ltb_lt; lia).
    reflexivity.
Qed.

Lemma completed_ticket_window_witness :
  exists expiry,
    HandleStripeWebhook.expiration_timestamp completion_2300 = Returns expiry
    /\ HandleStripeWebhook.creation_timestamp completion_2300 + 2 * 60 * 60
       < expiry
    /\ forall now,
        let ticket :=
          HandleStripeWebhook.completion_update
            "ABCDEFG" expiry
            (HandleStripeWebhook.creation_timestamp completion_2300)
            None None pending_record in
        (now <= HandleStripeWebhook.creation_timestamp completion_2300
                + 2 * 60 * 60 ->
         ValidateTicket.validation_rules ticket now
         = Returns (true, "Ticket is valid."))
        /\ (HandleStripeWebhook.creation_timestamp completion_2300 + 2 * 60 * 60
            < now <= expiry ->
            ValidateTicket.validation_rules ticket now
            = Returns (false,
                "Ticket is no longer valid (exceeded 2-hour validation window from purchase)."))
        /\ (expiry < now ->
            ValidateTicket.validation_rules ticket now
            = Returns (false, "Ticket has expired (past 5 AM UTC next day).")).
Proof.
  apply (completed_ticket_window completion_2300 "ABCDEFG" None None
                                 pending_record).
  - unfold valid_datetime, valid_date. vm_compute. intuition discriminate.
  - vm_compute. intuition discriminate.
Defined.

(** Every call of [validate_ticket], sorted by what it does to the
    table. *)
Lemma validate_cases (ev : ValidateTicket.event)
      (env : ValidateTicket.environment) (t : table) :
  (ValidateTicket.body_action
     (ValidateTicket.response_body_of
        (fst (ValidateTicket.lambda_handler ev env t))) <> Some "redeemed"
   /\ snd (ValidateTicket.lambda_handler ev env t) = t)
  \/ exists vid it rest,
      ValidateTicket.body ev = ValidateTicket.Json (Some vid)
      /\ query verificationId vid t = it :: rest
      /\ attr_is "completed" (status it) = true
      /\ ValidateTicket.default false (redeemed it) = false
      /\ ValidateTicket.lambda_handler ev env t
         = (ValidateTicket.create_response 200
              (ValidateTicket.Ticket
                 (ValidateTicket.response_data_of
                    (ValidateTicket.mksnapshot vid it
                       (epoch_seconds (ValidateTicket.current_time_utc env)))
                    true "Ticket is valid and has been redeemed." true
                    (Some (epoch_seconds (ValidateTicket.redeem_timestamp env)))
                    "redeemed"))
              ValidateTicket.cors_headers,
            update_item (donationId it)
              (ValidateTicket.redeem_update
                 (epoch_seconds (ValidateTicket.redeem_timestamp env))) t).
Proof.
  unfold ValidateTicket.lambda_handler.
  destruct (attr_is "OPTIONS" _); [left; split; [discriminate|reflexivity]|].
  unfold ValidateTicket.try_block, ValidateTicket.lookup_and_validate.
  destruct (ValidateTicket.body ev) as [|[vid|]];
    try (left; split; [discriminate|reflexivity]).
  destruct vid as [|ch vid]; [left; split; [discriminate|reflexivity]|].
  destruct (ValidateTicket.query_fault env);
    [left; split; [discriminate|reflexivity]|].
  cbn [bind].
  destruct (query verificationId _ t) as [|it rest] eqn:Hq;
    [left; split; [discriminate|reflexivity]|].
  destruct (ValidateTicket.validation_rules it _) as [[[|] why]|] eqn:Hv;
    cbn [bind]; try (left; split; [discriminate|reflexivity]).
  apply valid_verdict_inv in Hv. destruct Hv as (Hst & Hfresh & _).
  unfold ValidateTicket.redemption_logic. cbn [ValidateTicket.snap_item].
  rewrite redeem_write_cases.
  destruct (ValidateTicket.update_fault env) as [[code|msg|]|].
  - destruct (String.eqb code _); left; split; (discriminate || reflexivity).
  - left; split; (discriminate || reflexivity).
  - left; split; (discriminate || reflexivity).
  - destruct (ValidateTicket.not_yet_redeemed _);
      [|left; split; (discriminate || reflexivity)].
    right. exists (String ch vid), it, rest. repeat split; auto.
Qed.

(** The response says [redeemed] exactly when the call has written:
    then the record found under the code, and no other, has
    [redeemed = true] and the redemption time of this call; in every
    other case (preflight, bad request, unknown code, rejected ticket,
    conflict, storage failure) the table is left as it was. *)
Theorem table_changes_only_on_redeemed
        (ev : ValidateTicket.event) (env : ValidateTicket.environment)
        (t : table) :
  (ValidateTicket.body_action
     (ValidateTicket.response_body_of
        (fst (ValidateTicket.lambda_handler ev env t))) <> Some "redeemed"
   /\ snd (ValidateTicket.lambda_handler ev env t) = t)
  \/ (ValidateTicket.body_action
        (ValidateTicket.response_body_of
           (fst (ValidateTicket.lambda_handler ev env t))) = Some "redeemed"
      /\ ValidateTicket.statusCode (fst (ValidateTicket.lambda_handler ev env t))
         = 200
      /\ ValidateTicket.body_valid
           (ValidateTicket.response_body_of
              (fst (ValidateTicket.lambda_handler ev env t))) = Some true
      /\ exists vid it rest,
          ValidateTicket.body ev = ValidateTicket.Json (Some vid)
          /\ query verificationId vid t = it :: rest
          /\ snd (ValidateTicket.lambda_handler ev env t)
             = map (fun x =>
                      if has_key (donationId it) x
                      then ValidateTicket.redeem_update
                             (epoch_seconds (ValidateTicket.redeem_timestamp env))
                             x
                      else x) t).
Proof.
  destruct (validate_cases ev env t)
    as [H | (vid & it & rest & Hb & Hq & _ & _ & Hres)]; [now left|].
  right. rewrite Hres. cbn. repeat split.
  exists vid, it, rest. repeat split; auto.
  apply update_item_present with (it := it);
    [eapply query_in; exact Hq|apply has_own_key].
Qed.

(** A redeemed record is never written again by [validate_ticket]: its
    redemption time stays the one of the first redemption. *)
Theorem redemption_is_never_overwritten
        (ev : ValidateTicket.event) (env : ValidateTicket.environment)
        (t : table) (it : item) :
  NoDup (map donationId t) ->
  In it t -> redeemed it = Some true ->
  In it (snd (ValidateTicket.lambda_handler ev env t)).
Proof.
  intros Hnd Hin Hred.
  destruct (validate_cases ev env t)
    as [[_ ->] | (vid & found & rest & _ & Hq & _ & Hfresh & ->)];
    [exact Hin|].
  cbn [snd].
  rewrite (update_item_present _ _ _ found (query_in _ _ _ _ _ Hq)
                               (has_own_key found)).
  apply in_map_iff. exists it. split; [|exact Hin].
  destruct (has_key (donationId found) it) eqn:Hk; [|reflexivity].
  rewrite (key_unique t found it Hnd (query_in _ _ _ _ _ Hq) Hin Hk) in Hred.
  rewrite Hred in Hfresh. discriminate Hfresh.
Qed.

Lemma redemption_is_never_overwritten_witness :
  In used_ticket
     (snd (ValidateTicket.lambda_handler (scan "ABCDEFG") (calm after_20_min)
                                         used_table)).
Proof.
  apply (redemption_is_never_overwritten
           (scan "ABCDEFG") (calm after_20_min) used_table used_ticket).
  - vm_compute. repeat constructor. intros [].
  - vm_compute. left. reflexivity.
  - reflexivity.
Defined.

Lemma update_item_keeps (A : Type) (g : item -> A) (f : item -> item)
      (t : table) (it : item) :
  In it t -> (forall x, g (f x) = g x) ->
  map g (update_item (donationId it) f t) = map g t.
Proof.
  intros Hin Hg.
  rewrite (update_item_present _ _ _ it Hin (has_own_key it)).
  rewrite map_map. apply map_ext. intros x.
  now destruct (has_key (donationId it) x).
Qed.

(** Neither the webhook nor [validate_ticket] ever adds or removes a
    record or changes what the purchase wrote (key, session id, amount,
    currency, purchase time, event name); [validate_ticket] also leaves
    everything the completion wrote. *)
Theorem purchase_data_is_never_rewritten :
  (forall wev env t,
      map Shape.purchase_fields
          (snd (fst (HandleStripeWebhook.lambda_handler wev env t)))
      = map Shape.purchase_fields t)
  /\ (forall ev env t,
        map Shape.purchase_fields (snd (ValidateTicket.lambda_handler ev env t))
        = map Shape.purchase_fields t
        /\ map Shape.completion_fields
               (snd (ValidateTicket.lambda_handler ev env t))
           = map Shape.completion_fields t).
Proof.
  split.
  - intros wev env t.
    destruct (complete_writes wev env t)
      as [H | (it & vid & e & c & pe & pn & _ & Hin & H)];
      cbn [Lifecycle.apply] in H; rewrite H; [reflexivity|].
    now apply update_item_keeps.
  - intros ev env t.
    destruct (redeem_writes ev env t) as [H | (it & Hin & _ & H)];
      cbn [Lifecycle.apply] in H; rewrite H; [now split|].
    split; now apply update_item_keeps.
Qed.

(** The webhook raises exactly when [headers] is null or a completion
    event comes with a null [customer_details] or [amount_total]; it
    answers 400 exactly when the headers are read and the signature
    check raises; every other answer is a 200.  It writes only for a
    completion event whose session matches a record, and then only
    that record; unless it answers with the success body nothing is
    written and no mail is sent. *)
Theorem webhook_answer_and_frame
        (wev : HandleStripeWebhook.event)
        (env : HandleStripeWebhook.environment) (t : table) :
  ((exists x, fst (fst (HandleStripeWebhook.lambda_handler wev env t))
              = Raises x)
   <-> HandleStripeWebhook.headers wev = HandleStripeWebhook.NullHeaders
       \/ exists e,
           HandleStripeWebhook.construct_event env = Returns e
           /\ HandleStripeWebhook.event_type e = "checkout.session.completed"
           /\ (HandleStripeWebhook.customer_details
                 (HandleStripeWebhook.data_object e)
               = HandleStripeWebhook.NullDetails
               \/ HandleStripeWebhook.amount_total
                    (HandleStripeWebhook.data_object e)
                  = HandleStripeWebhook.NullAmount))
  /\ ((exists r, fst (fst (HandleStripeWebhook.lambda_handler wev env t))
                 = Returns r
                 /\ HandleStripeWebhook.statusCode r = 400)
      <-> HandleStripeWebhook.headers wev <> HandleStripeWebhook.NullHeaders
          /\ exists x, HandleStripeWebhook.construct_event env = Raises x)
  /\ (forall r,
        fst (fst (HandleStripeWebhook.lambda_handler wev env t)) = Returns r ->
        HandleStripeWebhook.statusCode r = 400
        \/ HandleStripeWebhook.statusCode r = 200)
  /\ (fst (fst (HandleStripeWebhook.lambda_handler wev env t))
      <> Returns (HandleStripeWebhook.mkresponse
                    200 (Some [("status", "success")])) ->
      snd (fst (HandleStripeWebhook.lambda_handler wev env t)) = t
      /\ snd (HandleStripeWebhook.lambda_handler wev env t) = [])
  /\ (snd (fst (HandleStripeWebhook.lambda_handler wev env t)) = t
      \/ exists it f,
          Lifecycle.completes env t = Some it
          /\ snd (fst (HandleStripeWebhook.lambda_handler wev env t))
             = map (fun x => if has_key (donationId it) x then f x else x) t).
Proof.
  assert (Hw : snd (fst (HandleStripeWebhook.lambda_handler wev env t)) = t
               \/ exists it f,
                   Lifecycle.completes env t = Some it
                   /\ snd (fst (HandleStripeWebhook.lambda_handler wev env t))
                      = map (fun x => if has_key (donationId it) x
                                      then f x else x) t).
  { destruct (complete_writes wev env t)
      as [H | (it & vid & e & c & pe & pn & Hc & Hin & H)];
      cbn [Lifecycle.apply] in H; [now left|].
    right. exists it. eexists. split; [exact Hc|]. rewrite H.
    apply update_item_present with (it := it); [exact Hin|apply has_own_key]. }
  split; [|split; [|split; [|split; [|exact Hw]]]]; clear Hw;
    destruct (WebhookFacts.webhook_outcome wev env t)
      as [[Hh ->]
         |[(Hh & x & Hc & ->)
          |(Hh & e & Hc
            & [[Hty ->]
              |[(Hty & Hnull & ->)
               |(Hty & Hd & Ha & [[msg ->]|(t' & mails & ->)])]])]];
    cbn [fst snd].
  (* the handler raises exactly on a null *)
  - split; [now left|eauto].
  - split; [intros [y Hy]; discriminate Hy|].
    intros [H|(e & He & _)]; congruence.
  - split; [intros [y Hy]; discriminate Hy|].
    intros [H|(e' & He & Hty' & _)]; congruence.
  - split; [|eauto]. intros _. right. exists e. auto.
  - split; [intros [y Hy]; discriminate Hy|].
    intros [H|(e' & He & _ & Hn)]; [congruence|].
    assert (e' = e) as -> by congruence. destruct Hn; congruence.
  - split; [intros [y Hy]; discriminate Hy|].
    intros [H|(e' & He & _ & Hn)]; [congruence|].
    assert (e' = e) as -> by congruence. destruct Hn; congruence.
  (* 400 exactly on a refused signature *)
  - split; [intros (r & Hr & _); discriminate Hr|]. intros [H _]. congruence.
  - split; [eauto|]. intros _. eexists. split; reflexivity.
  - split; [intros (r & [= <-] & Hr); discriminate Hr|].
    intros (_ & y & Hy). congruence.
  - split; [intros (r & Hr & _); discriminate Hr|].
    intros (_ & y & Hy). congruence.
  - split; [intros (r & [= <-] & Hr); discriminate Hr|].
    intros (_ & y & Hy). congruence.
  - split; [intros (r & [= <-] & Hr); discriminate Hr|].
    intros (_ & y & Hy). congruence.
  (* a returned status is 400 or 200 *)
  - intros r Hr. discriminate Hr.
  - intros r [= <-]. now left.
  - intros r [= <-]. now right.
  - intros r Hr. discriminate Hr.
  - intros r [= <-]. now right.
  - intros r [= <-]. now right.
  (* nothing written and no mail without the success body *)
  - auto.
  - auto.
  - auto.
  - auto.
  - auto.
  - intros H. congruence.
Qed.

Lemma map_without_key (k : string) (f : item -> item) (t : table) :
  ~ In k (map donationId t) ->
  map (fun x => if has_key k x then f x else x) t = t.
Proof.
  intros Hk. induction t as [|y t IH]; [reflexivity|].
  cbn [map] in *. rewrite IH by (intros H; apply Hk; now right).
  replace (has_key k y) with false; [reflexivity|].
  symmetry. apply String.eqb_neq. intros Heq. apply Hk. now left.
Qed.

(** Under a code no record holds yet, the completed record is the one
    record the code finds. *)
Lemma query_fresh_code (code : string) (f : item -> item) (t : table)
      (it : item) :
  NoDup (map donationId t) -> In it t ->
  query verificationId code t = [] ->
  verificationId (f it) = Some code ->
  query verificationId code
        (map (fun x => if has_key (donationId it) x then f x else x) t)
  = [f it].
Proof.
  intros Hnd Hin Hfresh Hcode.
  induction t as [|y t IH]; [destruct Hin|].
  cbn [map] in Hnd. inversion Hnd as [|? ? Hy Hnd']; subst.
  unfold query in Hfresh. cbn [filter] in Hfresh.
  destruct (attr_is code (verificationId y)) eqn:Hyc; [discriminate Hfresh|].
  cbn [map]. destruct Hin as [->|Hin].
  - rewrite has_own_key. rewrite (map_without_key _ _ _ Hy).
    unfold query. cbn [filter]. rewrite Hcode. cbn [attr_is].
    rewrite String.eqb_refl. fold (query verificationId code t).
    unfold query. now rewrite Hfresh.
  - replace (has_key (donationId it) y) with false.
    + unfold query. cbn [filter]. rewrite Hyc.
      apply (IH Hnd' Hin Hfresh).
    + symmetry. apply String.eqb_neq. intros Heq. apply Hy.
      rewrite Heq. now apply in_map.
Qed.

(** A served completion followed by a scan of its code within two
    hours: the scan redeems, whatever the record was before. *)
Lemma completion_then_scan
      (wev : HandleStripeWebhook.event)
      (env : HandleStripeWebhook.environment) (t : table)
      (e : HandleStripeWebhook.stripe_event) (sid : string)
      (it : item) (rest : list item)
      (venv : ValidateTicket.environment) :
  NoDup (map donationId t) ->
  HandleStripeWebhook.headers wev <> HandleStripeWebhook.NullHeaders ->
  HandleStripeWebhook.construct_event env = Returns e ->
  HandleStripeWebhook.event_type e = "checkout.session.completed" ->
  HandleStripeWebhook.id (HandleStripeWebhook.data_object e) = Some sid ->
  HandleStripeWebhook.customer_details (HandleStripeWebhook.data_object e) <> HandleStripeWebhook.NullDetails ->
  HandleStripeWebhook.amount_total (HandleStripeWebhook.data_object e) <> HandleStripeWebhook.NullAmount ->
  HandleStripeWebhook.query_fault env = None ->
  HandleStripeWebhook.update_fault env = None ->
  query checkoutSessionId sid t = it :: rest ->
  query verificationId
        (HandleStripeWebhook.generate_short_id (HandleStripeWebhook.random env) 7)
        t = [] ->
  valid_datetime (HandleStripeWebhook.now_utc env) ->
  1970 <= year (dt_date (HandleStripeWebhook.now_utc env)) <= 9998 ->
  ValidateTicket.query_fault venv = None ->
  ValidateTicket.update_fault venv = None ->
  epoch_seconds (ValidateTicket.current_time_utc venv)
  <= HandleStripeWebhook.creation_timestamp (HandleStripeWebhook.now_utc env)
     + 2 * 60 * 60 ->
  exists expiry email payer_name amount,
    let f :=
      HandleStripeWebhook.completion_update
        (HandleStripeWebhook.generate_short_id (HandleStripeWebhook.random env) 7)
        expiry
        (HandleStripeWebhook.creation_timestamp (HandleStripeWebhook.now_utc env))
        email payer_name in
    HandleStripeWebhook.expiration_timestamp (HandleStripeWebhook.now_utc env)
    = Returns expiry
    /\ HandleStripeWebhook.lambda_handler wev env t
       = (Returns (HandleStripeWebhook.mkresponse 200 (Some [("status", "success")])),
          map (fun x => if has_key (donationId it) x then f x else x) t,
          HandleStripeWebhook.send_verification_email env email
            (HandleStripeWebhook.generate_short_id
               (HandleStripeWebhook.random env) 7)
            amount
            (match frontendDomain it with
             | Some d => d
             | None => HandleStripeWebhook.FALLBACK_FRONTEND_DOMAIN env
             end))
    /\ ValidateTicket.lambda_handler
         (scan (HandleStripeWebhook.generate_short_id
                  (HandleStripeWebhook.random env) 7))
         venv (map (fun x => if has_key (donationId it) x then f x else x) t)
       = (ValidateTicket.create_response 200
            (ValidateTicket.Ticket
               (ValidateTicket.response_data_of
                  (ValidateTicket.mksnapshot
                     (HandleStripeWebhook.generate_short_id
                        (HandleStripeWebhook.random env) 7)
                     (f it)
                     (epoch_seconds (ValidateTicket.current_time_utc venv)))
                  true "Ticket is valid and has been redeemed." true
                  (Some (epoch_seconds (ValidateTicket.redeem_timestamp venv)))
                  "redeemed"))
            ValidateTicket.cors_headers,
          map (fun x => if has_key (donationId it) x
                        then ValidateTicket.redeem_update
                               (epoch_seconds
                                  (ValidateTicket.redeem_timestamp venv)) x
                        else x)
              (map (fun x => if has_key (donationId it) x then f x else x) t)).
Proof.
  intros Hnd Hh He Hty Hid Hd Ha Hqf Huf Hq Hfresh Hv Hy Hvq Hvu Hnow.
  set (code := HandleStripeWebhook.generate_short_id
                 (HandleStripeWebhook.random env) 7) in *.
  destruct (expiry_after_creation _ Hv Hy) as (expiry & Hexp & Hlo & _).
  destruct (WebhookFacts.completion_writes wev env t e sid it rest expiry
              Hh He Hty Hid Hd Ha Hqf Huf Hq Hexp)
    as (email & pn & amount & _ & _ & Hpaid).
  pose proof (query_in _ _ _ _ _ Hq) as Hin.
  fold code in Hpaid.
  set (f := HandleStripeWebhook.completion_update code expiry
              (HandleStripeWebhook.creation_timestamp
                 (HandleStripeWebhook.now_utc env))
              email pn) in *.
  rewrite (update_item_present _ f _ it Hin (has_own_key it)) in Hpaid.
  exists expiry, email, pn, amount. fold code. fold f. cbv zeta.
  split; [exact Hexp|]. split; [exact Hpaid|].
  assert (Hcode : code <> EmptyString).
  { intros Hempty.
    assert (Hlen : String.length code = 7%nat).
    { unfold code, HandleStripeWebhook.generate_short_id.
      rewrite CodeFacts.length_string_of_list_ascii.
      apply CodeFacts.choices_from. reflexivity. }
    rewrite Hempty in Hlen. discriminate Hlen. }
  assert (Hitems : query verificationId code
                     (map (fun x => if has_key (donationId it) x
                                    then f x else x) t) = [f it]).
  { apply query_fresh_code; auto. }
  assert (Hvalid : ValidateTicket.validation_rules (f it)
                     (epoch_seconds (ValidateTicket.current_time_utc venv))
                   = Returns (true, "Ticket is valid.")).
  { unfold ValidateTicket.validation_rules.
    cbn [f HandleStripeWebhook.completion_update status redeemed
         expirationTime creationTime ValidateTicket.default attr_is].
    change ("completed" =? "completed")%string with true. cbn [negb].
    replace (expiry <? epoch_seconds (ValidateTicket.current_time_utc venv))
      with false by (symmetry; apply Z.ltb_ge; lia).
    replace (HandleStripeWebhook.creation_timestamp
               (HandleStripeWebhook.now_utc env) + 2 * 60 * 60
             <? epoch_seconds (ValidateTicket.current_time_utc venv))
      with false by (symmetry; apply Z.ltb_ge; lia).
    reflexivity. }
  unfold ValidateTicket.lambda_handler, ValidateTicket.try_block.
  cbn [scan ValidateTicket.httpMethod attr_is].
  change ("POST" =? "OPTIONS")%string with false. cbv iota.
  rewrite (lookup_found (scan code) venv _ code (f it) [] eq_refl Hcode Hvq
                        Hitems), Hvalid.
  unfold ValidateTicket.redemption_logic. cbn [ValidateTicket.snap_item].
  rewrite redeem_write_cases, Hvu.
  assert (Hkey : donationId (f it) = donationId it) by reflexivity.
  rewrite Hkey.
  rewrite get_item_map by reflexivity.
  rewrite (get_item_unique t it Hnd Hin). cbn [option_map].
  cbn [f HandleStripeWebhook.completion_update
       ValidateTicket.not_yet_redeemed redeemed Bool.eqb].
  rewrite (update_item_present _ _ _ (f it)); [reflexivity| |exact (has_own_key it)].
  apply in_map_iff. exists it. rewrite has_own_key. auto.
Qed.

(** From payment to the gate.  When the payment event of a stored
    purchase is served and its code is not yet held by another record,
    a scan of that code within two hours of the completion redeems the
    ticket of that purchase; any mail sent carries that code, also in
    its link. *)
Theorem paid_ticket_is_redeemable
        (wev : HandleStripeWebhook.event)
        (env : HandleStripeWebhook.environment) (t : table)
        (e : HandleStripeWebhook.stripe_event) (sid : string)
        (it : item) (rest : list item)
        (venv : ValidateTicket.environment) :
  NoDup (map donationId t) ->
  HandleStripeWebhook.headers wev <> HandleStripeWebhook.NullHeaders ->
  HandleStripeWebhook.construct_event env = Returns e ->
  HandleStripeWebhook.event_type e = "checkout.session.completed" ->
  HandleStripeWebhook.id (HandleStripeWebhook.data_object e) = Some sid ->
  HandleStripeWebhook.customer_details (HandleStripeWebhook.data_object e) <> HandleStripeWebhook.NullDetails ->
  HandleStripeWebhook.amount_total (HandleStripeWebhook.data_object e) <> HandleStripeWebhook.NullAmount ->
  HandleStripeWebhook.query_fault env = None ->
  HandleStripeWebhook.update_fault env = None ->
  query checkoutSessionId sid t = it :: rest ->
  query verificationId
        (HandleStripeWebhook.generate_short_id (HandleStripeWebhook.random env) 7)
        t = [] ->
  valid_datetime (HandleStripeWebhook.now_utc env) ->
  1970 <= year (dt_date (HandleStripeWebhook.now_utc env)) <= 9998 ->
  ValidateTicket.query_fault venv = None ->
  ValidateTicket.update_fault venv = None ->
  epoch_seconds (ValidateTicket.current_time_utc venv)
  <= HandleStripeWebhook.creation_timestamp (HandleStripeWebhook.now_utc env)
     + 2 * 60 * 60 ->
  fst (fst (HandleStripeWebhook.lambda_handler wev env t))
  = Returns (HandleStripeWebhook.mkresponse 200 (Some [("status", "success")]))
  /\ Forall (fun m => HandleStripeWebhook.email_verification_id m
                      = (HandleStripeWebhook.generate_short_id (HandleStripeWebhook.random env) 7)
                      /\ TicketMail.verification_url m
                         = (HandleStripeWebhook.frontend_domain m
                              ++ "/verify?id="
                              ++ (HandleStripeWebhook.generate_short_id (HandleStripeWebhook.random env) 7))%string)
            (snd (HandleStripeWebhook.lambda_handler wev env t))
  /\ exists d,
      fst (ValidateTicket.lambda_handler
             (scan (HandleStripeWebhook.generate_short_id (HandleStripeWebhook.random env) 7))
             venv (snd (fst (HandleStripeWebhook.lambda_handler wev env t))))
      = ValidateTicket.create_response 200 (ValidateTicket.Ticket d)
                                       ValidateTicket.cors_headers
      /\ ValidateTicket.valid d = true
      /\ ValidateTicket.actionTaken d = "redeemed"
      /\ ValidateTicket.r_donationId d = donationId it
      /\ ValidateTicket.r_redeemed d = true
      /\ ValidateTicket.r_redeemedTime d
         = Some (epoch_seconds (ValidateTicket.redeem_timestamp venv)).
Proof.
  intros Hnd Hh He Hty Hid Hd Ha Hqf Huf Hq Hfresh Hv Hy Hvq Hvu Hnow.
  destruct (completion_then_scan wev env t e sid it rest venv Hnd Hh He Hty Hid Hd Ha Hqf
              Huf Hq Hfresh Hv Hy Hvq Hvu Hnow)
    as (expiry & email & pn & amount & _ & Hpaid & Hscan).
  cbv zeta in Hpaid, Hscan. rewrite Hpaid. cbn [fst snd]. rewrite Hscan.
  cbn [fst].
  split; [reflexivity|]. split.
  - unfold HandleStripeWebhook.send_verification_email.
    destruct (HandleStripeWebhook.send_email_fault env); [constructor|].
    destruct email; [|constructor].
    constructor; [split; reflexivity|constructor].
  - eexists. split; [reflexivity|]. cbn. auto.
Qed.

Lemma paid_ticket_is_redeemable_witness :
  fst (fst (HandleStripeWebhook.lambda_handler signed (delivery "cs_test_1" None) [pending_record]))
  = Returns (HandleStripeWebhook.mkresponse 200 (Some [("status", "success")]))
  /\ Forall (fun m => HandleStripeWebhook.email_verification_id m
                      = (HandleStripeWebhook.generate_short_id (HandleStripeWebhook.random (delivery "cs_test_1" None)) 7)
                      /\ TicketMail.verification_url m
                         = (HandleStripeWebhook.frontend_domain m
                              ++ "/verify?id="
                              ++ (HandleStripeWebhook.generate_short_id (HandleStripeWebhook.random (delivery "cs_test_1" None)) 7))%string)
            (snd (HandleStripeWebhook.lambda_handler signed (delivery "cs_test_1" None) [pending_record]))
  /\ exists d,
      fst (ValidateTicket.lambda_handler
             (scan (HandleStripeWebhook.generate_short_id (HandleStripeWebhook.random (delivery "cs_test_1" None)) 7))
             (calm after_10_min) (snd (fst (HandleStripeWebhook.lambda_handler signed (delivery "cs_test_1" None) [pending_record]))))
      = ValidateTicket.create_response 200 (ValidateTicket.Ticket d)
                                       ValidateTicket.cors_headers
      /\ ValidateTicket.valid d = true
      /\ ValidateTicket.actionTaken d = "redeemed"
      /\ ValidateTicket.r_donationId d = donationId pending_record
      /\ ValidateTicket.r_redeemed d = true
      /\ ValidateTicket.r_redeemedTime d
         = Some (epoch_seconds (ValidateTicket.redeem_timestamp (calm after_10_min))).
Proof.
  apply (paid_ticket_is_redeemable
           signed (delivery "cs_test_1" None) [pending_record]
           (paid "cs_test_1") "cs_test_1" pending_record []
           (calm after_10_min)).
  - vm_compute. repeat constructor. intros [].
  - discriminate.
  - reflexivity.
  - reflexivity.
  - reflexivity.
  - discriminate.
  - discriminate.
  - reflexivity.
  - reflexivity.
  - reflexivity.
  - reflexivity.
  - unfold valid_datetime, valid_date. vm_compute. intuition discriminate.
  - vm_compute. intuition discriminate.
  - reflexivity.
  - reflexivity.
  - vm_compute. discriminate.
Defined.

(** A payment event delivered again for a ticket already redeemed
    re-opens it: the completion sets [redeemed] back to false and
    issues a new code, and a scan of the new code within two hours
    redeems the same record a second time, replacing the first
    redemption time. *)
Theorem redelivery_reopens_a_redeemed_ticket
        (wev : HandleStripeWebhook.event)
        (env : HandleStripeWebhook.environment) (t : table)
        (e : HandleStripeWebhook.stripe_event) (sid : string)
        (it : item) (rest : list item)
        (venv : ValidateTicket.environment) (first : Z) :
  NoDup (map donationId t) ->
  HandleStripeWebhook.headers wev <> HandleStripeWebhook.NullHeaders ->
  HandleStripeWebhook.construct_event env = Returns e ->
  HandleStripeWebhook.event_type e = "checkout.session.completed" ->
  HandleStripeWebhook.id (HandleStripeWebhook.data_object e) = Some sid ->
  HandleStripeWebhook.customer_details (HandleStripeWebhook.data_object e) <> HandleStripeWebhook.NullDetails ->
  HandleStripeWebhook.amount_total (HandleStripeWebhook.data_object e) <> HandleStripeWebhook.NullAmount ->
  HandleStripeWebhook.query_fault env = None ->
  HandleStripeWebhook.update_fault env = None ->
  query checkoutSessionId sid t = it :: rest ->
  query verificationId
        (HandleStripeWebhook.generate_short_id (HandleStripeWebhook.random env) 7)
        t = [] ->
  valid_datetime (HandleStripeWebhook.now_utc env) ->
  1970 <= year (dt_date (HandleStripeWebhook.now_utc env)) <= 9998 ->
  ValidateTicket.query_fault venv = None ->
  ValidateTicket.update_fault venv = None ->
  epoch_seconds (ValidateTicket.current_time_utc venv)
  <= HandleStripeWebhook.creation_timestamp (HandleStripeWebhook.now_utc env)
     + 2 * 60 * 60 ->
  redeemed it = Some true -> redeemedTime it = Some first ->
  (exists it1,
      In it1 (snd (fst (HandleStripeWebhook.lambda_handler wev env t)))
      /\ donationId it1 = donationId it
      /\ redeemed it1 = Some false /\ redeemedTime it1 = Some first)
  /\ ValidateTicket.body_action
       (ValidateTicket.response_body_of
          (fst (ValidateTicket.lambda_handler
                  (scan (HandleStripeWebhook.generate_short_id (HandleStripeWebhook.random env) 7))
                  venv (snd (fst (HandleStripeWebhook.lambda_handler wev env t))))))
     = Some "redeemed"
  /\ exists it2,
      In it2 (snd (ValidateTicket.lambda_handler
                     (scan (HandleStripeWebhook.generate_short_id (HandleStripeWebhook.random env) 7))
                     venv (snd (fst (HandleStripeWebhook.lambda_handler wev env t)))))
      /\ donationId it2 = donationId it
      /\ redeemed it2 = Some true
      /\ redeemedTime it2
         = Some (epoch_seconds (ValidateTicket.redeem_timestamp venv)).
Proof.
  intros Hnd Hh He Hty Hid Hd Ha Hqf Huf Hq Hfresh Hv Hy Hvq Hvu Hnow Hred Hfirst.
  destruct (completion_then_scan wev env t e sid it rest venv Hnd Hh He Hty Hid Hd Ha Hqf
              Huf Hq Hfresh Hv Hy Hvq Hvu Hnow)
    as (expiry & email & pn & amount & _ & Hpaid & Hscan).
  cbv zeta in Hpaid, Hscan. rewrite Hpaid. cbn [fst snd]. rewrite Hscan.
  cbn [fst snd].
  pose proof (query_in _ _ _ _ _ Hq) as Hin.
  split; [|split].
  - eexists. split.
    + apply in_map_iff. exists it. split; [|exact Hin].
      rewrite has_own_key. reflexivity.
    + cbn. auto.
  - reflexivity.
  - eexists. split.
    + apply in_map_iff. eexists. split; [reflexivity|].
      apply in_map_iff. exists it. split; [|exact Hin].
      rewrite has_own_key. reflexivity.
    + replace (has_key (donationId it) _) with true
        by (symmetry; exact (has_own_key it)).
      cbn. auto.
Qed.

Lemma redelivery_reopens_a_redeemed_ticket_witness :
  (exists it1,
      In it1 (snd (fst (HandleStripeWebhook.lambda_handler signed (delivery "cs_test_1" None) used_table)))
      /\ donationId it1 = donationId used_ticket
      /\ redeemed it1 = Some false /\ redeemedTime it1 = Some 1704928200)
  /\ ValidateTicket.body_action
       (ValidateTicket.response_body_of
          (fst (ValidateTicket.lambda_handler
                  (scan (HandleStripeWebhook.generate_short_id (HandleStripeWebhook.random (delivery "cs_test_1" None)) 7))
                  (calm after_20_min) (snd (fst (HandleStripeWebhook.lambda_handler signed (delivery "cs_test_1" None) used_table))))))
     = Some "redeemed"
  /\ exists it2,
      In it2 (snd (ValidateTicket.lambda_handler
                     (scan (HandleStripeWebhook.generate_short_id (HandleStripeWebhook.random (delivery "cs_test_1" None)) 7))
                     (calm after_20_min) (snd (fst (HandleStripeWebhook.lambda_handler signed (delivery "cs_test_1" None) used_table)))))
      /\ donationId it2 = donationId used_ticket
      /\ redeemed it2 = Some true
      /\ redeemedTime it2
         = Some (epoch_seconds (ValidateTicket.redeem_timestamp (calm after_20_min))).
Proof.
  apply (redelivery_reopens_a_redeemed_ticket
           signed (delivery "cs_test_1" None) used_table (paid "cs_test_1")
           "cs_test_1" used_ticket [] (calm after_20_min) 1704928200).
  - vm_compute. repeat constructor. intros [].
  - discriminate.
  - reflexivity.
  - reflexivity.
  - reflexivity.
  - discriminate.
  - discriminate.
  - reflexivity.
  - reflexivity.
  - reflexivity.
  - reflexivity.
  - unfold valid_datetime, valid_date. vm_compute. intuition discriminate.
  - vm_compute. intuition discriminate.
  - reflexivity.
  - reflexivity.
  - vm_compute. discriminate.
  - reflexivity.
  - reflexivity.
Defined.

End TicketFacts.

(* ================================================================= *)
(** ** What every stored record looks like                             *)
(* ================================================================= *)

Module ShapeFacts.

Import Lifecycle Shape Examples MoreExamples ValidateFacts LifecycleFacts.

Lemma complete_writes_code (wev : HandleStripeWebhook.event)
      (env : HandleStripeWebhook.environment) (t : table) :
  apply (completePurchase wev env) t = t
  \/ exists it e c pe pn,
      In it t
      /\ apply (completePurchase wev env) t
         = update_item (donationId it)
             (HandleStripeWebhook.completion_update
                (HandleStripeWebhook.generate_short_id
                   (HandleStripeWebhook.random env) 7) e c pe pn) t.
Proof.
  cbn [apply].
  destruct (WebhookFacts.webhook_writes wev env t)
    as [H|(it & expiry & email & pn & mails & _ & Hin & _ & H)];
    [now left|].
  right. rewrite H. cbn [fst snd]. do 5 eexists.
  split; [exact Hin|reflexivity].
Qed.

(** A property of records that the three writes establish and keep
    holds in every table reached from the empty one. *)
Lemma run_invariant (P : item -> Prop) :
  (forall uuid sid a email time event_name,
      100 <= a -> ProcessDonation.non_empty email = true ->
      P (mkitem uuid (Some sid) (Some a) (Some "eur") (Some "pending") email
                (Some time) event_name None None None None None None None)) ->
  (forall it random e c pe pn,
      P it ->
      P (HandleStripeWebhook.completion_update
           (HandleStripeWebhook.generate_short_id random 7) e c pe pn it)) ->
  (forall it rt,
      P it -> status it = Some "completed" ->
      P (ValidateTicket.redeem_update rt it)) ->
  forall ops, Forall P (run ops []).
Proof.
  intros Hcreate Hcomplete Hredeem ops.
  assert (Hgen : forall t, well_formed t -> Forall P t -> Forall P (run ops t)).
  { induction ops as [|op ops IH]; intros t Hwf Hall; [exact Hall|].
    cbn [run fold_left]. apply IH; [now apply apply_well_formed|].
    destruct Hwf as [Hnd _].
    assert (Hin : forall it, In it t -> P it) by (now apply Forall_forall).
    destruct op as [ev env|wev env|ev env].
    - cbn [apply].
      destruct (attr_is "OPTIONS" (ProcessDonation.httpMethod ev)) eqn:Hopt.
      + unfold ProcessDonation.lambda_handler. now rewrite Hopt.
      + destruct (PriceFacts.purchase_cases ev env t Hopt)
          as [[_ ->] | (email & rq & a & en & cs & _ & Ha & Hem & _ & _ & ->)];
          [exact Hall|].
        cbn [snd]. apply put_item_Forall; [|exact Hall]. now apply Hcreate.
    - destruct (complete_writes_code wev env t)
        as [->|(it & e & c & pe & pn & Hit & ->)]; [exact Hall|].
      apply update_item_Forall; auto.
    - destruct (redeem_writes ev env t) as [->|(it & Hit & Hst & ->)];
        [exact Hall|].
      apply update_item_Forall; auto.
      apply Hredeem; [now apply Hin|now apply completed_status]. }
  apply Hgen; [split|]; constructor.
Qed.

Lemma short_id_length (random : nat -> HandleStripeWebhook.uniform01) :
  String.length (HandleStripeWebhook.generate_short_id random 7) = 7%nat.
Proof.
  unfold HandleStripeWebhook.generate_short_id.
  rewrite CodeFacts.length_string_of_list_ascii.
  apply CodeFacts.choices_from. reflexivity.
Qed.

(** Every record the three operations can produce is a pending one
    (payer given; no code, expiry, creation time or redemption) or a
    completed one (a 7-character code, expiry, creation time and
    redemption flag all set): a record has a verification code exactly
    when it is completed, and no other status is ever stored. *)
Theorem records_are_pending_or_completed (ops : list operation) :
  Forall (fun it =>
            (pending_shape it \/ completed_shape it)
            /\ (verificationId it <> None <-> status it = Some "completed"))
         (run ops []).
Proof.
  apply run_invariant.
  - intros. split.
    + left. unfold pending_shape. cbn. repeat split; auto.
    + cbn. split; [congruence|discriminate].
  - intros it random e c pe pn _. split.
    + right. unfold completed_shape. cbn. repeat split; try discriminate.
      eexists. split; [reflexivity|apply short_id_length].
    + cbn. split; [reflexivity|discriminate].
  - intros it rt [[Hp|Hc] Hiff] Hst.
    + destruct Hp as (Hpending & _). rewrite Hpending in Hst. discriminate.
    + split; [|exact Hiff]. right.
      destruct Hc as (? & ? & ? & ? & ?).
      unfold completed_shape. cbn. repeat split; auto. discriminate.
Qed.

(** Every stored record is worth at least 100 cents, is in euros and
    has the session id and the time of its purchase: no later write
    touches them. *)
Theorem records_are_paid_for (ops : list operation) :
  Forall paid_for (run ops []).
Proof.
  apply run_invariant.
  - intros. unfold paid_for. cbn. repeat split; eauto; discriminate.
  - intros it random e c pe pn H. exact H.
  - intros it rt H _. exact H.
Qed.

End ShapeFacts.

(* ================================================================= *)
(** ** The space of verification codes                                 *)
(* ================================================================= *)

Module CodeSpaceFacts.

Import Shape HandleStripeWebhook.

Lemma unit_float_mantissa (m : Z) :
  0 <= m < 2 ^ 53 -> mantissa (unit_float m) = m.
Proof.
  intros Hm. unfold unit_float.
  destruct (bool_dec ((0 <=? m) && (m <? 2 ^ 53)) true) as [H|H];
    [reflexivity|].
  exfalso. apply H. apply andb_true_iff. split.
  - apply Z.leb_le. lia.
  - apply Z.ltb_lt. lia.
Qed.

Lemma least_for_selects (i : Z) :
  0 <= i < 34 -> PyFloat.floor (random_times (least_for 34 i) 34) = i.
Proof.
  intros Hi.
  pose (f := fun i => PyFloat.floor (random_times (least_for 34 i) 34) =? i).
  apply Z.eqb_eq. change (f i = true).
  apply (PyDatetimeFacts.forallb_range f 34); [|lia].
  vm_compute. reflexivity.
Qed.

Lemma index_of_nth (c : ascii) (l : list ascii) (d : ascii) :
  In c l -> (index_of c l < List.length l)%nat /\ nth (index_of c l) l d = c.
Proof.
  induction l as [|x l IH]; [intros []|].
  intros Hin. cbn [index_of]. destruct (Ascii.eqb_spec x c) as [->|Hne].
  - split; [cbn; lia|reflexivity].
  - destruct Hin as [Heq|Hin]; [congruence|].
    destruct (IH Hin) as [Hlt Hnth]. split; [cbn; lia|exact Hnth].
Qed.

Lemma in_alphabet (c : ascii) :
  Spec.uppercase_or_2_to_9 c = true -> In c alphabet.
Proof.
  intros H.
  assert (Hex : existsb (Ascii.eqb c) alphabet = true).
  { revert H. destruct c as [[] [] [] [] [] [] [] []]; vm_compute;
      intros H; (reflexivity || discriminate H). }
  apply existsb_exists in Hex. destruct Hex as (x & Hx & Heq).
  apply Ascii.eqb_eq in Heq. now subst.
Qed.

Lemma choice_source_for (code : list ascii) (i : nat) :
  In (nth i code " "%char) alphabet ->
  choice alphabet (source_for code i) = nth i code " "%char.
Proof.
  intros Hin. destruct (index_of_nth _ _ " "%char Hin) as [Hlt Hnth].
  unfold choice, source_for.
  change (Z.of_nat (List.length alphabet)) with 34.
  change (List.length alphabet) with 34%nat in Hlt.
  rewrite least_for_selects by lia.
  now rewrite Nat2Z.id.
Qed.

(** Every string over the alphabet of the codes (uppercase letters and
    the digits 2-9) is the code of some random source: the code is the
    characters selected by the successive values of [random()], so all
    of the 34^7 seven-character strings can be issued. *)
Theorem every_code_can_be_issued (code : string) :
  forallb Spec.uppercase_or_2_to_9 (list_ascii_of_string code) = true ->
  generate_short_id (source_for (list_ascii_of_string code))
                    (String.length code)
  = code.
Proof.
  intros Hall. unfold generate_short_id. cbv zeta.
  fold alphabet.
  rewrite <- (string_of_list_ascii_of_string code) at 3.
  f_equal.
  set (l := list_ascii_of_string code) in *.
  assert (Hlen : String.length code = List.length l).
  { rewrite <- (string_of_list_ascii_of_string code).
    fold l. apply CodeFacts.length_string_of_list_ascii. }
  rewrite Hlen. unfold choices.
  apply nth_ext with (d := " "%char) (d' := " "%char).
  - now rewrite length_map, length_seq.
  - intros n Hn. rewrite length_map, length_seq in Hn.
    rewrite (nth_indep _ " "%char (choice alphabet (source_for l 0%nat)))
      by (now rewrite length_map, length_seq).
    rewrite (map_nth (fun i => choice alphabet (source_for l i))).
    rewrite seq_nth by exact Hn. cbn [Nat.add].
    apply choice_source_for. apply in_alphabet.
    rewrite forallb_forall in Hall. apply Hall. now apply nth_In.
Qed.

Lemma every_code_can_be_issued_witness :
  generate_short_id (source_for (list_ascii_of_string "TICKET7"))
                    (String.length "TICKET7")
  = "TICKET7".
Proof.
  apply (every_code_can_be_issued "TICKET7"). reflexivity.
Defined.

End CodeSpaceFacts.

(* ================================================================= *)
(** ** The status poll                                                 *)
(* ================================================================= *)

Module PollFacts.

Import Examples MoreExamples ValidateFacts.

Lemma query_app (attr : item -> option string) (v : string) (a b : table) :
  query attr v (a ++ b) = query attr v a ++ query attr v b.
Proof. apply filter_app. Qed.

(** A record written under a session id no other record has is the
    first one the session id finds. *)
Lemma query_put_fresh (sid : string) (it : item) (t : table) :
  checkoutSessionId it = Some sid ->
  query checkoutSessionId sid t = [] ->
  exists rest, query checkoutSessionId sid (put_item it t) = it :: rest.
Proof.
  intros Hsid Hfresh.
  assert (Hit : attr_is sid (checkoutSessionId it) = true).
  { rewrite Hsid. apply String.eqb_refl. }
  unfold put_item.
  destruct (existsb (has_key (donationId it)) t) eqn:Hex.
  - induction t as [|y t IH]; [discriminate Hex|].
    unfold query in Hfresh. cbn [filter] in Hfresh.
    destruct (attr_is sid (checkoutSessionId y)) eqn:Hy; [discriminate Hfresh|].
    cbn [map]. destruct (has_key (donationId it) y) eqn:Hk.
    + unfold query. cbn [filter]. rewrite Hit. eauto.
    + unfold query. cbn [filter]. rewrite Hy.
      cbn [existsb] in Hex. rewrite Hk in Hex. exact (IH Hfresh Hex).
  - rewrite query_app, Hfresh. unfold query. cbn [filter app].
    rewrite Hit. eauto.
Qed.

(** The poll of a session reports a purchase that is still pending as
    [succeeded], like a completed one: right after an accepted
    purchase, before any payment event, the poll answers 200 with
    status [succeeded], no verification code and [redeemed = false]. *)
Theorem pending_purchase_polls_as_succeeded
        (ev : ProcessDonation.event) (env : ProcessDonation.environment)
        (t : table) (method : option string)
        (cs : ProcessDonation.checkout_session) :
  attr_is "OPTIONS" (ProcessDonation.httpMethod ev) = false ->
  ProcessDonation.statusCode (fst (ProcessDonation.lambda_handler ev env t))
  = 200 ->
  ProcessDonation.session_create env = Returns cs ->
  ProcessDonation.id cs <> EmptyString ->
  query checkoutSessionId (ProcessDonation.id cs) t = [] ->
  attr_is "OPTIONS" method = false ->
  exists d,
    GetDonationDetails.lambda_handler
      (GetDonationDetails.mkevent method
         (GetDonationDetails.Parameters (Some (ProcessDonation.id cs))))
      None (snd (ProcessDonation.lambda_handler ev env t))
    = GetDonationDetails.mkresponse 200 (GetDonationDetails.Details d)
    /\ GetDonationDetails.d_status d = "succeeded"
    /\ GetDonationDetails.d_verificationId d = None
    /\ GetDonationDetails.d_redeemed d = false
    /\ GetDonationDetails.d_donationId d = ProcessDonation.uuid4 env.
Proof.
  intros Hopt H200 Hcs Hne Hfresh Hget.
  destruct (PriceFacts.purchase_cases ev env t Hopt)
    as [[H500 _] | (email & rq & a & en & cs' & _ & _ & _ & Hcs' & _ & Hres)].
  { rewrite H500 in H200. discriminate. }
  assert (cs' = cs) as -> by congruence.
  rewrite Hres. cbn [snd].
  match goal with
  | |- context [put_item ?x t] =>
    destruct (query_put_fresh (ProcessDonation.id cs) x t eq_refl Hfresh)
      as [rest Hq]
  end.
  unfold GetDonationDetails.lambda_handler, GetDonationDetails.try_block.
  cbn [GetDonationDetails.httpMethod
       GetDonationDetails.queryStringParameters bind].
  rewrite Hget.
  remember (ProcessDonation.id cs) as sid eqn:Hid.
  destruct sid as [|ch sid]; [congruence|].
  rewrite Hq. cbn [status attr_is].
  change ("pending" =? "completed")%string with false.
  change ("pending" =? "pending")%string with true. cbv iota.
  eexists. split; [reflexivity|]. cbn. auto.
Qed.

Lemma pending_purchase_polls_as_succeeded_witness :
  exists d,
    GetDonationDetails.lambda_handler
      (GetDonationDetails.mkevent (Some "GET")
         (GetDonationDetails.Parameters (Some "cs_test_1")))
      None (snd (ProcessDonation.lambda_handler purchase checkout []))
    = GetDonationDetails.mkresponse 200 (GetDonationDetails.Details d)
    /\ GetDonationDetails.d_status d = "succeeded"
    /\ GetDonationDetails.d_verificationId d = None
    /\ GetDonationDetails.d_redeemed d = false
    /\ GetDonationDetails.d_donationId d = ProcessDonation.uuid4 checkout.
Proof.
  apply (pending_purchase_polls_as_succeeded
           purchase checkout [] (Some "GET")
           (ProcessDonation.mksession "cs_test_1" "https://checkout.test/1")).
  - reflexivity.
  - reflexivity.
  - reflexivity.
  - discriminate.
  - reflexivity.
  - reflexivity.
Defined.

(** After a served payment event the poll of the session answers 200
    with status [succeeded] and the ticket: the code just issued, the
    creation and expiry times of the completion, not redeemed, under
    the id and the amount of the purchase. *)
Theorem completed_purchase_polls_its_code
        (wev : HandleStripeWebhook.event)
        (env : HandleStripeWebhook.environment) (t : table)
        (e : HandleStripeWebhook.stripe_event) (sid : string)
        (it : item) (rest : list item) (expiry : Z)
        (method : option string) :
  HandleStripeWebhook.headers wev <> HandleStripeWebhook.NullHeaders ->
  HandleStripeWebhook.construct_event env = Returns e ->
  HandleStripeWebhook.event_type e = "checkout.session.completed" ->
  HandleStripeWebhook.id (HandleStripeWebhook.data_object e) = Some sid ->
  HandleStripeWebhook.customer_details (HandleStripeWebhook.data_object e) <> HandleStripeWebhook.NullDetails ->
  HandleStripeWebhook.amount_total (HandleStripeWebhook.data_object e) <> HandleStripeWebhook.NullAmount ->
  HandleStripeWebhook.query_fault env = None ->
  HandleStripeWebhook.update_fault env = None ->
  query checkoutSessionId sid t = it :: rest ->
  HandleStripeWebhook.expiration_timestamp (HandleStripeWebhook.now_utc env)
  = Returns expiry ->
  sid <> EmptyString ->
  attr_is "OPTIONS" method = false ->
  exists d,
    GetDonationDetails.lambda_handler
      (GetDonationDetails.mkevent method
         (GetDonationDetails.Parameters (Some sid)))
      None (snd (fst (HandleStripeWebhook.lambda_handler wev env t)))
    = GetDonationDetails.mkresponse 200 (GetDonationDetails.Details d)
    /\ GetDonationDetails.d_status d = "succeeded"
    /\ GetDonationDetails.d_verificationId d
       = Some (HandleStripeWebhook.generate_short_id
                 (HandleStripeWebhook.random env) 7)
    /\ GetDonationDetails.d_creationTime d
       = Some (HandleStripeWebhook.creation_timestamp
                 (HandleStripeWebhook.now_utc env))
    /\ GetDonationDetails.d_expirationTime d = Some expiry
    /\ GetDonationDetails.d_redeemed d = false
    /\ GetDonationDetails.d_donationId d = donationId it
    /\ GetDonationDetails.d_amount d = amount it.
Proof.
  intros Hh He Hty Hid Hd Ha Hqf Huf Hq Hexp Hne Hget.
  destruct (WebhookFacts.completion_writes wev env t e sid it rest expiry
              Hh He Hty Hid Hd Ha Hqf Huf Hq Hexp)
    as (email & pn & amount & _ & _ & Hpaid).
  rewrite Hpaid. cbn [fst snd].
  rewrite (update_item_present _ _ _ it (query_in _ _ _ _ _ Hq)
                               (has_own_key it)).
  unfold GetDonationDetails.lambda_handler, GetDonationDetails.try_block.
  cbn [GetDonationDetails.httpMethod
       GetDonationDetails.queryStringParameters bind].
  rewrite Hget. destruct sid as [|ch sid]; [congruence|].
  rewrite query_map
    by (intros x; now destruct (has_key (donationId it) x)).
  rewrite Hq. cbn [map]. rewrite has_own_key.
  cbn [status HandleStripeWebhook.completion_update attr_is].
  change ("completed" =? "completed")%string with true. cbv iota.
  eexists. split; [reflexivity|]. cbn. auto 10.
Qed.

Lemma completed_purchase_polls_its_code_witness :
  exists d,
    GetDonationDetails.lambda_handler
      (GetDonationDetails.mkevent (Some "GET")
         (GetDonationDetails.Parameters (Some "cs_test_1")))
      None
      (snd (fst (HandleStripeWebhook.lambda_handler
                   signed (delivery "cs_test_1" None) [pending_record])))
    = GetDonationDetails.mkresponse 200 (GetDonationDetails.Details d)
    /\ GetDonationDetails.d_status d = "succeeded"
    /\ GetDonationDetails.d_verificationId d
       = Some (HandleStripeWebhook.generate_short_id
                 (HandleStripeWebhook.random (delivery "cs_test_1" None)) 7)
    /\ GetDonationDetails.d_creationTime d
       = Some (HandleStripeWebhook.creation_timestamp
                 (HandleStripeWebhook.now_utc (delivery "cs_test_1" None)))
    /\ GetDonationDetails.d_expirationTime d = Some 1704949200
    /\ GetDonationDetails.d_redeemed d = false
    /\ GetDonationDetails.d_donationId d = donationId pending_record
    /\ GetDonationDetails.d_amount d = amount pending_record.
Proof.
  apply (completed_purchase_polls_its_code
           signed (delivery "cs_test_1" None) [pending_record]
           (paid "cs_test_1")
           "cs_test_1" pending_record [] 1704949200 (Some "GET")).
  - discriminate.
  - reflexivity.
  - reflexivity.
  - reflexivity.
  - discriminate.
  - discriminate.
  - reflexivity.
  - reflexivity.
  - reflexivity.
  - reflexivity.
  - discriminate.
  - reflexivity.
Defined.

(** On a table written by the three operations the poll never answers
    409: no record has a status other than [pending] or [completed],
    so the branch for an unexpected status is never taken. *)
Theorem poll_never_reports_conflict
        (ops : list Lifecycle.operation) (ev : GetDonationDetails.event)
        (query_fault : fault) :
  GetDonationDetails.statusCode
    (GetDonationDetails.lambda_handler ev query_fault (Lifecycle.run ops []))
  <> 409.
Proof.
  assert (Hst : Forall (fun it => status it = Some "pending"
                                  \/ status it = Some "completed")
                       (Lifecycle.run ops [])).
  { apply ShapeFacts.run_invariant.
    - intros. now left.
    - intros. now right.
    - intros it rt _ Hc. now right. }
  unfold GetDonationDetails.lambda_handler.
  destruct (attr_is "OPTIONS" (GetDonationDetails.httpMethod ev));
    [cbn; discriminate|].
  unfold GetDonationDetails.try_block.
  destruct (GetDonationDetails.queryStringParameters ev) as [| |[sid|]];
    cbn [bind]; try (cbn; discriminate).
  destruct sid as [|ch sid]; [cbn; discriminate|].
  destruct query_fault as [x|]; cbn [bind]; [cbn; discriminate|].
  destruct (query checkoutSessionId (String ch sid) (Lifecycle.run ops []))
    as [|it rest] eqn:Hq; [cbn; discriminate|].
  apply query_in in Hq. rewrite Forall_forall in Hst.
  destruct (Hst it Hq) as [-> | ->]; cbn; discriminate.
Qed.

End PollFacts.
